(** * Multi-agent debate: a shallow embedding of the orchestration engine

    The development follows the Python sources:
    - [graph/state.py]      the session state, its records and the argument reducer;
    - [agents/base.py]      the rendering of the research context and of the
      debate history;
    - [agents/bull_agent.py], [agents/bear_agent.py], [agents/moderator.py],
      [agents/judge.py], [agents/researcher.py]   the five graph nodes;
    - [graph/workflow.py]   the graph (edges, routing functions), its run under
      the recursion limit of the graph library and the merge loop of
      [run_debate];
    - [tools/cortex_analyst.py], [tools/cortex_search.py], [tools/cortex_llm.py],
      [config.py], [streamlit_app.py]   the Snowflake tools and the generator of
      the page.

    Conventions.
    - Python [str] is [string], one element for one character; [str.upper],
      [str.strip] and [str.split] are modelled on ASCII text, where they are
      Python's; results that read free text of the oracle through them are
      stated for ASCII text ([PyStr.is_ascii]).
    - Python [int] is [Z].
    - Python [float] is [PyFloat]: a finite value is the exact rational denoted
      by the decimal token (binary64 rounding and overflow are abstracted), with
      the two infinities and NaN kept apart because [min]/[max] treat them
      specially.
    - A [dict] with free keys is a [gmap string SqlVal]; the [TypedDict] state and
      the dataclasses are records; a node's partial-update dict is a record of
      options ([None]: the key is absent).
    - The reasoning oracle ([CortexLLM.complete], with the calls that raise in
      [OracleFaults]) and the research provider are parameters of the model.
      A participant's turn is split in two: the update it returns
      ([BullAgent.call] and the like, [Workflow.node_call]) and whether it
      returns at all ([Workflow.node_run]: the research context must render
      and the oracle calls must return).  The wall-clock [timestamp] field of
      [Argument] and [Verdict] is left out. *)

From Stdlib Require Import ZArith QArith String Ascii List Bool Lia DecimalString.
From stdpp Require Import base gmap strings list.
Import ListNotations.

Local Open Scope string_scope.
Local Open Scope Z_scope.

(** ** Python strings *)

Module PyStr.

(** [str.isspace] restricted to ASCII: TAB..CR, FS..US and the blank. *)
Definition is_space (c : ascii) : bool :=
  let n := nat_of_ascii c in
  ((9 <=? n)%nat && (n <=? 13)%nat) || ((28 <=? n)%nat && (n <=? 32)%nat).

Definition upper_char (c : ascii) : ascii :=
  let n := nat_of_ascii c in
  if ((97 <=? n)%nat && (n <=? 122)%nat) then ascii_of_nat (n - 32) else c.

Definition lower_char (c : ascii) : ascii :=
  let n := nat_of_ascii c in
  if ((65 <=? n)%nat && (n <=? 90)%nat) then ascii_of_nat (n + 32) else c.

Fixpoint map_chars (f : ascii -> ascii) (s : string) : string :=
  match s with
  | EmptyString => EmptyString
  | String c s' => String (f c) (map_chars f s')
  end.

(** [s.upper()] and [s.lower()] on ASCII text: the letters a-z and A-Z are
    mapped and nothing else (Python also maps letters beyond ASCII). *)
Definition upper (s : string) : string := map_chars upper_char s.
Definition lower (s : string) : string := map_chars lower_char s.

(** [s.startswith(p)] *)
Definition startswith (p s : string) : bool := String.prefix p s.

(** [needle in hay] *)
Fixpoint contains (needle hay : string) : bool :=
  String.prefix needle hay ||
  match hay with
  | EmptyString => false
  | String _ hay' => contains needle hay'
  end.

(** [s.split(sep)] for a one-character separator: empty fields are kept and
    the result is never empty. *)
Fixpoint split (sep : ascii) (s : string) : list string :=
  match s with
  | EmptyString => [EmptyString]
  | String c s' =>
      if Ascii.eqb c sep then EmptyString :: split sep s'
      else match split sep s' with
           | w :: ws => String c w :: ws
           | [] => [String c EmptyString]
           end
  end.

(** [s.split(sep, 1)]: at most one cut. *)
Fixpoint split1 (sep : ascii) (s : string) : list string :=
  match s with
  | EmptyString => [EmptyString]
  | String c s' =>
      if Ascii.eqb c sep then [EmptyString; s']
      else match split1 sep s' with
           | w :: ws => String c w :: ws
           | [] => [String c EmptyString]
           end
  end.

(** [s.split()]: fields separated by runs of white space, none empty. *)
Fixpoint split_ws (s : string) : list string :=
  match s with
  | EmptyString => []
  | String c s' =>
      if is_space c then split_ws s'
      else match s' with
           | EmptyString => [String c EmptyString]
           | String c' _ =>
               if is_space c' then String c EmptyString :: split_ws s'
               else match split_ws s' with
                    | w :: ws => String c w :: ws
                    | [] => [String c EmptyString]
                    end
           end
  end.

Fixpoint lstrip_by (p : ascii -> bool) (s : string) : string :=
  match s with
  | EmptyString => EmptyString
  | String c s' => if p c then lstrip_by p s' else s
  end.

Fixpoint rstrip_by (p : ascii -> bool) (s : string) : string :=
  match s with
  | EmptyString => EmptyString
  | String c s' =>
      match rstrip_by p s' with
      | EmptyString => if p c then EmptyString else String c EmptyString
      | r => String c r
      end
  end.

Definition strip_by (p : ascii -> bool) (s : string) : string :=
  rstrip_by p (lstrip_by p s).

(** [s.strip()] *)
Definition strip (s : string) : string := strip_by is_space s.

Fixpoint mem_char (c : ascii) (chars : string) : bool :=
  match chars with
  | EmptyString => false
  | String d chars' => Ascii.eqb c d || mem_char c chars'
  end.

(** [s.strip(chars)] *)
Definition strip_chars (chars : string) (s : string) : string :=
  strip_by (fun c => mem_char c chars) s.

(** [s.replace(old, "")] for a non-empty [old]: occurrences are removed left
    to right without overlap; [skip] counts the characters of the occurrence
    being dropped. *)
Fixpoint remove_aux (old : string) (skip : nat) (s : string) : string :=
  match s with
  | EmptyString => EmptyString
  | String c s' =>
      match skip with
      | S k => remove_aux old k s'
      | O =>
          if String.prefix old s
          then remove_aux old (String.length old - 1)%nat s'
          else String c (remove_aux old 0%nat s')
      end
  end.

Definition remove (old s : string) : string := remove_aux old 0%nat s.

Definition newline : ascii := ascii_of_nat 10.

(** [text.split("\n")] *)
Definition lines (text : string) : list string := split newline text.

(** [s.replace(old, new)] for a non-empty [old]: occurrences are replaced
    left to right without overlap; [skip] counts the characters of the
    occurrence still to be passed over. *)
Fixpoint replace_aux (old new : string) (skip : nat) (s : string) : string :=
  match s with
  | EmptyString => EmptyString
  | String c s' =>
      match skip with
      | S k => replace_aux old new k s'
      | O =>
          if String.prefix old s
          then new ++ replace_aux old new (String.length old - 1)%nat s'
          else String c (replace_aux old new 0%nat s')
      end
  end.

Definition replace (old new s : string) : string := replace_aux old new 0%nat s.

(** [s.split(sep)] for a non-empty separator of any length: cuts are made
    left to right without overlap, empty fields are kept. *)
Fixpoint split_str_aux (sep : string) (skip : nat) (s : string) : list string :=
  match s with
  | EmptyString => [EmptyString]
  | String c s' =>
      match skip with
      | S k => split_str_aux sep k s'
      | O =>
          if String.prefix sep s
          then EmptyString :: split_str_aux sep (String.length sep - 1)%nat s'
          else match split_str_aux sep 0%nat s' with
               | w :: ws => String c w :: ws
               | [] => [String c EmptyString]
               end
      end
  end.

Definition split_str (sep s : string) : list string := split_str_aux sep 0%nat s.

(** [s.isascii()]: every character is below U+0080.  On such text the
    functions of this module are those of Python; beyond it Python's
    [strip], [split] and [upper] follow the Unicode tables. *)
Fixpoint is_ascii (s : string) : bool :=
  match s with
  | EmptyString => true
  | String c s' => (nat_of_ascii c <? 128)%nat && is_ascii s'
  end.

(** [s[n:]] *)
Fixpoint slice_from (n : nat) (s : string) : string :=
  match n, s with
  | O, _ => s
  | S _, EmptyString => EmptyString
  | S k, String _ s' => slice_from k s'
  end.

End PyStr.

(** ** Python floats *)

(** A float by the value of its decimal reading: a rational, one of the two
    infinities, or NaN.  The rounding to binary64 is left out, and with it
    overflow to an infinity, underflow and the sign of zero. *)
Inductive PyFloat : Type :=
| Fin (q : Q)
| PInf
| NInf
| NaN.

Module PyFloat.

Definition Qltb (x y : Q) : bool := negb (Qle_bool y x).

(** [a < b] on floats; every comparison with NaN is false. *)
Definition lt (a b : PyFloat) : bool :=
  match a, b with
  | NaN, _ | _, NaN => false
  | _, NInf => false
  | NInf, _ => true
  | PInf, _ => false
  | Fin _, PInf => true
  | Fin x, Fin y => Qltb x y
  end.

(** The builtin [max(a, b)]: [b] replaces [a] only when [b > a]. *)
Definition max (a b : PyFloat) : PyFloat := if lt a b then b else a.

(** The builtin [min(a, b)]: [b] replaces [a] only when [b < a]. *)
Definition min (a b : PyFloat) : PyFloat := if lt b a then b else a.

(** [min(max(x, lo), hi)] as the agents write it. *)
Definition clamp (lo hi x : PyFloat) : PyFloat := min (max x lo) hi.

Definition of_Z (z : Z) : PyFloat := Fin (inject_Z z).

(** The value [m * 10^e]. *)
Definition decimal (m e : Z) : Q :=
  if 0 <=? e then inject_Z (m * 10 ^ e)
  else Qmake m (Z.to_pos (10 ^ (- e))).

Definition digit_of (c : ascii) : option Z :=
  let n := nat_of_ascii c in
  if ((48 <=? n)%nat && (n <=? 57)%nat) then Some (Z.of_nat (n - 48)) else None.

(** The rest of a [digitpart]: digits, each optionally preceded by one
    underscore.  Returns the accumulated value, the number of digits read and
    the unread suffix. *)
Fixpoint digits_tail (acc : Z) (n : nat) (s : string) : Z * nat * string :=
  match s with
  | EmptyString => (acc, n, s)
  | String c s' =>
      match digit_of c with
      | Some d => digits_tail (10 * acc + d) (S n) s'
      | None =>
          if Ascii.eqb c "_"
          then match s' with
               | String c2 s'' =>
                   match digit_of c2 with
                   | Some d => digits_tail (10 * acc + d) (S n) s''
                   | None => (acc, n, s)
                   end
               | EmptyString => (acc, n, s)
               end
          else (acc, n, s)
      end
  end.

Definition digitpart (s : string) : option (Z * nat * string) :=
  match s with
  | String c s' =>
      match digit_of c with
      | Some d => Some (digits_tail d 1%nat s')
      | None => None
      end
  | EmptyString => None
  end.

(** An optional sign: the factor and the unread suffix. *)
Definition sign (s : string) : Z * string :=
  match s with
  | String c s' =>
      if Ascii.eqb c "-" then (-1, s')
      else if Ascii.eqb c "+" then (1, s')
      else (1, s)
  | EmptyString => (1, s)
  end.

(** [number ::= [digitpart] "." digitpart | digitpart ["."]]: mantissa,
    decimal exponent and unread suffix. *)
Definition number (s : string) : option (Z * Z * string) :=
  match digitpart s with
  | Some (ip, _, String c r) =>
      if Ascii.eqb c "."
      then match digitpart r with
           | Some (fp, k, r') =>
               Some (ip * 10 ^ Z.of_nat k + fp, - Z.of_nat k, r')
           | None => Some (ip, 0, r)
           end
      else Some (ip, 0, String c r)
  | Some (ip, _, EmptyString) => Some (ip, 0, EmptyString)
  | None =>
      match s with
      | String c r =>
          if Ascii.eqb c "."
          then match digitpart r with
               | Some (fp, k, r') => Some (fp, - Z.of_nat k, r')
               | None => None
               end
          else None
      | EmptyString => None
      end
  end.

(** [exponent ::= ("e" | "E") [sign] digitpart], optional; whatever follows
    must be the end of the token. *)
Definition exponent (s : string) : option Z :=
  match s with
  | EmptyString => Some 0
  | String c r =>
      if Ascii.eqb c "e" || Ascii.eqb c "E"
      then let '(sg, r1) := sign r in
           match digitpart r1 with
           | Some (ev, _, EmptyString) => Some (sg * ev)
           | _ => None
           end
      else None
  end.

(** [float(token)] for a token without surrounding white space; [None] is
    [ValueError]. *)
Definition of_string (token : string) : option PyFloat :=
  let '(sg, body) := sign token in
  let low := PyStr.lower body in
  if String.eqb low "inf" || String.eqb low "infinity"
  then Some (if sg =? 1 then PInf else NInf)
  else if String.eqb low "nan" then Some NaN
  else match number body with
       | Some (m, e, r) =>
           match exponent r with
           | Some x => Some (Fin (decimal (sg * m) (e + x)))
           | None => None
           end
       | None => None
       end.

(** [lo <= x <= hi] for a float that is a number. *)
Definition within (lo hi : Q) (x : PyFloat) : Prop :=
  match x with
  | Fin q => (lo <= q)%Q /\ (q <= hi)%Q
  | _ => False
  end.

End PyFloat.

(** ** graph/state.py: the data model *)

(** A value of a provider row (the rows are dicts with free keys). *)
Inductive SqlVal : Type :=
| SqlNull
| SqlText (s : string)
| SqlNumber (q : Q).

Abbreviation Row := (gmap string SqlVal).

(** [@dataclass Argument], and the dict [to_dict] makes of it. *)
Record Argument : Type := mkArgument {
  agent : string;
  content : string;
  evidence : list string;
  confidence : PyFloat
}.

(** [@dataclass ResearchData], and its [to_dict]. *)
Record ResearchData : Type := mkResearchData {
  rd_ticker : string;
  company_name : SqlVal;
  metrics : Row;
  earnings_history : list Row;
  technical_indicators : Row;
  sentiment : Row;
  insider_activity : list Row;
  institutional_holdings : list Row;
  analyst_reports : list Row;
  earnings_transcripts : list Row;
  sec_filings : list Row
}.

(** [ResearchData(ticker=ticker)]: every category at its [default_factory]. *)
Definition ResearchData_new (ticker : string) : ResearchData :=
  mkResearchData ticker (SqlText "") ∅ [] ∅ ∅ [] [] [] [] [].

(** The dict returned by [Moderator.fact_check]. *)
Record FactCheck : Type := mkFactCheck {
  agent_checked : string;
  accuracy_score : PyFloat;
  feedback : string
}.

(** [@dataclass Verdict], and its [to_dict]. *)
Record Verdict : Type := mkVerdict {
  recommendation : string;
  v_confidence : PyFloat;
  summary : string;
  bull_score : PyFloat;
  bear_score : PyFloat;
  key_factors : list string;
  risks : list string
}.

(** [Literal["research", "bull", "bear", "moderator", "judge", "end"]] *)
Inductive Speaker : Type :=
| sp_research
| sp_bull
| sp_bear
| sp_moderator
| sp_judge
| sp_end.

#[global] Instance Speaker_eq_dec : EqDecision Speaker.
Proof. solve_decision. Defined.

(** The provider's query logs are passed through uninterpreted. *)
Definition QueryLog : Type := list string.

(** [class DebateState(TypedDict)] *)
Record DebateState : Type := mkDebateState {
  ticker : string;
  question : string;
  research_data : option ResearchData;
  current_round : Z;
  max_rounds : Z;
  current_speaker : Speaker;
  arguments : list Argument;
  fact_checks : list FactCheck;
  verdict : option Verdict;
  errors : list string;
  _analyst_log : option QueryLog;
  _search_log : option QueryLog
}.

(** [add_arguments]: the reducer annotated on [arguments]. *)
Definition add_arguments (left right : list Argument) : list Argument :=
  left ++ right.

(** [create_initial_state]; [question] is [None] when the caller gives none,
    and [question or default] also replaces an empty string. *)
Definition create_initial_state
    (ticker : string) (question : option string) (max_rounds : Z) : DebateState :=
  let asked :=
    match question with
    | Some q => if String.eqb q "" then None else Some q
    | None => None
    end in
  {| ticker := PyStr.upper ticker;
     question := default ("Should we buy or sell " ++ PyStr.upper ticker ++ "?") asked;
     research_data := None;
     current_round := 0;
     max_rounds := max_rounds;
     current_speaker := sp_research;
     arguments := [];
     fact_checks := [];
     verdict := None;
     errors := [];
     _analyst_log := Some [];
     _search_log := Some [] |}.

(** The dict a node returns: only some keys of the state are present. *)
Record Update : Type := mkUpdate {
  u_research_data : option ResearchData;
  u_current_round : option Z;
  u_current_speaker : option Speaker;
  u_arguments : option (list Argument);
  u_fact_checks : option (list FactCheck);
  u_verdict : option Verdict;
  u_errors : option (list string);
  u_analyst_log : option QueryLog;
  u_search_log : option QueryLog
}.

(** The update with no key. *)
Definition no_update : Update :=
  mkUpdate None None None None None None None None None.

(** Merging a node's output into the state, as the loop at the end of
    [run_debate] does and as the channels declared by [DebateState] do:
    [arguments] goes through its reducer, every other key present in the
    update replaces the state's value. *)
Definition apply_update (st : DebateState) (u : Update) : DebateState :=
  {| ticker := ticker st;
     question := question st;
     research_data :=
       match u_research_data u with Some r => Some r | None => research_data st end;
     current_round := default (current_round st) (u_current_round u);
     max_rounds := max_rounds st;
     current_speaker := default (current_speaker st) (u_current_speaker u);
     arguments :=
       match u_arguments u with
       | Some value => add_arguments (arguments st) value
       | None => arguments st
       end;
     fact_checks := default (fact_checks st) (u_fact_checks u);
     verdict := match u_verdict u with Some v => Some v | None => verdict st end;
     errors := default (errors st) (u_errors u);
     _analyst_log :=
       match u_analyst_log u with Some l => Some l | None => _analyst_log st end;
     _search_log :=
       match u_search_log u with Some l => Some l | None => _search_log st end |}.

(** ** The collaborators *)

(** What a prompt is rendered from.  The text of a prompt prints floats and
    provider rows and is not modelled: the oracle is given the data. *)
Inductive Prompt : Type :=
| BullRebuttal (state : DebateState) (opponent_argument : string)
| BullOpening (state : DebateState)
| BearRebuttal (state : DebateState) (opponent_argument : string)
| BearOpening (state : DebateState)
| FactCheckRequest (state : DebateState) (argument_to_check : Argument)
| ModeratorRoundSummary (state : DebateState) (recent_args : list Argument)
| FinalJudgment (state : DebateState).

(** [CortexLLM.complete], and the f-string of [Judge.__call__] that prints the
    verdict (with its floats) into the transcript.  [complete] is the text a
    call returns when it returns. *)
Class CortexLLM : Type := {
  complete : Prompt -> string;
  verdict_transcript : Verdict -> string
}.

(** The calls of [CortexLLM.complete] that raise instead of returning: it
    catches nothing, so a lost connection, a failed statement or a response
    that does not decode leaves the participant's turn as an exception. *)
Class OracleFaults : Type := {
  oracle_raises : Prompt -> bool
}.

(** A call that either returns or raises [Exception(e)]. *)
Inductive outcome (A : Type) : Type :=
| Returned (a : A)
| Raised (e : string).

Arguments Returned {A} a.
Arguments Raised {A} e.

(** The accessors of [CortexAnalyst] and [CortexSearch] that the researcher
    calls, and the query logs they hand back. *)
Class ResearchProvider : Type := {
  get_metrics : string -> outcome Row;
  get_earnings_history : string -> Z -> outcome (list Row);
  get_technical_indicators : string -> outcome Row;
  get_sentiment : string -> outcome Row;
  get_insider_activity : string -> Z -> outcome (list Row);
  get_institutional_holdings : string -> Z -> outcome (list Row);
  search_analyst_reports : string -> string -> Z -> outcome (list Row);
  search_earnings_transcripts : string -> string -> Z -> outcome (list Row);
  search_sec_filings : string -> string -> Z -> outcome (list Row);
  analyst_query_log : QueryLog;
  search_query_log : QueryLog
}.

(** ** Values of a row, as Python treats them *)

Module PyVal.

(** [row.get(key)]: [None] for a key the dict does not have. *)
Definition get (row : Row) (key : string) : SqlVal :=
  default SqlNull (row !! key).

(** [row.get(key, fallback)] *)
Definition get_or (row : Row) (key : string) (fallback : SqlVal) : SqlVal :=
  default fallback (row !! key).

(** Truthiness of a value. *)
Definition truthy (v : SqlVal) : bool :=
  match v with
  | SqlNull => false
  | SqlText text => negb (String.eqb text "")
  | SqlNumber q => negb (Qeq_bool q 0)
  end.

(** [a or b or ... or last]: the first truthy operand, else the last. *)
Fixpoint or_chain (operands : list SqlVal) (last : SqlVal) : SqlVal :=
  match operands with
  | [] => last
  | v :: rest => if truthy v then v else or_chain rest last
  end.

End PyVal.

(** ** agents/base.py: [format_research_context] and [format_debate_history] *)

Module BaseAgent.
Section Formatting.

(** The rendering [f"{confidence:.0%}"] of a float is a parameter. *)
Variable percent : PyFloat -> string.

(** [content[:500] + "..." if len(content) > 500 else content] *)
Definition preview (content : string) : string :=
  if (500 <? String.length content)%nat
  then String.substring 0 500 content ++ "..."
  else content.

(** [f"\n[{agent}] (confidence: {confidence:.0%})"] *)
Definition heading (arg : Argument) : string :=
  String PyStr.newline
    ("[" ++ PyStr.upper (agent arg) ++ "] (confidence: "
     ++ percent (confidence arg) ++ ")").

Definition format_debate_history (arguments : list Argument) : string :=
  match arguments with
  | [] => "No previous arguments."
  | _ =>
      String.concat (String PyStr.newline "")
        ("DEBATE HISTORY:"
         :: flat_map (fun arg => [heading arg; preview (content arg)]) arguments)
  end.

(** How a number is rendered by [str], by the format [+.1f] and by the
    format [,] are parameters, and so are the messages of the exceptions
    raised by a format given to a value that is not a number and by slicing a
    number. *)
Variable str_of_number : Q -> string.
Variable signed_1f : Q -> string.
Variable thousands : Q -> string.
Variable format_error : string -> SqlVal -> string.
Variable not_subscriptable : Q -> string.

(** [f"{value}"] *)
Definition shown (value : SqlVal) : string :=
  match value with
  | SqlNull => "None"
  | SqlText text => text
  | SqlNumber q => str_of_number q
  end.

(** [f"{row.get(key, fallback)}"] for a text [fallback]. *)
Definition field (row : Row) (key fallback : string) : string :=
  shown (PyVal.get_or row key (SqlText fallback)).

(** [f"{value:spec}"] for a numeric format: only numbers accept it. *)
Definition formatted (spec : string) (render : Q -> string) (value : SqlVal)
    : outcome string :=
  match value with
  | SqlNumber q => Returned (render q)
  | other => Raised (format_error spec other)
  end.

(** The text of several lines that an f-string in triple quotes makes. *)
Definition block (text_lines : list string) : string :=
  String.concat (String PyStr.newline "") text_lines.

Definition metrics_block (m : Row) : string :=
  block [""; "VALUATION METRICS:";
         "- P/E Ratio: " ++ field m "PE_RATIO" "N/A";
         "- Forward P/E: " ++ field m "FORWARD_PE" "N/A";
         "- Price/Book: " ++ field m "PRICE_TO_BOOK" "N/A";
         "- ROE: " ++ field m "ROE_PCT" "N/A" ++ "%";
         "- Debt/Equity: " ++ field m "DEBT_TO_EQUITY" "N/A";
         "- Dividend Yield: " ++ field m "DIVIDEND_YIELD_PCT" "N/A" ++ "%";
         ""].

Definition technical_block (t : Row) : string :=
  block [""; "TECHNICAL INDICATORS:";
         "- Close Price: $" ++ field t "CLOSE_PRICE" "N/A";
         "- RSI (14): " ++ field t "RSI_14" "N/A";
         "- MACD: " ++ field t "MACD" "N/A";
         "- SMA 50: $" ++ field t "SMA_50" "N/A";
         "- SMA 200: $" ++ field t "SMA_200" "N/A";
         ""].

Definition sentiment_block (s : Row) : string :=
  block [""; "MARKET SENTIMENT:";
         "- Overall: " ++ field s "OVERALL_SENTIMENT" "N/A";
         "- News Score: " ++ field s "NEWS_SENTIMENT_SCORE" "N/A";
         "- Social Score: " ++ field s "SOCIAL_MEDIA_SENTIMENT_SCORE" "N/A";
         "- Bullish %: " ++ field s "BULLISH_PCT" "N/A" ++ "%";
         "- Bearish %: " ++ field s "BEARISH_PCT" "N/A" ++ "%";
         ""].

(** The lines one row of a category appends to [context_parts]. *)
Definition earnings_lines (e : Row) : outcome (list string) :=
  let beat_miss := field e "BEAT_MISS" "N/A" in
  let surprise := PyVal.get_or e "EPS_SURPRISE_PCT" (SqlNumber 0) in
  match formatted "+.1f" signed_1f surprise with
  | Raised err => Raised err
  | Returned surprise_text =>
      Returned
        ["- " ++ field e "FISCAL_QUARTER" "N/A" ++ " "
         ++ field e "FISCAL_YEAR" "N/A" ++ ": "
         ++ "EPS $" ++ field e "EPS_ACTUAL" "N/A" ++ " (" ++ beat_miss ++ ", "
         ++ surprise_text ++ "% surprise)"]
  end.

Definition report_lines (r : Row) : outcome (list string) :=
  let headline :=
    "- [" ++ field r "FIRM" "Unknown" ++ "] " ++ field r "RATING" "N/A" ++ " "
    ++ "PT: $" ++ field r "PRICE_TARGET" "N/A" in
  if PyVal.truthy (PyVal.get r "REPORT_CONTENT") then
    match PyVal.get r "REPORT_CONTENT" with
    | SqlText text =>
        Returned [headline; "  " ++ String.substring 0 200 text ++ "..."]
    | SqlNumber q => Raised (not_subscriptable q)
    | SqlNull => Returned [headline]
    end
  else Returned [headline].

Definition insider_lines (i : Row) : outcome (list string) :=
  match formatted "," thousands (PyVal.get_or i "SHARES_TRADED" (SqlText "N/A")) with
  | Raised err => Raised err
  | Returned shares =>
      Returned
        ["- " ++ field i "INSIDER_NAME" "Unknown" ++ " ("
         ++ field i "INSIDER_TITLE" "N/A" ++ "): "
         ++ field i "TRANSACTION_TYPE" "N/A" ++ " " ++ shares ++ " shares "
         ++ "@ $" ++ field i "PRICE_PER_SHARE" "N/A"]
  end.

(** [for row in rows: ...], stopping at the first row that raises. *)
Fixpoint for_each (lines_of : Row -> outcome (list string)) (rows : list Row)
    : outcome (list string) :=
  match rows with
  | [] => Returned []
  | row :: rest =>
      match lines_of row with
      | Raised err => Raised err
      | Returned first =>
          match for_each lines_of rest with
          | Raised err => Raised err
          | Returned later => Returned (first ++ later)%list
          end
      end
  end.

(** One list-valued category: nothing for an empty list, otherwise the title
    and the lines of the first three rows. *)
Definition category (title : string) (lines_of : Row -> outcome (list string))
    (rows : list Row) : outcome (list string) :=
  match rows with
  | [] => Returned []
  | _ =>
      match for_each lines_of (take 3 rows) with
      | Raised err => Raised err
      | Returned text_lines => Returned (title :: text_lines)
      end
  end.

(** A dict-valued category: nothing for an empty dict. *)
Definition dict_part (render : Row -> string) (row : Row) : list string :=
  if bool_decide (row = ∅) then [] else [render row].

Definition format_research_context (research_data : option ResearchData)
    : outcome string :=
  match research_data with
  | None => Returned "No research data available."
  | Some research_data =>
      let context_parts :=
        (dict_part metrics_block (metrics research_data)
         ++ dict_part technical_block (technical_indicators research_data)
         ++ dict_part sentiment_block (sentiment research_data))%list in
      match category "RECENT EARNINGS:" earnings_lines
              (earnings_history research_data) with
      | Raised err => Raised err
      | Returned earnings =>
      match category (String PyStr.newline "ANALYST REPORTS:") report_lines
              (analyst_reports research_data) with
      | Raised err => Raised err
      | Returned reports =>
      match category (String PyStr.newline "INSIDER ACTIVITY:") insider_lines
              (insider_activity research_data) with
      | Raised err => Raised err
      | Returned insiders =>
          Returned (block (context_parts ++ earnings ++ reports ++ insiders)%list)
      end end end
  end.

End Formatting.

(** Whether [format_research_context] returns on a bundle: how numbers are
    rendered has no part in it. *)
Definition renders (research_data : option ResearchData) : bool :=
  match format_research_context (fun _ => "") (fun _ => "") (fun _ => "")
          (fun _ _ => "") (fun _ => "") research_data with
  | Returned _ => true
  | Raised _ => false
  end.

End BaseAgent.

(** ** agents/bull_agent.py and agents/bear_agent.py *)

(** [float(fields[0])] under [try: ... except: pass]: [None] when the index or
    the conversion raises. *)
Definition float_of_first (fields : list string) : option PyFloat :=
  match fields with
  | token :: _ => PyFloat.of_string token
  | [] => None
  end.

Module Advocate.

(** One iteration of the parsing loop shared, word for word, by the two
    advocates; the accumulator is [(confidence, evidence)]. *)
Definition parse_line (acc : PyFloat * list string) (line : string)
    : PyFloat * list string :=
  let '(confidence, evidence) := acc in
  if PyStr.startswith "CONFIDENCE:" line then
    let conf_str := PyStr.strip (PyStr.remove "CONFIDENCE:" line) in
    match float_of_first (PyStr.split_ws conf_str) with
    | Some c => (c, evidence)
    | None => acc
    end
  else if PyStr.startswith "EVIDENCE:" line then
    (confidence, (evidence ++ [PyStr.strip (PyStr.remove "EVIDENCE:" line)])%list)
  else acc.

(** The loop over [response.split("\n")], from [confidence = 0.7] and
    [evidence = []]. *)
Definition parse (response : string) : PyFloat * list string :=
  fold_left parse_line (PyStr.lines response) (Fin (7 # 10), []).

(** The [Argument(...)] built after the loop. *)
Definition build (who response : string) : Argument :=
  let '(confidence, evidence) := parse response in
  {| agent := who;
     content := response;
     evidence := evidence;
     confidence := PyFloat.clamp (Fin 0) (Fin 1) confidence |}.

(** [for arg in reversed(arguments): if arg.get("agent") == who: ...; break] *)
Definition last_content_of (who : string) (args : list Argument) : option string :=
  content <$> List.find (fun arg => String.eqb (agent arg) who) (rev args).

(** Truthiness of [opponent_argument]: neither [None] nor empty. *)
Definition truthy (s : option string) : option string :=
  match s with
  | Some t => if String.eqb t "" then None else Some t
  | None => None
  end.

End Advocate.

Module BullAgent.
Section WithOracle.
Context {llm : CortexLLM}.

Definition generate_argument
    (state : DebateState) (opponent_argument : option string) : Argument :=
  let prompt :=
    match Advocate.truthy opponent_argument with
    | Some bear_text => BullRebuttal state bear_text
    | None => BullOpening state
    end in
  Advocate.build "bull" (complete prompt).

(** [BullAgent.__call__]: the update the turn returns; that the rendering
    of the prompt and the oracle call return is tested in
    [Workflow.node_run]. *)
Definition call (state : DebateState) : Update :=
  let bear_argument := Advocate.last_content_of "bear" (arguments state) in
  let argument := generate_argument state bear_argument in
  {| u_research_data := None;
     u_current_round := None;
     u_current_speaker := Some sp_moderator;
     u_arguments := Some [argument];
     u_fact_checks := None;
     u_verdict := None;
     u_errors := None;
     u_analyst_log := None;
     u_search_log := None |}.

End WithOracle.
End BullAgent.

Module BearAgent.
Section WithOracle.
Context {llm : CortexLLM}.

Definition generate_argument
    (state : DebateState) (opponent_argument : option string) : Argument :=
  let prompt :=
    match Advocate.truthy opponent_argument with
    | Some bull_text => BearRebuttal state bull_text
    | None => BearOpening state
    end in
  Advocate.build "bear" (complete prompt).

(** [BearAgent.__call__]: the update the turn returns; that the rendering
    of the prompt and the oracle call return is tested in
    [Workflow.node_run]. *)
Definition call (state : DebateState) : Update :=
  let bull_argument := Advocate.last_content_of "bull" (arguments state) in
  let argument := generate_argument state bull_argument in
  let next_speaker :=
    if current_round state >=? max_rounds state then sp_judge else sp_moderator in
  {| u_research_data := None;
     u_current_round := Some (current_round state + 1);
     u_current_speaker := Some next_speaker;
     u_arguments := Some [argument];
     u_fact_checks := None;
     u_verdict := None;
     u_errors := None;
     u_analyst_log := None;
     u_search_log := None |}.

End WithOracle.
End BearAgent.

(** ** agents/moderator.py *)

(** [xs[-2:]] *)
Definition last_two {A : Type} (xs : list A) : list A :=
  drop (length xs - 2)%nat xs.

Module Moderator.

(** One iteration of the loop of [fact_check] over the response lines. *)
Definition accuracy_line (accuracy : PyFloat) (line : string) : PyFloat :=
  if PyStr.contains "ACCURACY_SCORE:" line then
    match nth_error (PyStr.split ":" line) 1 with
    | Some field =>
        match float_of_first (PyStr.split_ws (PyStr.strip field)) with
        | Some a => a
        | None => accuracy
        end
    | None => accuracy
    end
  else accuracy.

(** The loop, from [accuracy = 0.7]. *)
Definition parse_accuracy (response : string) : PyFloat :=
  fold_left accuracy_line (PyStr.lines response) (Fin (7 # 10)).

(** [arg.get("agent") in ["bull", "bear"]] *)
Definition is_advocate (arg : Argument) : bool :=
  String.eqb (agent arg) "bull" || String.eqb (agent arg) "bear".

Section WithOracle.
Context {llm : CortexLLM}.

Definition fact_check (state : DebateState) (argument_to_check : Argument)
    : FactCheck :=
  let response := complete (FactCheckRequest state argument_to_check) in
  {| agent_checked := agent argument_to_check;
     accuracy_score := parse_accuracy response;
     feedback := response |}.

Definition generate_argument (state : DebateState) : Argument :=
  let recent_args := last_two (arguments state) in
  let response := complete (ModeratorRoundSummary state recent_args) in
  {| agent := "moderator";
     content := response;
     evidence := [];
     confidence := Fin (9 # 10) |}.

(** [Moderator.__call__]: the update the turn returns; that the rendering
    of its prompts and the oracle calls return is tested in
    [Workflow.node_run]. *)
Definition call (state : DebateState) : Update :=
  let argument := generate_argument state in
  let checks :=
    map (fact_check state) (List.filter is_advocate (last_two (arguments state))) in
  let next_speaker :=
    if current_round state >=? max_rounds state then sp_judge else sp_bull in
  {| u_research_data := None;
     u_current_round := None;
     u_current_speaker := Some next_speaker;
     u_arguments := Some [argument];
     u_fact_checks := Some checks;
     u_verdict := None;
     u_errors := None;
     u_analyst_log := None;
     u_search_log := None |}.

End WithOracle.
End Moderator.

(** ** agents/judge.py *)

Module Judge.

(** The variables the parsing loop of [generate_verdict] assigns. *)
Record Parsed : Type := mkParsed {
  p_recommendation : string;
  p_confidence : PyFloat;
  p_bull_score : PyFloat;
  p_bear_score : PyFloat;
  p_summary : string;
  p_key_factors : list string
}.

Definition labels : list string :=
  ["STRONG BUY"; "STRONG SELL"; "BUY"; "SELL"; "HOLD"].

(** [float(line.split(":")[1].strip().split()[0])] under [try/except: pass]. *)
Definition float_after_colon (line : string) : option PyFloat :=
  match nth_error (PyStr.split ":" line) 1 with
  | Some field => float_of_first (PyStr.split_ws (PyStr.strip field))
  | None => None
  end.

(** The [elif] chain up to the bullet test: does an earlier branch take the
    line? *)
Definition labelled (line : string) : bool :=
  let line_upper := PyStr.upper line in
  PyStr.contains "RECOMMENDATION:" line_upper
  || PyStr.contains "CONFIDENCE:" line_upper
  || PyStr.contains "BULL_SCORE:" line_upper
  || PyStr.contains "BEAR_SCORE:" line_upper
  || PyStr.contains "SUMMARY:" line_upper
  || PyStr.contains "KEY_FACTORS:" line_upper
  || PyStr.contains "KEY FACTORS:" line_upper.

(** [line.strip().startswith("-")] *)
Definition bullet (line : string) : bool :=
  PyStr.startswith "-" (PyStr.strip line).

(** One iteration of the loop; [None] is the [IndexError] of an unguarded
    [line.split(":", 1)[1]]. *)
Definition parse_line (p : Parsed) (line : string) : option Parsed :=
  let line_upper := PyStr.upper line in
  if PyStr.contains "RECOMMENDATION:" line_upper then
    match nth_error (PyStr.split1 ":" line) 1 with
    | Some field =>
        let rec_text := PyStr.upper (PyStr.strip field) in
        match List.find (fun rec => PyStr.contains rec rec_text) labels with
        | Some rec =>
            Some (mkParsed rec (p_confidence p) (p_bull_score p) (p_bear_score p)
                           (p_summary p) (p_key_factors p))
        | None => Some p
        end
    | None => None
    end
  else if PyStr.contains "CONFIDENCE:" line_upper then
    match float_after_colon line with
    | Some c =>
        Some (mkParsed (p_recommendation p) c (p_bull_score p) (p_bear_score p)
                       (p_summary p) (p_key_factors p))
    | None => Some p
    end
  else if PyStr.contains "BULL_SCORE:" line_upper then
    match float_after_colon line with
    | Some x =>
        Some (mkParsed (p_recommendation p) (p_confidence p) x (p_bear_score p)
                       (p_summary p) (p_key_factors p))
    | None => Some p
    end
  else if PyStr.contains "BEAR_SCORE:" line_upper then
    match float_after_colon line with
    | Some x =>
        Some (mkParsed (p_recommendation p) (p_confidence p) (p_bull_score p) x
                       (p_summary p) (p_key_factors p))
    | None => Some p
    end
  else if PyStr.contains "SUMMARY:" line_upper then
    if PyStr.contains ":" line then
      match nth_error (PyStr.split1 ":" line) 1 with
      | Some field =>
          Some (mkParsed (p_recommendation p) (p_confidence p) (p_bull_score p)
                         (p_bear_score p) (PyStr.strip field) (p_key_factors p))
      | None => None
      end
    else Some p
  else if PyStr.contains "KEY_FACTORS:" line_upper
          || PyStr.contains "KEY FACTORS:" line_upper then
    Some p
  else if bullet line && (length (p_key_factors p) <? 5)%nat then
    Some (mkParsed (p_recommendation p) (p_confidence p) (p_bull_score p)
                   (p_bear_score p) (p_summary p)
                   (p_key_factors p ++ [PyStr.strip_chars "- " line])%list)
  else Some p.

(** [for line in lines: ...] *)
Fixpoint parse_lines (p : Parsed) (lines : list string) : option Parsed :=
  match lines with
  | [] => Some p
  | line :: rest =>
      match parse_line p line with
      | Some p' => parse_lines p' rest
      | None => None
      end
  end.

(** The defaults assigned before the loop. *)
Definition initial (response : string) : Parsed :=
  mkParsed "HOLD" (Fin (1 # 2)) (Fin 50) (Fin 50) response [].

(** Everything of [generate_verdict] after the oracle has answered.  [risks]
    is assigned [[]] before the loop and the loop never touches it. *)
Definition parse_verdict (response : string) : option Verdict :=
  match parse_lines (initial response) (PyStr.lines response) with
  | Some p =>
      let key_factors :=
        match p_key_factors p with
        | [] => ["See detailed analysis in summary"]
        | found => found
        end in
      let risks : list string := [] in
      let risks :=
        match risks with
        | [] => ["Market volatility"; "Execution risk"]
        | found => found
        end in
      Some {| recommendation := p_recommendation p;
              v_confidence := PyFloat.clamp (Fin 0) (Fin 1) (p_confidence p);
              summary := p_summary p;
              bull_score := PyFloat.clamp (Fin 0) (Fin 100) (p_bull_score p);
              bear_score := PyFloat.clamp (Fin 0) (Fin 100) (p_bear_score p);
              key_factors := take 5 key_factors;
              risks := take 3 risks |}
  | None => None
  end.

Section WithOracle.
Context {llm : CortexLLM}.

Definition generate_verdict (state : DebateState) : option Verdict :=
  parse_verdict (complete (FinalJudgment state)).

(** [Judge.__call__]: the update the turn returns; [None]: the parser
    raised.  That the rendering of the prompt and the oracle call return is
    tested in [Workflow.node_run]. *)
Definition call (state : DebateState) : option Update :=
  match generate_verdict state with
  | Some v =>
      let argument :=
        {| agent := "judge";
           content := verdict_transcript v;
           evidence := [];
           confidence := v_confidence v |} in
      Some {| u_research_data := None;
              u_current_round := None;
              u_current_speaker := Some sp_end;
              u_arguments := Some [argument];
              u_fact_checks := None;
              u_verdict := Some v;
              u_errors := None;
              u_analyst_log := None;
              u_search_log := None |}
  | None => None
  end.

End WithOracle.
End Judge.

(** The key factors as the specification words them: the bullet lines that
    no earlier branch of the chain has taken, stripped of dashes and blanks
    (the cap of five is applied by the caller). *)
Definition factor_lines (lines : list string) : list string :=
  map (PyStr.strip_chars "- ")
      (List.filter (fun line => negb (Judge.labelled line) && Judge.bullet line) lines).

(** ** agents/researcher.py *)

Module Researcher.

(** Statements that may raise and that print: the standard output is threaded
    through as the list of lines printed so far. *)
Definition Py (A : Type) : Type := list string -> outcome A * list string.

Definition ret {A : Type} (a : A) : Py A := fun out => (Returned a, out).

Definition bind {A B : Type} (m : Py A) (k : A -> Py B) : Py B :=
  fun out =>
    match m out with
    | (Returned a, out') => k a out'
    | (Raised e, out') => (Raised e, out')
    end.

Definition lift {A : Type} (o : outcome A) : Py A := fun out => (o, out).

Definition print (line : string) : Py unit :=
  fun out => (Returned tt, (out ++ [line])%list).

(** [try: body except Exception as e: handler(e)] *)
Definition try_except {A : Type} (body : Py A) (handler : string -> Py A) : Py A :=
  fun out =>
    match body out with
    | (Returned a, out') => (Returned a, out')
    | (Raised e, out') => handler e out'
    end.

Declare Scope py_scope.
Delimit Scope py_scope with py.
Notation "'call!' x <- m ; k" := (bind m (fun x => k))
  (at level 10, x name, m at level 100, k at level 200) : py_scope.
Notation "'say!' line ; k" := (bind (print line) (fun _ => k))
  (at level 10, line at level 100, k at level 200) : py_scope.

(** Attribute assignments on the [research] object. *)
Definition set_metrics (m : Row) (name : SqlVal) (r : ResearchData) : ResearchData :=
  mkResearchData (rd_ticker r) name m (earnings_history r)
    (technical_indicators r) (sentiment r) (insider_activity r)
    (institutional_holdings r) (analyst_reports r) (earnings_transcripts r)
    (sec_filings r).

Definition set_earnings_history (v : list Row) (r : ResearchData) : ResearchData :=
  mkResearchData (rd_ticker r) (company_name r) (metrics r) v
    (technical_indicators r) (sentiment r) (insider_activity r)
    (institutional_holdings r) (analyst_reports r) (earnings_transcripts r)
    (sec_filings r).

Definition set_technical_indicators (v : Row) (r : ResearchData) : ResearchData :=
  mkResearchData (rd_ticker r) (company_name r) (metrics r) (earnings_history r)
    v (sentiment r) (insider_activity r)
    (institutional_holdings r) (analyst_reports r) (earnings_transcripts r)
    (sec_filings r).

Definition set_sentiment (v : Row) (r : ResearchData) : ResearchData :=
  mkResearchData (rd_ticker r) (company_name r) (metrics r) (earnings_history r)
    (technical_indicators r) v (insider_activity r)
    (institutional_holdings r) (analyst_reports r) (earnings_transcripts r)
    (sec_filings r).

Definition set_insider_activity (v : list Row) (r : ResearchData) : ResearchData :=
  mkResearchData (rd_ticker r) (company_name r) (metrics r) (earnings_history r)
    (technical_indicators r) (sentiment r) v
    (institutional_holdings r) (analyst_reports r) (earnings_transcripts r)
    (sec_filings r).

Definition set_institutional_holdings (v : list Row) (r : ResearchData) : ResearchData :=
  mkResearchData (rd_ticker r) (company_name r) (metrics r) (earnings_history r)
    (technical_indicators r) (sentiment r) (insider_activity r)
    v (analyst_reports r) (earnings_transcripts r)
    (sec_filings r).

Definition set_analyst_reports (v : list Row) (r : ResearchData) : ResearchData :=
  mkResearchData (rd_ticker r) (company_name r) (metrics r) (earnings_history r)
    (technical_indicators r) (sentiment r) (insider_activity r)
    (institutional_holdings r) v (earnings_transcripts r)
    (sec_filings r).

Definition set_earnings_transcripts (v : list Row) (r : ResearchData) : ResearchData :=
  mkResearchData (rd_ticker r) (company_name r) (metrics r) (earnings_history r)
    (technical_indicators r) (sentiment r) (insider_activity r)
    (institutional_holdings r) (analyst_reports r) v
    (sec_filings r).

Definition set_sec_filings (v : list Row) (r : ResearchData) : ResearchData :=
  mkResearchData (rd_ticker r) (company_name r) (metrics r) (earnings_history r)
    (technical_indicators r) (sentiment r) (insider_activity r)
    (institutional_holdings r) (analyst_reports r) (earnings_transcripts r)
    v.

Section WithProvider.
Context {provider : ResearchProvider}.

(** One guarded block of [gather_research]:
    [try: research.field = fetch  except Exception as e: print(f"{what}: {e}")] *)
Definition guarded {A : Type} (fetch : outcome A) (assign : A -> ResearchData)
    (what : string) (research : ResearchData) : Py ResearchData :=
  try_except
    (call! v <- lift fetch; ret (assign v))%py
    (fun e => say! (what ++ ": " ++ e); ret research)%py.

Definition gather_research (ticker : string) : Py ResearchData :=
  (let ticker := PyStr.upper ticker in
   let research := ResearchData_new ticker in
   call! research <-
     guarded (get_metrics ticker)
       (fun m => set_metrics m (default (SqlText ticker) (m !! "COMPANY_NAME")) research)
       "Error getting metrics" research;
   call! research <-
     guarded (get_earnings_history ticker 4)
       (fun v => set_earnings_history v research)
       "Error getting earnings history" research;
   call! research <-
     guarded (get_technical_indicators ticker)
       (fun v => set_technical_indicators v research)
       "Error getting technical indicators" research;
   call! research <-
     guarded (get_sentiment ticker)
       (fun v => set_sentiment v research)
       "Error getting sentiment" research;
   call! research <-
     guarded (get_insider_activity ticker 5)
       (fun v => set_insider_activity v research)
       "Error getting insider activity" research;
   call! research <-
     guarded (get_institutional_holdings ticker 5)
       (fun v => set_institutional_holdings v research)
       "Error getting institutional holdings" research;
   call! research <-
     guarded (search_analyst_reports (ticker ++ " outlook growth risks") ticker 5)
       (fun v => set_analyst_reports v research)
       "Error searching analyst reports" research;
   call! research <-
     guarded (search_earnings_transcripts (ticker ++ " guidance outlook") ticker 3)
       (fun v => set_earnings_transcripts v research)
       "Error searching earnings transcripts" research;
   call! research <-
     guarded (search_sec_filings (ticker ++ " material events") ticker 3)
       (fun v => set_sec_filings v research)
       "Error searching SEC filings" research;
   ret research)%py.

(** [Researcher.__call__]: the update, and what was printed meanwhile.  The
    outer [try] turns a raising [gather_research] into an [errors] entry. *)
Definition call (state : DebateState) : Update * list string :=
  match gather_research (ticker state) [] with
  | (Returned research, out) =>
      ({| u_research_data := Some research;
          u_current_round := None;
          u_current_speaker := Some sp_bull;
          u_arguments := None;
          u_fact_checks := None;
          u_verdict := None;
          u_errors := None;
          u_analyst_log := Some analyst_query_log;
          u_search_log := Some search_query_log |}, out)
  | (Raised e, out) =>
      ({| u_research_data := None;
          u_current_round := None;
          u_current_speaker := Some sp_bull;
          u_arguments := None;
          u_fact_checks := None;
          u_verdict := None;
          u_errors := Some ["Research error: " ++ e];
          u_analyst_log := Some analyst_query_log;
          u_search_log := Some search_query_log |}, out)
  end.

End WithProvider.
End Researcher.

(** A call that returns rather than raises. *)
Definition returns {A : Type} (o : outcome A) : Prop := exists a, o = Returned a.

(** What a category holds after its guarded block, and what the block printed. *)
Definition value_or {A : Type} (fetch : outcome A) (empty : A) : A :=
  match fetch with
  | Returned v => v
  | Raised _ => empty
  end.

Definition complaint {A : Type} (what : string) (fetch : outcome A) : list string :=
  match fetch with
  | Returned _ => []
  | Raised e => [what ++ ": " ++ e]
  end.

(** ** graph/workflow.py: the graph of [create_debate_graph] *)

Inductive Node : Type :=
| Research
| Bull
| Bear
| ModeratorNode
| JudgeNode
| END.

#[global] Instance Node_eq_dec : EqDecision Node.
Proof. solve_decision. Defined.

Module Workflow.

(** [route_next_speaker] *)
Definition route_next_speaker (state : DebateState) : Node :=
  match current_speaker state with
  | sp_end => END
  | sp_bull => Bull
  | sp_bear => Bear
  | sp_moderator => ModeratorNode
  | sp_judge => JudgeNode
  | sp_research => Bull
  end.

(** [route_after_moderator] *)
Definition route_after_moderator (state : DebateState) : Node :=
  if bool_decide (current_speaker state = sp_judge)
     || (current_round state >? max_rounds state)
  then JudgeNode
  else if bool_decide (current_speaker state = sp_bull) then Bull
  else Bear.

(** The path maps given to [add_conditional_edges]. *)
Definition advocate_paths : list (Node * Node) :=
  [(ModeratorNode, ModeratorNode); (JudgeNode, JudgeNode); (END, END)].

Definition moderator_paths : list (Node * Node) :=
  [(Bull, Bull); (Bear, Bear); (JudgeNode, JudgeNode)].

Definition path (label : Node) (paths : list (Node * Node)) : option Node :=
  snd <$> List.find (fun entry => bool_decide (fst entry = label)) paths.

(** The node scheduled after [node], read off the edges; [None]: the label
    returned by the routing function is not in its path map, or [node] is
    [END], which has no outgoing edge. *)
Definition next_node (node : Node) (state : DebateState) : option Node :=
  match node with
  | Research => Some Bull
  | Bull => path (route_next_speaker state) advocate_paths
  | ModeratorNode => path (route_after_moderator state) moderator_paths
  | Bear => path (route_next_speaker state) advocate_paths
  | JudgeNode => Some END
  | END => None
  end.

Section WithCollaborators.
Context {llm : CortexLLM} {provider : ResearchProvider}.

(** The update the callable registered by [add_node] returns when its turn
    returns; [None]: the parser of the arbiter raised, or there is no node
    ([END]).  The two ways a turn raises before it has an update, the
    rendering of the research context and the oracle call, are added by
    [node_run] below: every step of [node_run] is a step of [node_call]. *)
Definition node_call (node : Node) (state : DebateState) : option Update :=
  match node with
  | Research => Some (fst (Researcher.call state))
  | Bull => Some (BullAgent.call state)
  | Bear => Some (BearAgent.call state)
  | ModeratorNode => Some (Moderator.call state)
  | JudgeNode => Judge.call state
  | END => None
  end.

Inductive Step : Type :=
| Next (node : Node) (state : DebateState)
| Finished (state : DebateState)
| NodeRaised
| RouteFailed.

(** One super-step of the compiled graph: run the scheduled node, merge its
    output, follow the edge.  At [END] the run is over. *)
Definition graph_step (node : Node) (state : DebateState) : Step :=
  match node with
  | END => Finished state
  | _ =>
      match node_call node state with
      | Some output =>
          let state' := apply_update state output in
          match next_node node state' with
          | Some node' => Next node' state'
          | None => RouteFailed
          end
      | None => NodeRaised
      end
  end.

(** [k] super-steps from [node], each by [node_call]: the steps of the
    graph when every turn returns, without the limit under which the library
    runs them ([stream] below has both). *)
Fixpoint run (k : nat) (node : Node) (state : DebateState) : Step :=
  match k with
  | O => Next node state
  | S k' =>
      match graph_step node state with
      | Next node' state' => run k' node' state'
      | stopped => stopped
      end
  end.

(** The states the graph goes through, from any initial state. *)
Inductive reachable : Node -> DebateState -> Prop :=
| reach_entry (ticker : string) (question : option string) (max_rounds : Z) :
    reachable Research (create_initial_state ticker question max_rounds)
| reach_step (node node' : Node) (state state' : DebateState) :
    reachable node state ->
    graph_step node state = Next node' state' ->
    reachable node' state'.

End WithCollaborators.

(** *** [run_debate]: the graph as the library runs it *)

Section UnderTheLibrary.
Context {llm : CortexLLM} {faults : OracleFaults} {provider : ResearchProvider}.

(** The prompts a turn sends to the oracle, in the order of the calls. *)
Definition prompts (node : Node) (state : DebateState) : list Prompt :=
  match node with
  | Research => []
  | Bull =>
      [match Advocate.truthy (Advocate.last_content_of "bear" (arguments state)) with
       | Some bear_text => BullRebuttal state bear_text
       | None => BullOpening state
       end]
  | Bear =>
      [match Advocate.truthy (Advocate.last_content_of "bull" (arguments state)) with
       | Some bull_text => BearRebuttal state bull_text
       | None => BearOpening state
       end]
  | ModeratorNode =>
      (ModeratorRoundSummary state (last_two (arguments state))
       :: map (FactCheckRequest state)
            (List.filter Moderator.is_advocate (last_two (arguments state))))
  | JudgeNode => [FinalJudgment state]
  | END => []
  end.

(** Every participant opens its turn with [format_research_context] on the
    bundle of the state, and then calls the oracle: the turn returns when
    neither raises. *)
Definition turn_returns (node : Node) (state : DebateState) : bool :=
  BaseAgent.renders (research_data state)
  && forallb (fun prompt => negb (oracle_raises prompt)) (prompts node state).

(** The callable registered by [add_node]; [None]: the node raised.  The
    research node catches whatever its fetches raise. *)
Definition node_run (node : Node) (state : DebateState) : option Update :=
  match node with
  | Research => Some (fst (Researcher.call state))
  | END => None
  | _ => if turn_returns node state then node_call node state else None
  end.

(** How [graph.stream(initial_state)] ends: at [END], by the exception of a
    node, by a label missing from a path map, or by the library's
    [GraphRecursionError]; with the node that was scheduled and the state
    merged so far. *)
Inductive Outcome : Type :=
| Completed (final_state : DebateState)
| NodeException (node : Node) (state : DebateState)
| RoutingError (node : Node) (state : DebateState)
| GraphRecursionError (node : Node) (state : DebateState).

(** The super-steps of the compiled graph under a recursion limit: the
    library stops a run that has not reached [END] within the limit. *)
Fixpoint stream (recursion_limit : nat) (node : Node) (state : DebateState)
    : Outcome :=
  match node with
  | END => Completed state
  | _ =>
      match recursion_limit with
      | O => GraphRecursionError node state
      | S limit =>
          match node_run node state with
          | Some output =>
              let state' := apply_update state output in
              match next_node node state' with
              | Some node' => stream limit node' state'
              | None => RoutingError node state'
              end
          | None => NodeException node state
          end
      end
  end.

(** The node scheduled and the state merged after [k] events of
    [graph.stream]; [None]: the run has ended or raised before. *)
Fixpoint after_events (k : nat) (node : Node) (state : DebateState)
    : option (Node * DebateState) :=
  match k with
  | O => Some (node, state)
  | S k' =>
      match node with
      | END => None
      | _ =>
          match node_run node state with
          | Some output =>
              let state' := apply_update state output in
              match next_node node state' with
              | Some node' => after_events k' node' state'
              | None => None
              end
          | None => None
          end
      end
  end.

(** [run_debate] passes no configuration to [graph.stream], so the limit is
    the default of the library, 25 super-steps in its documentation. *)
Definition default_recursion_limit : nat := 25.

Definition run_debate (ticker : string) (question : option string) (max_rounds : Z)
    : Outcome :=
  stream default_recursion_limit Research
    (create_initial_state ticker question max_rounds).

End UnderTheLibrary.
End Workflow.

(** ** graph/workflow.py: the chain of [create_simple_debate_graph] *)

Module SimpleWorkflow.

(** The nodes [research, bull_1, bear_1, bull_2, bear_2, judge], joined by
    unconditional edges: the routing cursor is written but not consulted. *)
Definition chain : list Node :=
  [Research; Bull; Bear; Bull; Bear; JudgeNode].

Section WithCollaborators.
Context {llm : CortexLLM} {faults : OracleFaults} {provider : ResearchProvider}.

(** Running the given nodes in order, merging each output; [None]: a node
    raised.  The six steps of the chain are within the recursion limit of
    the library. *)
Fixpoint run_nodes (nodes : list Node) (state : DebateState) : option DebateState :=
  match nodes with
  | [] => Some state
  | node :: rest =>
      match Workflow.node_run node state with
      | Some output => run_nodes rest (apply_update state output)
      | None => None
      end
  end.

End WithCollaborators.
End SimpleWorkflow.

(** ** config.py and the Snowflake session *)

(** [str(n)] for an [int]. *)
Definition str_of_int (n : Z) : string := NilZero.string_of_int (Z.to_int n).

Module Config.

(** [CortexConfig.search_services] *)
Definition search_services : gmap string string :=
  list_to_map
    [("analyst_reports", "FINANCIAL_RESEARCH.EQUITY_RESEARCH.ANALYST_REPORTS_SEARCH");
     ("annual_reports", "FINANCIAL_RESEARCH.EQUITY_RESEARCH.ANNUAL_REPORTS_SEARCH");
     ("earnings_transcripts",
      "FINANCIAL_RESEARCH.EQUITY_RESEARCH.EARNINGS_TRANSCRIPTS_SEARCH");
     ("sec_filings", "FINANCIAL_RESEARCH.EQUITY_RESEARCH.SEC_FILINGS_SEARCH")].

End Config.

(** The [filter] of a search request: [{"@eq": {column: value}}], and
    [{"@and": [...]}] over such equalities. *)
Inductive Filter : Type :=
| FEq (column value : string)
| FAnd (equalities : list (string * string)).

(** The request dict of [CortexSearch.search]; [columns] and [filter] are
    keys that may be absent. *)
Record SearchRequest : Type := mkSearchRequest {
  req_query : string;
  req_limit : Z;
  req_columns : option (list string);
  req_filter : option Filter
}.

(** What the tools use of a Snowflake session.  [get_snowflake_connection]
    stands for obtaining the connection and a cursor; [run_sql] for executing a
    statement and zipping the fetched rows with the column names;
    [run_search_preview] for executing the search statement built from the
    service path and the request, fetching one row and decoding it: [None]
    when no row comes back, otherwise the [results] of the response;
    [run_scalar] for executing a statement and fetching one row: [None] when
    no row comes back, otherwise its first column. *)
Class Snowflake : Type := {
  get_snowflake_connection : outcome unit;
  run_sql : string -> outcome (list Row);
  run_search_preview : string -> SearchRequest -> outcome (option (list Row));
  run_scalar : string -> outcome (option string)
}.

(** What a log entry records under [results]: the rows, or the error dict. *)
Inductive Logged : Type :=
| LoggedRows (rows : list Row)
| LoggedError (e : string).

(** The row [{"error": str(e)}] returned in place of results. *)
Definition error_row (e : string) : Row := {[ "error" := SqlText e ]}.

(** ** tools/cortex_llm.py: [complete_simple] *)

Module CortexLLMTool.

(** [prompt.replace("'", "''")] *)
Definition escaped (prompt : string) : string := PyStr.replace "'" "''" prompt.

(** The statement formatted by [complete_simple]. *)
Definition simple_statement (model prompt : string) : string :=
  let escaped_prompt := escaped prompt in
  String PyStr.newline "        SELECT SNOWFLAKE.CORTEX.COMPLETE("
  ++ String PyStr.newline "            '" ++ model ++ "',"
  ++ String PyStr.newline "            '" ++ escaped_prompt ++ "'"
  ++ String PyStr.newline "        ) as response"
  ++ String PyStr.newline "        ".

Section WithSession.
Context {session : Snowflake}.

(** [complete_simple]: nothing is caught, the [finally] only closes the
    cursor. *)
Definition complete_simple (model prompt : string) : outcome string :=
  match get_snowflake_connection with
  | Raised e => Raised e
  | Returned _ =>
      match run_scalar (simple_statement model prompt) with
      | Returned (Some text) => Returned text
      | Returned None => Returned ""
      | Raised e => Raised e
      end
  end.

End WithSession.
End CortexLLMTool.

(** ** tools/cortex_analyst.py *)

Module CortexAnalyst.

(** An entry of [query_log], without its timestamp. *)
Record LogEntry : Type := mkLogEntry {
  log_type : string;
  log_sql : string;
  log_results : Logged
}.

(** A method that may raise and that appends to [self.query_log]. *)
Definition Tool (A : Type) : Type := list LogEntry -> outcome A * list LogEntry.

(** The statement every accessor formats: a new line and eight blanks before
    each of its four lines, and after the last. *)
Definition select_latest (table symbol order_by limit_text : string) : string :=
  let indent := String PyStr.newline "        " in
  indent ++ "SELECT * FROM FINANCIAL_RESEARCH.EQUITY_RESEARCH." ++ table
  ++ indent ++ "WHERE TICKER = '" ++ symbol ++ "'"
  ++ indent ++ "ORDER BY " ++ order_by ++ " DESC"
  ++ indent ++ "LIMIT " ++ limit_text
  ++ indent.

(** The cleaning of the oracle's answer in [_fallback_query]: the text
    between the first two code fences when the answer starts with one,
    without a leading [sql]; [None]: the index [1] raised. *)
Definition clean_sql (sql_response : string) : option string :=
  let fence := "```" in
  let generated_sql := PyStr.strip sql_response in
  if PyStr.startswith fence generated_sql then
    match nth_error (PyStr.split_str fence generated_sql) 1 with
    | Some generated_sql =>
        let generated_sql :=
          if PyStr.startswith "sql" generated_sql
          then PyStr.slice_from 3 generated_sql
          else generated_sql in
        Some (PyStr.strip generated_sql)
    | None => None
    end
  else Some (PyStr.strip generated_sql).

Section WithSession.
Context {session : Snowflake}.

Definition _execute_sql (sql query_type : string) : Tool (list Row) :=
  fun log =>
    match get_snowflake_connection with
    | Raised e => (Raised e, log)
    | Returned _ =>
        match run_sql sql with
        | Returned results =>
            (Returned results,
             (log ++ [mkLogEntry query_type sql (LoggedRows results)])%list)
        | Raised e =>
            (Returned [error_row e],
             (log ++ [mkLogEntry query_type sql (LoggedError e)])%list)
        end
    end.

(** [results[0] if results else {}] *)
Definition first_or_empty (call : Tool (list Row)) : Tool Row :=
  fun log =>
    match call log with
    | (Returned (row :: _), log') => (Returned row, log')
    | (Returned [], log') => (Returned ∅, log')
    | (Raised e, log') => (Raised e, log')
    end.

Definition get_metrics (symbol : string) : Tool Row :=
  first_or_empty
    (_execute_sql (select_latest "INVESTMENT_METRICS" symbol "METRIC_DATE" "1")
                  "get_metrics").

Definition get_earnings_history (symbol : string) (limit : Z) : Tool (list Row) :=
  _execute_sql
    (select_latest "EARNINGS_HISTORY" symbol "REPORT_DATE" (str_of_int limit))
    "get_earnings_history".

Definition get_technical_indicators (symbol : string) : Tool Row :=
  first_or_empty
    (_execute_sql (select_latest "TECHNICAL_INDICATORS" symbol "INDICATOR_DATE" "1")
                  "get_technical_indicators").

Definition get_sentiment (symbol : string) : Tool Row :=
  first_or_empty
    (_execute_sql (select_latest "MARKET_SENTIMENT" symbol "SENTIMENT_DATE" "1")
                  "get_sentiment").

Definition get_insider_activity (symbol : string) (limit : Z) : Tool (list Row) :=
  _execute_sql
    (select_latest "INSIDER_TRANSACTIONS" symbol "TRANSACTION_DATE" (str_of_int limit))
    "get_insider_activity".

Definition get_institutional_holdings (symbol : string) (limit : Z)
    : Tool (list Row) :=
  _execute_sql
    (select_latest "INSTITUTIONAL_HOLDINGS" symbol "VALUE_USD_MILLIONS"
       (str_of_int limit))
    "get_institutional_holdings".

End WithSession.
End CortexAnalyst.

(** ** tools/cortex_search.py *)

Module CortexSearch.

(** An entry of [query_log], without its timestamp. *)
Record LogEntry : Type := mkLogEntry {
  log_type : string;
  log_service : string;
  log_request : SearchRequest;
  log_results : Logged
}.

Definition Tool (A : Type) : Type := list LogEntry -> outcome A * list LogEntry.

(** Truthiness of an optional text and of an optional list. *)
Definition given (s : option string) : option string :=
  match s with
  | Some t => if String.eqb t "" then None else Some t
  | None => None
  end.

Definition given_list {A : Type} (l : option (list A)) : option (list A) :=
  match l with
  | Some (x :: xs) => Some (x :: xs)
  | _ => None
  end.

Section WithSession.
Context {session : Snowflake}.

Definition search (query service_name : string) (columns : option (list string))
    (filter_dict : option Filter) (limit : Z) : Tool (list Row) :=
  fun log =>
    let service_path := default service_name (Config.search_services !! service_name) in
    let search_request :=
      mkSearchRequest query limit (given_list columns) filter_dict in
    let entry := mkLogEntry ("search_" ++ service_name) service_path search_request in
    match get_snowflake_connection with
    | Raised e => (Raised e, log)
    | Returned _ =>
        match run_search_preview service_path search_request with
        | Returned (Some results) =>
            (Returned results, (log ++ [entry (LoggedRows results)])%list)
        | Returned None => (Returned [], (log ++ [entry (LoggedRows [])])%list)
        | Raised e => (Returned [error_row e], (log ++ [entry (LoggedError e)])%list)
        end
    end.

(** [{"@eq": {"TICKER": ticker}} if ticker else None] *)
Definition ticker_filter (symbol : option string) : option Filter :=
  FEq "TICKER" <$> given symbol.

Definition search_analyst_reports (query : string) (symbol : option string)
    (limit : Z) : Tool (list Row) :=
  search query "analyst_reports"
    (Some ["TICKER"; "FIRM"; "ANALYST_NAME"; "RATING"; "PRICE_TARGET";
           "REPORT_TITLE"; "REPORT_CONTENT"])
    (ticker_filter symbol) limit.

Definition search_earnings_transcripts (query : string) (symbol : option string)
    (limit : Z) : Tool (list Row) :=
  search query "earnings_transcripts"
    (Some ["TICKER"; "COMPANY_NAME"; "QUARTER"; "FISCAL_YEAR"; "CEO_NAME";
           "TRANSCRIPT_CONTENT"; "QA_SECTION"])
    (ticker_filter symbol) limit.

Definition search_sec_filings (query : string) (symbol filing_type : option string)
    (limit : Z) : Tool (list Row) :=
  let filter_dict :=
    match given symbol, given filing_type with
    | Some t, Some f => Some (FAnd [("TICKER", t); ("FILING_TYPE", f)])
    | Some t, None => Some (FEq "TICKER" t)
    | None, Some f => Some (FEq "FILING_TYPE" f)
    | None, None => None
    end in
  search query "sec_filings"
    (Some ["TICKER"; "COMPANY_NAME"; "FILING_TYPE"; "FILING_DATE";
           "FILING_DESCRIPTION"; "FILING_CONTENT"])
    filter_dict limit.

Definition search_annual_reports (query : string) (symbol : option string)
    (limit : Z) : Tool (list Row) :=
  search query "annual_reports"
    (Some ["TICKER"; "COMPANY_NAME"; "FISCAL_YEAR"; "REPORT_CONTENT";
           "KEY_HIGHLIGHTS"])
    (ticker_filter symbol) limit.

(** [search_all]: the four searches in the order of the dict display; the
    dict is kept as the list of its items. *)
Definition search_all (query : string) (symbol : option string)
    (limit_per_service : Z) : Tool (list (string * list Row)) :=
  fun log =>
    match search_analyst_reports query symbol limit_per_service log with
    | (Raised e, log) => (Raised e, log)
    | (Returned reports, log) =>
    match search_earnings_transcripts query symbol limit_per_service log with
    | (Raised e, log) => (Raised e, log)
    | (Returned transcripts, log) =>
    match search_sec_filings query symbol None limit_per_service log with
    | (Raised e, log) => (Raised e, log)
    | (Returned filings, log) =>
    match search_annual_reports query symbol limit_per_service log with
    | (Raised e, log) => (Raised e, log)
    | (Returned annual, log) =>
        (Returned [("analyst_reports", reports);
                   ("earnings_transcripts", transcripts);
                   ("sec_filings", filings);
                   ("annual_reports", annual)], log)
    end end end end.

Section TickerContext.

(** How an f-string renders a number, and the message of the [TypeError]
    raised by slicing one, are parameters. *)
Variable str_of_number : Q -> string.
Variable not_subscriptable : Q -> string.

(** What one result contributes to [context_parts]: nothing when it has the
    key [error] or no content. *)
Definition context_part (service_name : string) (result : Row)
    : outcome (option string) :=
  if bool_decide (is_Some (result !! "error")) then Returned None
  else
    let content :=
      PyVal.or_chain
        [PyVal.get result "REPORT_CONTENT"; PyVal.get result "TRANSCRIPT_CONTENT";
         PyVal.get result "FILING_CONTENT"] (SqlText "") in
    if PyVal.truthy content then
      let source :=
        PyVal.or_chain [PyVal.get result "FIRM"; PyVal.get result "FILING_TYPE"]
                       (SqlText service_name) in
      let source_text :=
        match source with
        | SqlText text => text
        | SqlNumber q => str_of_number q
        | SqlNull => "None"
        end in
      match content with
      | SqlText text =>
          Returned
            (Some ("[" ++ source_text ++ "]: " ++ String.substring 0 500 text ++ "..."))
      | SqlNumber q => Raised (not_subscriptable q)
      | SqlNull => Returned None
      end
    else Returned None.

(** [for result in service_results: ...] *)
Fixpoint parts_of_results (service_name : string) (service_results : list Row)
    : outcome (list string) :=
  match service_results with
  | [] => Returned []
  | result :: rest =>
      match context_part service_name result with
      | Raised e => Raised e
      | Returned part =>
          match parts_of_results service_name rest with
          | Raised e => Raised e
          | Returned parts => Returned (option_list part ++ parts)%list
          end
      end
  end.

(** [for service_name, service_results in results.items(): ...] *)
Fixpoint parts_of_services (results : list (string * list Row))
    : outcome (list string) :=
  match results with
  | [] => Returned []
  | (service_name, service_results) :: rest =>
      match parts_of_results service_name service_results with
      | Raised e => Raised e
      | Returned parts =>
          match parts_of_services rest with
          | Raised e => Raised e
          | Returned later => Returned (parts ++ later)%list
          end
      end
  end.

(** [for topic in topics: ...] *)
Fixpoint parts_of_topics (symbol : string) (topics : list string)
    : Tool (list string) :=
  fun log =>
    match topics with
    | [] => (Returned [], log)
    | topic :: rest =>
        match search_all (symbol ++ " " ++ topic) (Some symbol) 2 log with
        | (Raised e, log) => (Raised e, log)
        | (Returned results, log) =>
            match parts_of_services results with
            | Raised e => (Raised e, log)
            | Returned parts =>
                match parts_of_topics symbol rest log with
                | (Raised e, log) => (Raised e, log)
                | (Returned later, log) => (Returned (parts ++ later)%list, log)
                end
            end
        end
    end.

Definition get_context_for_ticker (symbol : string) (topics : option (list string))
    : Tool string :=
  fun log =>
    let topics :=
      default ["outlook"; "growth"; "risks"; "competitive position"] topics in
    match parts_of_topics symbol topics log with
    | (Raised e, log) => (Raised e, log)
    | (Returned [], log) => (Returned "No relevant context found.", log)
    | (Returned context_parts, log) =>
        (Returned
           (String.concat (String PyStr.newline (String PyStr.newline ""))
              context_parts), log)
    end.

End TickerContext.

End WithSession.
End CortexSearch.

(** The provider the researcher is given: a fresh [CortexAnalyst] and a fresh
    [CortexSearch] over one session.  The two logs handed back by
    [get_query_log] are passed through as given. *)
Definition snowflake_provider (session : Snowflake)
    (analyst_log search_log : QueryLog) : ResearchProvider :=
  {| get_metrics := fun symbol => fst (CortexAnalyst.get_metrics symbol []);
     get_earnings_history := fun symbol limit =>
       fst (CortexAnalyst.get_earnings_history symbol limit []);
     get_technical_indicators := fun symbol =>
       fst (CortexAnalyst.get_technical_indicators symbol []);
     get_sentiment := fun symbol => fst (CortexAnalyst.get_sentiment symbol []);
     get_insider_activity := fun symbol limit =>
       fst (CortexAnalyst.get_insider_activity symbol limit []);
     get_institutional_holdings := fun symbol limit =>
       fst (CortexAnalyst.get_institutional_holdings symbol limit []);
     search_analyst_reports := fun query symbol limit =>
       fst (CortexSearch.search_analyst_reports query (Some symbol) limit []);
     search_earnings_transcripts := fun query symbol limit =>
       fst (CortexSearch.search_earnings_transcripts query (Some symbol) limit []);
     search_sec_filings := fun query symbol limit =>
       fst (CortexSearch.search_sec_filings query (Some symbol) None limit []);
     analyst_query_log := analyst_log;
     search_query_log := search_log |}.

(** What an accessor hands to the researcher once the session is connected:
    the answer of the session, or the error row in its place. *)
Definition rows_or_error (answer : outcome (list Row)) : list Row :=
  match answer with
  | Returned rows => rows
  | Raised e => [error_row e]
  end.

Definition first_row_or_error (answer : outcome (list Row)) : Row :=
  match answer with
  | Returned (row :: _) => row
  | Returned [] => ∅
  | Raised e => error_row e
  end.

Definition found_or_error (answer : outcome (option (list Row))) : list Row :=
  match answer with
  | Returned (Some rows) => rows
  | Returned None => []
  | Raised e => [error_row e]
  end.

(** What the log entry of a search keeps of the same answer. *)
Definition logged_answer (answer : outcome (option (list Row))) : Logged :=
  match answer with
  | Returned (Some rows) => LoggedRows rows
  | Returned None => LoggedRows []
  | Raised e => LoggedError e
  end.

(** ** streamlit_app.py: [run_debate] *)

Module StreamlitApp.

(** A key of the [results] dict that starts as [None] and is assigned
    [node_output.get(key, {})]. *)
Inductive Slot (A : Type) : Type :=
| Unset
| EmptyDict
| Filled (a : A).

Arguments Unset {A}.
Arguments EmptyDict {A}.
Arguments Filled {A} a.

(** The [results] dict, without its timestamp. *)
Record Results : Type := mkResults {
  r_ticker : string;
  r_question : string;
  r_rounds : Z;
  r_arguments : list Argument;
  r_verdict : Slot Verdict;
  r_research_data : Slot ResearchData;
  r_analyst_log : QueryLog;
  r_search_log : QueryLog
}.

(** The dicts the generator yields, by their [type]. *)
Inductive Event : Type :=
| ResearchEvent (data : Slot ResearchData)
| BullEvent (data : Argument)
| BearEvent (data : Argument)
| JudgeEvent (data : Slot Verdict)
| CompleteEvent (data : Results).

(** The names under which [create_simple_debate_graph] registers its nodes,
    in the order of its edges. *)
Definition simple_graph_nodes : list (string * Node) :=
  [("research", Research); ("bull_1", Bull); ("bear_1", Bear);
   ("bull_2", Bull); ("bear_2", Bear); ("judge", JudgeNode)].

(** [if node_output:] is false for a dict without any key. *)
Definition is_empty (u : Update) : bool :=
  match u with
  | mkUpdate None None None None None None None None None => true
  | _ => false
  end.

Definition from_key {A : Type} (value : option A) : Slot A :=
  match value with
  | Some a => Filled a
  | None => EmptyDict
  end.

(** The body of the two loops for one [(node_name, node_output)] pair: the
    updated [results] and what is yielded. *)
Definition handle (results : Results) (node_name : string) (node_output : Update)
    : Results * list Event :=
  if is_empty node_output then (results, [])
  else if String.eqb node_name "research" then
    let data := from_key (u_research_data node_output) in
    let analyst_log := default [] (u_analyst_log node_output) in
    let search_log := default [] (u_search_log node_output) in
    (mkResults (r_ticker results) (r_question results) (r_rounds results)
       (r_arguments results) (r_verdict results) data
       (r_analyst_log results ++ analyst_log)%list
       (r_search_log results ++ search_log)%list,
     [ResearchEvent data])
  else if existsb (String.eqb node_name) ["bull_1"; "bull_2"; "bull"] then
    let args := default [] (u_arguments node_output) in
    match last args with
    | Some latest =>
        (mkResults (r_ticker results) (r_question results) (r_rounds results)
           (r_arguments results ++ args)%list (r_verdict results)
           (r_research_data results) (r_analyst_log results) (r_search_log results),
         [BullEvent latest])
    | None => (results, [])
    end
  else if existsb (String.eqb node_name) ["bear_1"; "bear_2"; "bear"] then
    let args := default [] (u_arguments node_output) in
    match last args with
    | Some latest =>
        (mkResults (r_ticker results) (r_question results) (r_rounds results)
           (r_arguments results ++ args)%list (r_verdict results)
           (r_research_data results) (r_analyst_log results) (r_search_log results),
         [BearEvent latest])
    | None => (results, [])
    end
  else if String.eqb node_name "judge" then
    let verdict := from_key (u_verdict node_output) in
    let args := default [] (u_arguments node_output) in
    (mkResults (r_ticker results) (r_question results) (r_rounds results)
       (r_arguments results ++ args)%list verdict
       (r_research_data results) (r_analyst_log results) (r_search_log results),
     [JudgeEvent verdict])
  else (results, []).

(** What iterating a generator gives: the values it yields, and whether it
    then ends or raises. *)
Inductive Generated (A : Type) : Type :=
| Exhausted (yielded : list A)
| RaisedAfter (yielded : list A).

Arguments Exhausted {A} yielded.
Arguments RaisedAfter {A} yielded.

Definition yield_first {A : Type} (first : list A) (later : Generated A)
    : Generated A :=
  match later with
  | Exhausted yielded => Exhausted (first ++ yielded)
  | RaisedAfter yielded => RaisedAfter (first ++ yielded)
  end.

Section WithCollaborators.
Context {llm : CortexLLM} {faults : OracleFaults} {provider : ResearchProvider}.

(** [graph.stream(initial_state)] for the chain: the output of each node
    by name, in order, up to the end of the chain or to the node that
    raises. *)
Fixpoint stream (nodes : list (string * Node)) (state : DebateState)
    : Generated (string * Update) :=
  match nodes with
  | [] => Exhausted []
  | (name, node) :: rest =>
      match Workflow.node_run node state with
      | Some output =>
          yield_first [(name, output)] (stream rest (apply_update state output))
      | None => RaisedAfter []
      end
  end.

(** The loop over the streamed outputs. *)
Fixpoint collect (results : Results) (outputs : list (string * Update))
    : Results * list Event :=
  match outputs with
  | [] => (results, [])
  | (name, output) :: rest =>
      let '(results', yielded) := handle results name output in
      let '(final, later) := collect results' rest in
      (final, (yielded ++ later)%list)
  end.

(** [run_debate]: the events the generator yields; the closing [complete]
    event is yielded when the stream ends, not when a node raises. *)
Definition run_debate (ticker : string) (rounds : Z) (question : option string)
    : Generated Event :=
  let initial_state := create_initial_state ticker question rounds in
  let results :=
    mkResults ticker
      (default ("Should we buy or sell " ++ ticker ++ "?") (Advocate.truthy question))
      rounds [] Unset Unset [] [] in
  match stream simple_graph_nodes initial_state with
  | Exhausted outputs =>
      let '(final, yielded) := collect results outputs in
      Exhausted (yielded ++ [CompleteEvent final])%list
  | RaisedAfter outputs =>
      let '(_, yielded) := collect results outputs in
      RaisedAfter yielded
  end.

End WithCollaborators.
End StreamlitApp.

(** ** Line-by-line readings of the parsing loops

    What one line of a response contributes, taken alone; the results compare
    the loops of the agents with these. *)

(** The confidence a line of an advocate's response carries, if any. *)
Definition advocate_confidence_of_line (line : string) : option PyFloat :=
  if PyStr.startswith "CONFIDENCE:" line
  then float_of_first
         (PyStr.split_ws (PyStr.strip (PyStr.remove "CONFIDENCE:" line)))
  else None.

(** The evidence entry made of a line that starts with the label. *)
Definition advocate_evidence_of_line (line : string) : string :=
  PyStr.strip (PyStr.remove "EVIDENCE:" line).

(** The label a line of the arbiter's response selects, if any. *)
Definition judge_recommendation_of_line (line : string) : option string :=
  if PyStr.contains "RECOMMENDATION:" (PyStr.upper line) then
    match nth_error (PyStr.split1 ":" line) 1 with
    | Some field =>
        List.find (fun rec => PyStr.contains rec (PyStr.upper (PyStr.strip field)))
                  Judge.labels
    | None => None
    end
  else None.

(** ** Fixtures: concrete collaborators for the worked examples *)

(** An oracle that answers every prompt with the empty text. *)
Definition silent_llm : CortexLLM :=
  {| complete := fun _ => ""; verdict_transcript := fun v => summary v |}.

(** An oracle whose fact-check answer depends on how far the debate has got. *)
Definition counting_llm : CortexLLM :=
  {| complete := fun prompt =>
       match prompt with
       | FactCheckRequest state _ =>
           if (length (arguments state) <=? 1)%nat
           then "ACCURACY_SCORE: 0.2"
           else "ACCURACY_SCORE: 0.6"
       | _ => ""
       end;
     verdict_transcript := fun v => summary v |}.

(** An oracle none of whose calls raises. *)
Definition no_faults : OracleFaults := {| oracle_raises := fun _ => false |}.

Definition sample_row : Row :=
  {[ "COMPANY_NAME" := SqlText "Example Corp";
     "SHARES_TRADED" := SqlNumber 1000 ]}.

(** A provider all of whose accessors return one row (or a list of one). *)
Definition full_provider : ResearchProvider :=
  {| get_metrics := fun _ => Returned sample_row;
     get_earnings_history := fun _ _ => Returned [sample_row];
     get_technical_indicators := fun _ => Returned sample_row;
     get_sentiment := fun _ => Returned sample_row;
     get_insider_activity := fun _ _ => Returned [sample_row];
     get_institutional_holdings := fun _ _ => Returned [sample_row];
     search_analyst_reports := fun _ _ _ => Returned [sample_row];
     search_earnings_transcripts := fun _ _ _ => Returned [sample_row];
     search_sec_filings := fun _ _ _ => Returned [sample_row];
     analyst_query_log := [];
     search_query_log := [] |}.

(** The same provider with a failing earnings-history accessor. *)
Definition earnings_down_provider : ResearchProvider :=
  {| get_metrics := fun _ => Returned sample_row;
     get_earnings_history := fun _ _ => Raised "connection lost";
     get_technical_indicators := fun _ => Returned sample_row;
     get_sentiment := fun _ => Returned sample_row;
     get_insider_activity := fun _ _ => Returned [sample_row];
     get_institutional_holdings := fun _ _ => Returned [sample_row];
     search_analyst_reports := fun _ _ _ => Returned [sample_row];
     search_earnings_transcripts := fun _ _ _ => Returned [sample_row];
     search_sec_filings := fun _ _ _ => Returned [sample_row];
     analyst_query_log := [];
     search_query_log := [] |}.

(** The state in which the first advocate-for turn runs: after research. *)
Definition after_research (rounds : Z) : DebateState :=
  apply_update (create_initial_state "xyz" None rounds)
    (fst (@Researcher.call full_provider (create_initial_state "xyz" None rounds))).

(** The state after that turn, with the silent oracle. *)
Definition after_first_bull (rounds : Z) : DebateState :=
  apply_update (after_research rounds)
    (@BullAgent.call silent_llm (after_research rounds)).

(** A session whose metrics statement fails while everything else answers. *)
Definition flaky_session : Snowflake :=
  {| get_snowflake_connection := Returned tt;
     run_sql := fun sql =>
       if PyStr.contains "INVESTMENT_METRICS" sql
       then Raised "statement timed out"
       else Returned [sample_row];
     run_search_preview := fun _ _ => Returned (Some [sample_row]);
     run_scalar := fun _ => Returned None |}.

(** A session that connects and all of whose search statements fail. *)
Definition search_down_session : Snowflake :=
  {| get_snowflake_connection := Returned tt;
     run_sql := fun _ => Returned [sample_row];
     run_search_preview := fun _ _ => Raised "service unavailable";
     run_scalar := fun _ => Returned None |}.

(** A session whose insider statement fails while everything else answers. *)
Definition insider_down_session : Snowflake :=
  {| get_snowflake_connection := Returned tt;
     run_sql := fun sql =>
       if PyStr.contains "INSIDER_TRANSACTIONS" sql
       then Raised "statement timed out"
       else Returned [sample_row];
     run_search_preview := fun _ _ => Returned (Some [sample_row]);
     run_scalar := fun _ => Returned None |}.

(** A session for which no connection can be obtained. *)
Definition offline_session : Snowflake :=
  {| get_snowflake_connection := Raised "no route to host";
     run_sql := fun _ => Returned [];
     run_search_preview := fun _ _ => Returned None;
     run_scalar := fun _ => Returned None |}.

(** ** Results *)

Example float_1_8 : PyFloat.of_string "1.8" = Some (Fin (18 # 10)).
Proof. reflexivity. Qed.

Example float_neg : PyFloat.of_string "-0.25" = Some (Fin (-25 # 100)).
Proof. reflexivity. Qed.

Example float_exp : PyFloat.of_string "1_0.5e-1" = Some (Fin (105 # 100)).
Proof. reflexivity. Qed.

Example float_bad : PyFloat.of_string "[0.8]" = None.
Proof. reflexivity. Qed.

Example float_nan : PyFloat.of_string "NaN" = Some NaN.
Proof. reflexivity. Qed.

Example split_ws_ex : PyStr.split_ws "  0.8  (high) " = ["0.8"; "(high)"].
Proof. reflexivity. Qed.

Example split_ex : PyStr.split ":" "a:b::c" = ["a"; "b"; ""; "c"].
Proof. reflexivity. Qed.

Example remove_ex : PyStr.remove "CONFIDENCE:" "CONFIDENCE: 0.9" = " 0.9".
Proof. reflexivity. Qed.

Example strip_chars_ex : PyStr.strip_chars "- " "-  Strong growth - " = "Strong growth".
Proof. reflexivity. Qed.


(** *** Routing updates of the participants *)

Section Routing.
Context {llm : CortexLLM}.

Lemma bear_next_speaker (state : DebateState) :
  u_current_speaker (BearAgent.call state)
  = Some (if current_round state >=? max_rounds state then sp_judge else sp_moderator).
Proof. reflexivity. Qed.

Lemma moderator_next_speaker (state : DebateState) :
  u_current_speaker (Moderator.call state)
  = Some (if current_round state >=? max_rounds state then sp_judge else sp_bull).
Proof. reflexivity. Qed.

Lemma geb_ge (a b : Z) : (a >=? b) = true <-> a >= b.
Proof. rewrite Z.geb_le. lia. Qed.

Lemma geb_lt (a b : Z) : (a >=? b) = false <-> a < b.
Proof.
  destruct (a >=? b) eqn:E.
  - apply geb_ge in E. split; [discriminate | lia].
  - split; [intros _ | reflexivity].
    destruct (Z_lt_ge_dec a b) as [Hlt | Hge]; [exact Hlt |].
    apply geb_ge in Hge. congruence.
Qed.

End Routing.

(** C2, as amended: an advocate-against turn appends its one Argument and
    routes to the arbiter when the round index it read from the state is at
    least the round limit, to the moderator otherwise; an advocate-for turn
    appends its one Argument and routes to the moderator whatever the round. *)
Theorem advocate_routing_update (llm : CortexLLM) (state : DebateState) :
  (current_round state >= max_rounds state ->
     u_current_speaker (BearAgent.call state) = Some sp_judge)
  /\ (current_round state < max_rounds state ->
     u_current_speaker (BearAgent.call state) = Some sp_moderator)
  /\ u_current_speaker (BullAgent.call state) = Some sp_moderator
  /\ (exists a, u_arguments (BearAgent.call state) = Some [a] /\ agent a = "bear")
  /\ (exists a, u_arguments (BullAgent.call state) = Some [a] /\ agent a = "bull").
Proof.
  repeat split.
  - intros H. rewrite bear_next_speaker.
    apply geb_ge in H. now rewrite H.
  - intros H. rewrite bear_next_speaker.
    apply geb_lt in H. now rewrite H.
  - eexists. split; [reflexivity |].
    unfold BearAgent.generate_argument, Advocate.build.
    now destruct (Advocate.parse _).
  - eexists. split; [reflexivity |].
    unfold BullAgent.generate_argument, Advocate.build.
    now destruct (Advocate.parse _).
Qed.

(** C2 as stated fails for the advocate-for: with [round_limit = 0] the first
    advocate-for turn runs at [round_index = 0 >= round_limit]; on the bundle
    of the sample provider, which renders, and with an oracle that answers,
    the turn returns, and its update still routes to the moderator, not to
    the arbiter. *)
Lemma bull_at_limit_routes_to_moderator :
  current_round (after_research 0) >= max_rounds (after_research 0)
  /\ BaseAgent.renders (research_data (after_research 0)) = true
  /\ @Workflow.node_run silent_llm no_faults full_provider Bull (after_research 0)
     = Some (@BullAgent.call silent_llm (after_research 0))
  /\ u_current_speaker (@BullAgent.call silent_llm (after_research 0))
     = Some sp_moderator
  /\ Some sp_moderator <> Some sp_judge.
Proof.
  split; [vm_compute; discriminate |].
  split; [vm_compute; reflexivity |].
  split; [vm_compute; reflexivity |].
  split; [reflexivity | discriminate].
Qed.

(** *** The round counter *)

(** C3, as amended: the round index starts at 0; a turn of the
    advocate-against adds exactly 1 to it, a turn of any other participant
    (research, advocate-for, moderator, arbiter) leaves it as it was. *)
Theorem round_index_moves_on_bear_turn_only
    (llm : CortexLLM) (provider : ResearchProvider)
    (node : Node) (state : DebateState) (output : Update) :
  Workflow.node_call node state = Some output ->
  current_round (apply_update state output)
  = (if bool_decide (node = Bear) then current_round state + 1 else current_round state)
  /\ forall ticker question limit,
       current_round (create_initial_state ticker question limit) = 0.
Proof.
  intros Hcall. split; [| reflexivity].
  destruct node; simpl in Hcall.
  - injection Hcall as <-. unfold Researcher.call.
    now destruct (Researcher.gather_research _ _) as [[r | e] out].
  - now injection Hcall as <-.
  - now injection Hcall as <-.
  - now injection Hcall as <-.
  - unfold Judge.call in Hcall.
    destruct (Judge.generate_verdict state); [| discriminate].
    now injection Hcall as <-.
  - discriminate.
Qed.

Lemma bear_turn_after_first_bull :
  @Workflow.node_run silent_llm no_faults full_provider Bear (after_first_bull 2)
  = Some (@BearAgent.call silent_llm (after_first_bull 2)).
Proof. vm_compute. reflexivity. Qed.

Lemma round_index_moves_on_bear_turn_only_witness :
  @Workflow.node_run silent_llm no_faults full_provider Bear (after_first_bull 2)
  = Some (@BearAgent.call silent_llm (after_first_bull 2))
  /\ current_round
       (apply_update (after_first_bull 2)
          (@BearAgent.call silent_llm (after_first_bull 2)))
     = current_round (after_first_bull 2) + 1.
Proof.
  split; [exact bear_turn_after_first_bull |].
  exact (proj1 (round_index_moves_on_bear_turn_only silent_llm full_provider
                  Bear (after_first_bull 2) _ eq_refl)).
Defined.

(** C3 as stated fails: the moderator turn that follows the first
    advocate-for turn leaves the round index at 0.  The bundle of the sample
    provider renders and the oracle answers, so the turn returns. *)
Lemma moderator_turn_keeps_round_index :
  current_round (after_first_bull 2) = 0
  /\ BaseAgent.renders (research_data (after_first_bull 2)) = true
  /\ @Workflow.node_run silent_llm no_faults full_provider ModeratorNode
       (after_first_bull 2)
     = Some (@Moderator.call silent_llm (after_first_bull 2))
  /\ current_round
       (apply_update (after_first_bull 2)
          (@Moderator.call silent_llm (after_first_bull 2)))
     = 0.
Proof.
  split; [reflexivity |]. split; [vm_compute; reflexivity |].
  split; [vm_compute; reflexivity | reflexivity].
Qed.

(** *** The moderator *)

(** C10: whatever the oracle answers, the summary Argument of the moderator
    carries that answer as its content and the constant confidence 0.9, and it
    is the one Argument of the moderator's update. *)
Theorem moderator_summary_confidence (llm : CortexLLM) (state : DebateState) :
  confidence (Moderator.generate_argument state) = Fin (9 # 10)
  /\ content (Moderator.generate_argument state)
     = complete (ModeratorRoundSummary state (last_two (arguments state)))
  /\ agent (Moderator.generate_argument state) = "moderator"
  /\ u_arguments (Moderator.call state) = Some [Moderator.generate_argument state].
Proof. repeat split. Qed.

(** C1, evaluated on the code: in the run for [round_limit = 3] the first
    moderator turn comes when only the advocate-for has spoken; its update
    names the advocate-for again and the graph schedules that node. *)
Theorem moderator_reschedules_bull (llm : CortexLLM) (provider : ResearchProvider) :
  exists before,
    Workflow.run 2 Research (create_initial_state "XYZ" None 3)
      = Workflow.Next ModeratorNode before
    /\ map agent (arguments before) = ["bull"]
    /\ current_round before = 0 /\ max_rounds before = 3
    /\ u_current_speaker (Moderator.call before) = Some sp_bull
    /\ Workflow.graph_step ModeratorNode before
       = Workflow.Next Bull (apply_update before (Moderator.call before)).
Proof.
  eexists. split; [reflexivity |].
  unfold Researcher.call.
  destruct (Researcher.gather_research _ _) as [[r | e] out]; simpl;
    unfold BullAgent.generate_argument, Advocate.build;
    destruct (Advocate.parse _); repeat split.
Qed.

(** *** The verdict parser returns *)

Section StringFacts.

Lemma colon_upper_char (c : ascii) :
  Ascii.eqb ":" (PyStr.upper_char c) = Ascii.eqb ":" c.
Proof. destruct c as [[] [] [] [] [] [] [] []]; reflexivity. Qed.

Lemma mem_colon_upper (s : string) :
  PyStr.mem_char ":" (PyStr.upper s) = PyStr.mem_char ":" s.
Proof.
  induction s as [| c s IH]; [reflexivity |].
  unfold PyStr.upper in *.
  cbn [PyStr.mem_char PyStr.map_chars]. now rewrite colon_upper_char, IH.
Qed.

Lemma prefix_mem_char (c : ascii) (p s : string) :
  String.prefix p s = true ->
  PyStr.mem_char c p = true -> PyStr.mem_char c s = true.
Proof.
  revert p. induction s as [| b s IH]; intros [| a p] Hp Hc;
    simpl in *; try discriminate.
  destruct (ascii_dec a b) as [-> | _]; [| discriminate].
  apply orb_true_iff in Hc as [Hc | Hc]; apply orb_true_iff.
  - now left.
  - right. eauto.
Qed.

Lemma contains_mem_char (c : ascii) (p s : string) :
  PyStr.contains p s = true ->
  PyStr.mem_char c p = true -> PyStr.mem_char c s = true.
Proof.
  induction s as [| b s IH]; intros Hp Hc.
  - simpl in Hp. rewrite orb_false_r in Hp. eauto using prefix_mem_char.
  - cbn [PyStr.contains] in Hp. apply orb_true_iff in Hp as [Hp | Hp].
    + eauto using prefix_mem_char.
    + simpl. apply orb_true_iff. right. eauto.
Qed.

Lemma split1_cut (sep : ascii) (s : string) :
  PyStr.mem_char sep s = true ->
  exists before after, PyStr.split1 sep s = [before; after].
Proof.
  induction s as [| c s IH]; simpl; [discriminate |].
  intros H. rewrite Ascii.eqb_sym.
  destruct (Ascii.eqb sep c) eqn:E.
  - eauto.
  - simpl in H. destruct (IH H) as (b & a & ->). eauto.
Qed.

Lemma labelled_line_has_colon (label line : string) :
  PyStr.mem_char ":" label = true ->
  PyStr.contains label (PyStr.upper line) = true ->
  exists before after, PyStr.split1 ":" line = [before; after].
Proof.
  intros Hl Hc. apply split1_cut.
  rewrite <- mem_colon_upper. eauto using contains_mem_char.
Qed.

End StringFacts.

Section VerdictParser.

Lemma parse_line_returns (p : Judge.Parsed) (line : string) :
  exists p',
    Judge.parse_line p line = Some p'
    /\ Judge.p_key_factors p'
       = if negb (Judge.labelled line) && Judge.bullet line
              && (length (Judge.p_key_factors p) <? 5)%nat
         then (Judge.p_key_factors p ++ [PyStr.strip_chars "- " line])%list
         else Judge.p_key_factors p.
Proof.
  unfold Judge.parse_line, Judge.labelled.
  destruct (PyStr.contains "RECOMMENDATION:" _) eqn:E1.
  { destruct (labelled_line_has_colon "RECOMMENDATION:" line eq_refl E1)
      as (b & a & ->).
    cbn [nth_error]. destruct (List.find _ Judge.labels); eexists; split; reflexivity. }
  destruct (PyStr.contains "CONFIDENCE:" _) eqn:E2.
  { destruct (Judge.float_after_colon line); eexists; split; reflexivity. }
  destruct (PyStr.contains "BULL_SCORE:" _) eqn:E3.
  { destruct (Judge.float_after_colon line); eexists; split; reflexivity. }
  destruct (PyStr.contains "BEAR_SCORE:" _) eqn:E4.
  { destruct (Judge.float_after_colon line); eexists; split; reflexivity. }
  destruct (PyStr.contains "SUMMARY:" _) eqn:E5.
  { destruct (labelled_line_has_colon "SUMMARY:" line eq_refl E5) as (b & a & ->).
    cbn [nth_error]. destruct (PyStr.contains ":" line); eexists; split; reflexivity. }
  destruct (PyStr.contains "KEY_FACTORS:" _) eqn:E6;
    [eexists; split; reflexivity |].
  destruct (PyStr.contains "KEY FACTORS:" _) eqn:E7;
    [eexists; split; reflexivity |].
  destruct (Judge.bullet line), (length (Judge.p_key_factors p) <? 5)%nat;
    eexists; split; reflexivity.
Qed.

Lemma take_snoc_full {A : Type} (l k : list A) (n : nat) :
  (n <= length l)%nat -> take n (l ++ k) = take n l.
Proof. apply take_app_le. Qed.

Lemma parse_lines_returns (lines : list string) (p : Judge.Parsed) :
  (length (Judge.p_key_factors p) <= 5)%nat ->
  exists p',
    Judge.parse_lines p lines = Some p'
    /\ Judge.p_key_factors p' = take 5 (Judge.p_key_factors p ++ factor_lines lines).
Proof.
  revert p. induction lines as [| line rest IH]; intros p Hlen.
  - exists p. split; [reflexivity |].
    unfold factor_lines. simpl. rewrite app_nil_r. now rewrite take_ge.
  - destruct (parse_line_returns p line) as (p1 & Hp1 & Hk1).
    cbn [Judge.parse_lines]. rewrite Hp1.
    unfold factor_lines in *. cbn [List.filter].
    destruct (negb (Judge.labelled line) && Judge.bullet line) eqn:Hb.
    + destruct (length (Judge.p_key_factors p) <? 5)%nat eqn:Hlt; simpl in Hk1.
      * apply Nat.ltb_lt in Hlt.
        destruct (IH p1) as (p' & Hp' & Hk').
        { rewrite Hk1, length_app. simpl. lia. }
        exists p'. split; [exact Hp' |].
        rewrite Hk', Hk1. cbn [map]. now rewrite <- app_assoc.
      * apply Nat.ltb_ge in Hlt.
        destruct (IH p1) as (p' & Hp' & Hk'); [rewrite Hk1; lia |].
        exists p'. split; [exact Hp' |].
        rewrite Hk', Hk1. rewrite !take_snoc_full by lia. reflexivity.
    + simpl in Hk1.
      destruct (IH p1) as (p' & Hp' & Hk'); [rewrite Hk1; lia |].
      exists p'. split; [exact Hp' |]. now rewrite Hk', Hk1.
Qed.

(** [generate_verdict] never raises, and its key factors and risks are these. *)
Lemma parse_verdict_returns (response : string) :
  exists v,
    Judge.parse_verdict response = Some v
    /\ key_factors v
       = match factor_lines (PyStr.lines response) with
         | [] => ["See detailed analysis in summary"]
         | found => take 5 found
         end
    /\ risks v = ["Market volatility"; "Execution risk"].
Proof.
  unfold Judge.parse_verdict.
  destruct (parse_lines_returns (PyStr.lines response) (Judge.initial response))
    as (p & -> & Hk); [simpl; lia |].
  eexists. split; [reflexivity |]. split; [| reflexivity].
  cbn [key_factors]. rewrite Hk. simpl.
  destruct (factor_lines _) as [| f fs]; [reflexivity |].
  destruct fs as [| f2 [| f3 [| f4 [| f5 fs]]]]; reflexivity.
Qed.

End VerdictParser.




Example verdict_parse_sample :
  key_factors <$> Judge.parse_verdict
    "RECOMMENDATION: BUY
- Margin expansion
  - Backlog growth
- SUMMARY: taken as the summary
- a
- b
- c
- d"
  = Some ["Margin expansion"; "Backlog growth"; "a"; "b"; "c"].
Proof. reflexivity. Qed.

(** *** Clamping *)

Section Clamping.

Lemma Qltb_lt (x y : Q) : PyFloat.Qltb x y = true <-> (x < y)%Q.
Proof.
  unfold PyFloat.Qltb. rewrite negb_true_iff, <- not_true_iff_false, Qle_bool_iff.
  split; [apply Qnot_le_lt | apply Qlt_not_le].
Qed.

Lemma Qltb_ge (x y : Q) : PyFloat.Qltb x y = false <-> (y <= x)%Q.
Proof.
  unfold PyFloat.Qltb. rewrite negb_false_iff. apply Qle_bool_iff.
Qed.

Lemma clamp_nan (lo hi : PyFloat) : PyFloat.clamp lo hi NaN = NaN.
Proof. destruct lo, hi; reflexivity. Qed.

Lemma clamp_within (lo hi : Q) (x : PyFloat) :
  (lo <= hi)%Q -> x <> NaN ->
  PyFloat.within lo hi (PyFloat.clamp (Fin lo) (Fin hi) x).
Proof.
  intros Hlh Hx. unfold PyFloat.clamp, PyFloat.max, PyFloat.min.
  destruct x as [q | | |]; try congruence; cbn [PyFloat.lt].
  - destruct (PyFloat.Qltb q lo) eqn:E1; cbn [PyFloat.lt].
    + apply Qltb_lt in E1.
      destruct (PyFloat.Qltb hi lo) eqn:E2.
      * apply Qltb_lt in E2. exfalso. eapply Qlt_not_le; eauto.
      * split; [apply Qle_refl | exact Hlh].
    + apply Qltb_ge in E1.
      destruct (PyFloat.Qltb hi q) eqn:E2.
      * split; [exact Hlh | apply Qle_refl].
      * apply Qltb_ge in E2. now split.
  - split; [exact Hlh | apply Qle_refl].
  - destruct (PyFloat.Qltb hi lo) eqn:E2.
    + apply Qltb_lt in E2. exfalso. eapply Qlt_not_le; eauto.
    + split; [apply Qle_refl | exact Hlh].
Qed.

Lemma clamp_above (lo hi q : Q) :
  (lo <= hi)%Q -> (hi < q)%Q ->
  PyFloat.clamp (Fin lo) (Fin hi) (Fin q) = Fin hi.
Proof.
  intros Hlh Hq. unfold PyFloat.clamp, PyFloat.max, PyFloat.min. cbn [PyFloat.lt].
  assert (E1 : PyFloat.Qltb q lo = false).
  { apply Qltb_ge. apply Qlt_le_weak. eapply Qle_lt_trans; eauto. }
  rewrite E1. cbn [PyFloat.lt].
  apply Qltb_lt in Hq. now rewrite Hq.
Qed.

Lemma clamp_below (lo hi q : Q) :
  (lo <= hi)%Q -> (q < lo)%Q ->
  PyFloat.clamp (Fin lo) (Fin hi) (Fin q) = Fin lo.
Proof.
  intros Hlh Hq. unfold PyFloat.clamp, PyFloat.max, PyFloat.min. cbn [PyFloat.lt].
  apply Qltb_lt in Hq. rewrite Hq. cbn [PyFloat.lt].
  apply Qltb_ge in Hlh. now rewrite Hlh.
Qed.

(** The advocates clamp: the stored confidence is a number of [0, 1] unless
    the token read was a NaN, which [min] and [max] let through. *)
Lemma advocate_confidence_clamped (who response : string) :
  confidence (Advocate.build who response) = NaN
  \/ PyFloat.within 0 1 (confidence (Advocate.build who response)).
Proof.
  unfold Advocate.build. destruct (Advocate.parse response) as [c ev].
  cbn [confidence]. destruct c as [q | | |].
  - right. now apply clamp_within.
  - right. now apply clamp_within.
  - right. now apply clamp_within.
  - left. apply clamp_nan.
Qed.

(** So does the arbiter, for the confidence and the two scores. *)
Lemma verdict_numbers_clamped (response : string) (v : Verdict) :
  Judge.parse_verdict response = Some v ->
  (v_confidence v = NaN \/ PyFloat.within 0 1 (v_confidence v))
  /\ (bull_score v = NaN \/ PyFloat.within 0 100 (bull_score v))
  /\ (bear_score v = NaN \/ PyFloat.within 0 100 (bear_score v)).
Proof.
  unfold Judge.parse_verdict.
  destruct (Judge.parse_lines _ _) as [p |]; [| discriminate].
  intros [= <-]. cbn [v_confidence bull_score bear_score].
  repeat split.
  - destruct (Judge.p_confidence p);
      [right | right | right | left; apply clamp_nan]; now apply clamp_within.
  - destruct (Judge.p_bull_score p);
      [right | right | right | left; apply clamp_nan]; now apply clamp_within.
  - destruct (Judge.p_bear_score p);
      [right | right | right | left; apply clamp_nan]; now apply clamp_within.
Qed.

Example advocate_confidence_1_8 :
  confidence (Advocate.build "bull" "ARGUMENT: growth
CONFIDENCE: 1.8") = Fin 1.
Proof. reflexivity. Qed.

Example advocate_confidence_negative :
  confidence (Advocate.build "bear" "CONFIDENCE: -0.3") = Fin 0.
Proof. reflexivity. Qed.

Example advocate_confidence_nan :
  confidence (Advocate.build "bear" "CONFIDENCE: nan") = NaN.
Proof. reflexivity. Qed.

Example verdict_numbers_sample :
  (fun v => (v_confidence v, bull_score v, bear_score v))
    <$> Judge.parse_verdict "CONFIDENCE: 1.8
BULL_SCORE: 140
BEAR_SCORE: -7"
  = Some (Fin 1, Fin 100, Fin 0).
Proof. reflexivity. Qed.

End Clamping.

(** C7, evaluated on the code: the accuracy score of a fact-check is whatever
    number the response line carries; it goes through no [min]/[max].  The
    token 1.8 is stored as 1.8 and the token -0.5 as -0.5. *)
Theorem fact_check_accuracy_is_not_clamped
    (llm : CortexLLM) (state : DebateState) (checked : Argument) :
  accuracy_score (Moderator.fact_check state checked)
  = Moderator.parse_accuracy (complete (FactCheckRequest state checked))
  /\ Moderator.parse_accuracy "ACCURACY_SCORE: 1.8" = Fin (18 # 10)
  /\ ~ PyFloat.within 0 1 (Moderator.parse_accuracy "ACCURACY_SCORE: 1.8")
  /\ Moderator.parse_accuracy "ACCURACY_SCORE: -0.5" = Fin (-5 # 10)
  /\ ~ PyFloat.within 0 1 (Moderator.parse_accuracy "ACCURACY_SCORE: -0.5").
Proof.
  repeat split.
  - intros [_ H]. vm_compute in H. now apply H.
  - intros [H _]. vm_compute in H. now apply H.
Qed.

(** *** The research stage *)

Section ResearchStage.
Context {provider : ResearchProvider}.

Lemma bind_guarded {A B : Type} (fetch : outcome A) (assign : A -> ResearchData)
    (what : string) (research : ResearchData)
    (k : ResearchData -> Researcher.Py B) (out : list string) :
  Researcher.bind (Researcher.guarded fetch assign what research) k out
  = k (match fetch with Returned v => assign v | Raised _ => research end)
      (out ++ complaint what fetch)%list.
Proof.
  unfold Researcher.bind, Researcher.guarded, Researcher.try_except,
    Researcher.lift, Researcher.print, Researcher.ret.
  destruct fetch as [v | e]; cbn [complaint]; [now rewrite app_nil_r | reflexivity].
Qed.

Lemma settle_metrics (fetch : outcome Row) (fallback : SqlVal) t n m e ti s ia ih ar et sf :
  match fetch with
  | Returned v =>
      Researcher.set_metrics v (default fallback (v !! "COMPANY_NAME"))
        (mkResearchData t n m e ti s ia ih ar et sf)
  | Raised _ => mkResearchData t n m e ti s ia ih ar et sf
  end
  = mkResearchData t
      (match fetch with
       | Returned v => default fallback (v !! "COMPANY_NAME")
       | Raised _ => n
       end)
      (value_or fetch m) e ti s ia ih ar et sf.
Proof. now destruct fetch. Qed.

Lemma settle_earnings_history (fetch : outcome (list Row)) t n m e ti s ia ih ar et sf :
  match fetch with
  | Returned v =>
      Researcher.set_earnings_history v (mkResearchData t n m e ti s ia ih ar et sf)
  | Raised _ => mkResearchData t n m e ti s ia ih ar et sf
  end
  = mkResearchData t n m (value_or fetch e) ti s ia ih ar et sf.
Proof. now destruct fetch. Qed.

Lemma settle_technical_indicators (fetch : outcome Row) t n m e ti s ia ih ar et sf :
  match fetch with
  | Returned v =>
      Researcher.set_technical_indicators v (mkResearchData t n m e ti s ia ih ar et sf)
  | Raised _ => mkResearchData t n m e ti s ia ih ar et sf
  end
  = mkResearchData t n m e (value_or fetch ti) s ia ih ar et sf.
Proof. now destruct fetch. Qed.

Lemma settle_sentiment (fetch : outcome Row) t n m e ti s ia ih ar et sf :
  match fetch with
  | Returned v =>
      Researcher.set_sentiment v (mkResearchData t n m e ti s ia ih ar et sf)
  | Raised _ => mkResearchData t n m e ti s ia ih ar et sf
  end
  = mkResearchData t n m e ti (value_or fetch s) ia ih ar et sf.
Proof. now destruct fetch. Qed.

Lemma settle_insider_activity (fetch : outcome (list Row)) t n m e ti s ia ih ar et sf :
  match fetch with
  | Returned v =>
      Researcher.set_insider_activity v (mkResearchData t n m e ti s ia ih ar et sf)
  | Raised _ => mkResearchData t n m e ti s ia ih ar et sf
  end
  = mkResearchData t n m e ti s (value_or fetch ia) ih ar et sf.
Proof. now destruct fetch. Qed.

Lemma settle_institutional_holdings
    (fetch : outcome (list Row)) t n m e ti s ia ih ar et sf :
  match fetch with
  | Returned v =>
      Researcher.set_institutional_holdings v
        (mkResearchData t n m e ti s ia ih ar et sf)
  | Raised _ => mkResearchData t n m e ti s ia ih ar et sf
  end
  = mkResearchData t n m e ti s ia (value_or fetch ih) ar et sf.
Proof. now destruct fetch. Qed.

Lemma settle_analyst_reports (fetch : outcome (list Row)) t n m e ti s ia ih ar et sf :
  match fetch with
  | Returned v =>
      Researcher.set_analyst_reports v (mkResearchData t n m e ti s ia ih ar et sf)
  | Raised _ => mkResearchData t n m e ti s ia ih ar et sf
  end
  = mkResearchData t n m e ti s ia ih (value_or fetch ar) et sf.
Proof. now destruct fetch. Qed.

Lemma settle_earnings_transcripts
    (fetch : outcome (list Row)) t n m e ti s ia ih ar et sf :
  match fetch with
  | Returned v =>
      Researcher.set_earnings_transcripts v (mkResearchData t n m e ti s ia ih ar et sf)
  | Raised _ => mkResearchData t n m e ti s ia ih ar et sf
  end
  = mkResearchData t n m e ti s ia ih ar (value_or fetch et) sf.
Proof. now destruct fetch. Qed.

Lemma settle_sec_filings (fetch : outcome (list Row)) t n m e ti s ia ih ar et sf :
  match fetch with
  | Returned v =>
      Researcher.set_sec_filings v (mkResearchData t n m e ti s ia ih ar et sf)
  | Raised _ => mkResearchData t n m e ti s ia ih ar et sf
  end
  = mkResearchData t n m e ti s ia ih ar et (value_or fetch sf).
Proof. now destruct fetch. Qed.

(** [gather_research] returns, with every category settled independently. *)
Lemma gather_research_returns (name : string) (out : list string) :
  let symbol := PyStr.upper name in
  Researcher.gather_research name out
  = (Returned
       (mkResearchData symbol
          (match get_metrics symbol with
           | Returned v => default (SqlText symbol) (v !! "COMPANY_NAME")
           | Raised _ => SqlText ""
           end)
          (value_or (get_metrics symbol) ∅)
          (value_or (get_earnings_history symbol 4) [])
          (value_or (get_technical_indicators symbol) ∅)
          (value_or (get_sentiment symbol) ∅)
          (value_or (get_insider_activity symbol 5) [])
          (value_or (get_institutional_holdings symbol 5) [])
          (value_or (search_analyst_reports (symbol ++ " outlook growth risks") symbol 5) [])
          (value_or (search_earnings_transcripts (symbol ++ " guidance outlook") symbol 3) [])
          (value_or (search_sec_filings (symbol ++ " material events") symbol 3) [])),
     (out
      ++ complaint "Error getting metrics" (get_metrics symbol)
      ++ complaint "Error getting earnings history" (get_earnings_history symbol 4)
      ++ complaint "Error getting technical indicators" (get_technical_indicators symbol)
      ++ complaint "Error getting sentiment" (get_sentiment symbol)
      ++ complaint "Error getting insider activity" (get_insider_activity symbol 5)
      ++ complaint "Error getting institutional holdings"
           (get_institutional_holdings symbol 5)
      ++ complaint "Error searching analyst reports"
           (search_analyst_reports (symbol ++ " outlook growth risks") symbol 5)
      ++ complaint "Error searching earnings transcripts"
           (search_earnings_transcripts (symbol ++ " guidance outlook") symbol 3)
      ++ complaint "Error searching SEC filings"
           (search_sec_filings (symbol ++ " material events") symbol 3))%list).
Proof.
  intros symbol. unfold Researcher.gather_research, ResearchData_new.
  fold symbol. cbv zeta.
  rewrite bind_guarded; cbv beta; rewrite settle_metrics.
  rewrite bind_guarded; cbv beta; rewrite settle_earnings_history.
  rewrite bind_guarded; cbv beta; rewrite settle_technical_indicators.
  rewrite bind_guarded; cbv beta; rewrite settle_sentiment.
  rewrite bind_guarded; cbv beta; rewrite settle_insider_activity.
  rewrite bind_guarded; cbv beta; rewrite settle_institutional_holdings.
  rewrite bind_guarded; cbv beta; rewrite settle_analyst_reports.
  rewrite bind_guarded; cbv beta; rewrite settle_earnings_transcripts.
  rewrite bind_guarded; cbv beta; rewrite settle_sec_filings.
  unfold Researcher.ret. now rewrite <- !app_assoc.
Qed.

End ResearchStage.

(** C5, as amended: the research stage never raises; each category holds
    what its accessor returned, or its empty default when the accessor raised;
    a failure is printed on the standard output and adds nothing to [errors],
    which the stage leaves as it was; the routing cursor moves to the
    advocate-for. *)
Theorem research_stage_isolates_failures
    (provider : ResearchProvider) (state : DebateState) :
  let symbol := PyStr.upper (ticker state) in
  exists research,
    u_research_data (fst (Researcher.call state)) = Some research
    /\ u_errors (fst (Researcher.call state)) = None
    /\ errors (apply_update state (fst (Researcher.call state))) = errors state
    /\ u_current_speaker (fst (Researcher.call state)) = Some sp_bull
    /\ metrics research = value_or (get_metrics symbol) ∅
    /\ earnings_history research = value_or (get_earnings_history symbol 4) []
    /\ technical_indicators research = value_or (get_technical_indicators symbol) ∅
    /\ sentiment research = value_or (get_sentiment symbol) ∅
    /\ insider_activity research = value_or (get_insider_activity symbol 5) []
    /\ institutional_holdings research
       = value_or (get_institutional_holdings symbol 5) []
    /\ analyst_reports research
       = value_or (search_analyst_reports (symbol ++ " outlook growth risks") symbol 5) []
    /\ earnings_transcripts research
       = value_or (search_earnings_transcripts (symbol ++ " guidance outlook") symbol 3) []
    /\ sec_filings research
       = value_or (search_sec_filings (symbol ++ " material events") symbol 3) []
    /\ snd (Researcher.call state)
       = (complaint "Error getting metrics" (get_metrics symbol)
          ++ complaint "Error getting earnings history" (get_earnings_history symbol 4)
          ++ complaint "Error getting technical indicators"
               (get_technical_indicators symbol)
          ++ complaint "Error getting sentiment" (get_sentiment symbol)
          ++ complaint "Error getting insider activity" (get_insider_activity symbol 5)
          ++ complaint "Error getting institutional holdings"
               (get_institutional_holdings symbol 5)
          ++ complaint "Error searching analyst reports"
               (search_analyst_reports (symbol ++ " outlook growth risks") symbol 5)
          ++ complaint "Error searching earnings transcripts"
               (search_earnings_transcripts (symbol ++ " guidance outlook") symbol 3)
          ++ complaint "Error searching SEC filings"
               (search_sec_filings (symbol ++ " material events") symbol 3))%list.
Proof.
  intros symbol. unfold Researcher.call.
  rewrite gather_research_returns. fold symbol. cbv iota beta.
  eexists. cbn [fst snd u_research_data u_errors u_current_speaker].
  split; [reflexivity |]. repeat split.
Qed.

(** The scenario of the specification: only the earnings-history accessor
    raises.  The other eight categories hold what the provider returned, the
    earnings list is empty, one line is printed and [errors] is unchanged. *)
Lemma earnings_failure_scenario
    (provider : ResearchProvider) (state : DebateState)
    (e : string) m ti s ia ih ar et sf :
  let symbol := PyStr.upper (ticker state) in
  get_earnings_history symbol 4 = Raised e ->
  get_metrics symbol = Returned m ->
  get_technical_indicators symbol = Returned ti ->
  get_sentiment symbol = Returned s ->
  get_insider_activity symbol 5 = Returned ia ->
  get_institutional_holdings symbol 5 = Returned ih ->
  search_analyst_reports (symbol ++ " outlook growth risks") symbol 5 = Returned ar ->
  search_earnings_transcripts (symbol ++ " guidance outlook") symbol 3 = Returned et ->
  search_sec_filings (symbol ++ " material events") symbol 3 = Returned sf ->
  u_research_data (fst (Researcher.call state))
  = Some (mkResearchData symbol (default (SqlText symbol) (m !! "COMPANY_NAME"))
            m [] ti s ia ih ar et sf)
  /\ snd (Researcher.call state) = ["Error getting earnings history: " ++ e]
  /\ errors (apply_update state (fst (Researcher.call state))) = errors state.
Proof.
  intros symbol He Hm Hti Hs Hia Hih Har Het Hsf.
  unfold Researcher.call. rewrite gather_research_returns. fold symbol.
  rewrite He, Hm, Hti, Hs, Hia, Hih, Har, Het, Hsf. repeat split.
Qed.

(** C5 as stated fails on the [errors] entry: with a provider whose
    earnings-history accessor raises, the stage prints the failure, keeps the
    earnings list empty and all other categories populated, and adds no entry
    to [errors]. *)
Lemma earnings_failure_is_not_recorded :
  let state := create_initial_state "xyz" None 3 in
  let output := @Researcher.call earnings_down_provider state in
  (earnings_history <$> u_research_data (fst output)) = Some []
  /\ (metrics <$> u_research_data (fst output)) = Some sample_row
  /\ (sec_filings <$> u_research_data (fst output)) = Some [sample_row]
  /\ snd output = ["Error getting earnings history: connection lost"]
  /\ u_errors (fst output) = None
  /\ length (errors (apply_update state (fst output))) = length (errors state).
Proof.
  cbv zeta. unfold Researcher.call. rewrite gather_research_returns.
  repeat split.
Qed.

(** *** Fact-checks in the session state *)

(** C6, as amended: [fact_checks] is replaced, not extended: after a
    moderator turn it holds exactly the records of that turn, one for each of
    the last two arguments whose speaker is an advocate, in their order (at
    most two); a turn of any other participant leaves it as it was.  The
    history of arguments, by contrast, is extended by what the turn
    returns. *)
Theorem fact_checks_hold_the_last_moderator_turn
    (llm : CortexLLM) (provider : ResearchProvider)
    (node : Node) (state : DebateState) (output : Update) :
  Workflow.node_call node state = Some output ->
  (fact_checks (apply_update state output)
   = (if bool_decide (node = ModeratorNode)
      then map (Moderator.fact_check state)
               (List.filter Moderator.is_advocate (last_two (arguments state)))
      else fact_checks state)
   /\ (node = ModeratorNode ->
       (length (fact_checks (apply_update state output)) <= 2)%nat))
  /\ arguments (apply_update state output)
     = (arguments state ++ default [] (u_arguments output))%list.
Proof.
  intros Hcall. split.
  2: { unfold apply_update, add_arguments. cbn [arguments].
       destruct (u_arguments output); [reflexivity |].
       cbn [default]. now rewrite app_nil_r. }
  assert (Hlast : (length (List.filter Moderator.is_advocate
                             (last_two (arguments state))) <= 2)%nat).
  { etransitivity; [apply List.filter_length_le |].
    unfold last_two. rewrite length_drop. lia. }
  destruct node; simpl in Hcall.
  - injection Hcall as <-. unfold Researcher.call.
    destruct (Researcher.gather_research _ _) as [[r | e] out];
      split; [reflexivity | discriminate | reflexivity | discriminate].
  - injection Hcall as <-. split; [reflexivity | discriminate].
  - injection Hcall as <-. split; [reflexivity | discriminate].
  - injection Hcall as <-. split; [reflexivity |].
    intros _. unfold apply_update, Moderator.call.
    cbn [fact_checks u_fact_checks default]. unfold id. now rewrite length_map.
  - unfold Judge.call in Hcall.
    destruct (Judge.generate_verdict state); [| discriminate].
    injection Hcall as <-. split; [reflexivity | discriminate].
  - discriminate.
Qed.

Lemma moderator_turn_after_counted_bull :
  let state :=
    apply_update (after_research 2) (@BullAgent.call counting_llm (after_research 2)) in
  @Workflow.node_run counting_llm no_faults full_provider ModeratorNode state
  = Some (@Moderator.call counting_llm state).
Proof. vm_compute. reflexivity. Qed.

Lemma fact_checks_hold_the_last_moderator_turn_witness :
  let state :=
    apply_update (after_research 2) (@BullAgent.call counting_llm (after_research 2)) in
  @Workflow.node_run counting_llm no_faults full_provider ModeratorNode state
  = Some (@Moderator.call counting_llm state)
  /\ map accuracy_score
       (fact_checks (apply_update state (@Moderator.call counting_llm state)))
     = [Fin (2 # 10)].
Proof.
  cbv zeta. split; [exact moderator_turn_after_counted_bull |].
  rewrite (proj1 (proj1 (fact_checks_hold_the_last_moderator_turn counting_llm
                           full_provider ModeratorNode _ _ eq_refl))).
  reflexivity.
Defined.

(** C6 as stated fails: in the run for [round_limit = 2], with an oracle
    that answers and a bundle that renders, the record merged by the first
    moderator turn (accuracy 0.2) is in the state after the third event of the
    stream (research, advocate-for, moderator) and is gone after the fifth,
    where the second moderator turn has left only its own record (accuracy
    0.6). *)
Lemma second_moderator_turn_drops_first_fact_check :
  exists third fifth,
    @Workflow.after_events counting_llm no_faults full_provider 3 Research
       (create_initial_state "xyz" None 2) = Some (Bull, third)
    /\ @Workflow.after_events counting_llm no_faults full_provider 5 Research
         (create_initial_state "xyz" None 2) = Some (Bull, fifth)
    /\ map accuracy_score (fact_checks third) = [Fin (2 # 10)]
    /\ map accuracy_score (fact_checks fifth) = [Fin (6 # 10)].
Proof.
  set (start := create_initial_state "xyz" None 2).
  exists (match @Workflow.after_events counting_llm no_faults full_provider 3
                  Research start with
          | Some (_, st) => st
          | None => start
          end),
         (match @Workflow.after_events counting_llm no_faults full_provider 5
                  Research start with
          | Some (_, st) => st
          | None => start
          end).
  vm_compute. repeat split.
Qed.

(** *** The graph, step by step *)

Section GraphFacts.
Context {llm : CortexLLM} {provider : ResearchProvider}.

Lemma run_succ (k : nat) (node : Node) (state : DebateState) :
  Workflow.run (S k) node state
  = match Workflow.graph_step node state with
    | Workflow.Next node' state' => Workflow.run k node' state'
    | stopped => stopped
    end.
Proof. reflexivity. Qed.

Lemma step_research (state : DebateState) :
  Workflow.graph_step Research state
  = Workflow.Next Bull (apply_update state (fst (Researcher.call state))).
Proof. reflexivity. Qed.

Lemma step_bull (state : DebateState) :
  Workflow.graph_step Bull state
  = Workflow.Next ModeratorNode (apply_update state (BullAgent.call state)).
Proof. reflexivity. Qed.

Lemma step_bear (state : DebateState) :
  Workflow.graph_step Bear state
  = Workflow.Next
      (if current_round state >=? max_rounds state then JudgeNode else ModeratorNode)
      (apply_update state (BearAgent.call state)).
Proof.
  unfold Workflow.graph_step, Workflow.node_call, Workflow.next_node,
    Workflow.route_next_speaker, apply_update, BearAgent.call.
  cbn [current_speaker u_current_speaker default from_option id].
  now destruct (current_round state >=? max_rounds state).
Qed.

Lemma step_moderator (state : DebateState) :
  Workflow.graph_step ModeratorNode state
  = Workflow.Next
      (if current_round state >=? max_rounds state then JudgeNode else Bull)
      (apply_update state (Moderator.call state)).
Proof.
  unfold Workflow.graph_step, Workflow.node_call, Workflow.next_node,
    Workflow.route_after_moderator, apply_update, Moderator.call.
  cbn [current_speaker u_current_speaker current_round max_rounds
       u_current_round default from_option id].
  destruct (current_round state >=? max_rounds state) eqn:E; [reflexivity |].
  apply geb_lt in E.
  replace (current_round state >? max_rounds state) with false; [reflexivity |].
  symmetry. rewrite Z.gtb_ltb. apply Z.ltb_ge. lia.
Qed.

Lemma judge_call_returns (state : DebateState) :
  exists v transcript,
    Judge.call state
    = Some (mkUpdate None None (Some sp_end) (Some [transcript]) None (Some v)
                     None None None).
Proof.
  unfold Judge.call, Judge.generate_verdict.
  destruct (parse_verdict_returns (complete (FinalJudgment state))) as (v & -> & _).
  eauto.
Qed.

Lemma step_judge (state : DebateState) :
  exists output,
    Workflow.graph_step JudgeNode state
    = Workflow.Next END (apply_update state output)
    /\ u_current_speaker output = Some sp_end
    /\ is_Some (u_verdict output)
    /\ u_fact_checks output = None
    /\ u_current_round output = None.
Proof.
  destruct (judge_call_returns state) as (v & t & H).
  eexists. unfold Workflow.graph_step, Workflow.node_call. rewrite H.
  cbn [Workflow.next_node]. repeat split. cbn [u_verdict]. eauto.
Qed.

(** What one step does to the cursor and the verdict. *)
Lemma graph_step_cases (node node' : Node) (state state' : DebateState) :
  Workflow.graph_step node state = Workflow.Next node' state' ->
  (node = JudgeNode /\ node' = END
   /\ current_speaker state' = sp_end /\ is_Some (verdict state'))
  \/ (node <> JudgeNode /\ node <> END /\ node' <> END
      /\ current_speaker state' <> sp_end /\ verdict state' = verdict state).
Proof.
  destruct node.
  - rewrite step_research. intros [= <- <-]. right.
    unfold Researcher.call. rewrite gather_research_returns.
    repeat split; discriminate.
  - rewrite step_bull. intros [= <- <-]. right. repeat split; discriminate.
  - rewrite step_bear. intros [= <- <-]. right.
    unfold apply_update, BearAgent.call.
    cbn [current_speaker verdict u_current_speaker u_verdict default from_option id].
    destruct (current_round state >=? max_rounds state); repeat split; discriminate.
  - rewrite step_moderator. intros [= <- <-]. right.
    unfold apply_update, Moderator.call.
    cbn [current_speaker verdict u_current_speaker u_verdict default from_option id].
    destruct (current_round state >=? max_rounds state); repeat split; discriminate.
  - destruct (step_judge state) as (output & -> & Hs & [v Hv] & _).
    intros [= <- <-]. left. unfold apply_update.
    cbn [current_speaker verdict]. rewrite Hs, Hv. repeat split. eauto.
  - discriminate.
Qed.

Lemma graph_step_progress (node : Node) (state : DebateState) :
  node <> END ->
  exists node' state', Workflow.graph_step node state = Workflow.Next node' state'.
Proof.
  intros Hnode. destruct node; [| | | | | congruence].
  - rewrite step_research. eauto.
  - rewrite step_bull. eauto.
  - rewrite step_bear. eauto.
  - rewrite step_moderator. eauto.
  - destruct (step_judge state) as (output & -> & _). eauto.
Qed.

(** The invariant of the run: before the terminal node there is no verdict
    and the cursor is not [end]; at the terminal node both are there. *)
Lemma reachable_invariant (node : Node) (state : DebateState) :
  Workflow.reachable node state ->
  (node = END /\ current_speaker state = sp_end /\ is_Some (verdict state))
  \/ (node <> END /\ current_speaker state <> sp_end /\ verdict state = None).
Proof.
  induction 1 as [t q m | node node' state state' Hreach IH Hstep].
  - right. repeat split; discriminate.
  - destruct (graph_step_cases _ _ _ _ Hstep)
      as [(-> & -> & Hs & Hv) | (Hj & Hn & Hn' & Hs & Hv)].
    + left. auto.
    + right. destruct IH as [(-> & _) | (_ & _ & Hnone)]; [congruence |].
      rewrite Hv. auto.
Qed.

Lemma run_reachable (k : nat) (node node' : Node) (state state' : DebateState) :
  Workflow.reachable node state ->
  Workflow.run k node state = Workflow.Next node' state' ->
  Workflow.reachable node' state'.
Proof.
  revert node state. induction k as [| k IH]; intros node state Hreach Hrun.
  - injection Hrun as <- <-. exact Hreach.
  - rewrite run_succ in Hrun.
    destruct (Workflow.graph_step node state) as [n1 s1 | | |] eqn:Hstep;
      try discriminate.
    eapply IH; [| exact Hrun]. eapply Workflow.reach_step; eauto.
Qed.

(** While the round index is below the limit the run only alternates between
    the advocate-for and the moderator. *)
Lemma bull_moderator_cycle (k : nat) (node : Node) (state : DebateState) :
  node = Bull \/ node = ModeratorNode ->
  current_round state < max_rounds state ->
  exists node' state',
    Workflow.run k node state = Workflow.Next node' state'
    /\ (node' = Bull \/ node' = ModeratorNode)
    /\ current_round state' < max_rounds state'.
Proof.
  revert node state. induction k as [| k IH]; intros node state Hnode Hlt.
  - eauto.
  - rewrite run_succ. destruct Hnode as [-> | ->].
    + rewrite step_bull. apply IH; [now right | exact Hlt].
    + rewrite step_moderator.
      apply geb_lt in Hlt as Hgeb. rewrite Hgeb.
      apply IH; [now left | exact Hlt].
Qed.

Lemma run_cycles_below_limit (k : nat) (name : string) (asked : option string) (limit : Z) :
  1 <= limit ->
  exists node' state',
    Workflow.run (S k) Research (create_initial_state name asked limit)
    = Workflow.Next node' state'
    /\ (node' = Bull \/ node' = ModeratorNode).
Proof.
  intros Hlimit. rewrite run_succ, step_research.
  destruct (bull_moderator_cycle k Bull
              (apply_update (create_initial_state name asked limit)
                 (fst (Researcher.call (create_initial_state name asked limit)))))
    as (n & s & Hrun & Hn & _); [now left | |].
  - unfold Researcher.call. rewrite gather_research_returns. simpl. lia.
  - eauto.
Qed.


End GraphFacts.

(** *** Verdict and terminal state *)



(** *** Termination of the run *)

Example graph_run_without_rounds :
  exists final,
    @Workflow.run silent_llm full_provider 4 Research
       (create_initial_state "xyz" None 0) = Workflow.Next END final
    /\ map agent (arguments final) = ["bull"; "moderator"; "judge"]
    /\ (recommendation <$> verdict final) = Some "HOLD".
Proof.
  set (start := create_initial_state "xyz" None 0).
  exists (match @Workflow.run silent_llm full_provider 4 Research start with
          | Workflow.Next _ st => st
          | _ => start
          end).
  vm_compute. repeat split.
Qed.

(** ** Further properties of the graph *)

Section GraphRuns.
Context {llm : CortexLLM} {provider : ResearchProvider}.

Lemma graph_step_merges (node node' : Node) (state state' : DebateState) :
  Workflow.graph_step node state = Workflow.Next node' state' ->
  exists output,
    Workflow.node_call node state = Some output
    /\ state' = apply_update state output.
Proof.
  unfold Workflow.graph_step. intros Hstep.
  destruct node; try discriminate;
    destruct (Workflow.node_call _ state) as [output |]; try discriminate;
    destruct (Workflow.next_node _ _); try discriminate;
    injection Hstep as <- <-; eauto.
Qed.

Lemma judge_update_shape (state : DebateState) (output : Update) :
  Judge.call state = Some output ->
  exists v,
    Judge.parse_verdict (complete (FinalJudgment state)) = Some v
    /\ output
       = mkUpdate None None (Some sp_end)
           (Some [mkArgument "judge" (verdict_transcript v) [] (v_confidence v)])
           None (Some v) None None None.
Proof.
  unfold Judge.call, Judge.generate_verdict.
  destruct (Judge.parse_verdict _) as [v |]; [| discriminate].
  intros [= <-]. eauto.
Qed.

(** The speaker a node signs its argument with. *)
Lemma node_call_arguments (node : Node) (state : DebateState) (output : Update) :
  Workflow.node_call node state = Some output ->
  match node with
  | Research => arguments (apply_update state output) = arguments state
  | Bull =>
      exists a, arguments (apply_update state output) = (arguments state ++ [a])%list
                /\ agent a = "bull"
  | Bear =>
      exists a, arguments (apply_update state output) = (arguments state ++ [a])%list
                /\ agent a = "bear"
  | ModeratorNode =>
      exists a, arguments (apply_update state output) = (arguments state ++ [a])%list
                /\ agent a = "moderator"
  | JudgeNode =>
      exists a, arguments (apply_update state output) = (arguments state ++ [a])%list
                /\ agent a = "judge"
  | END => False
  end.
Proof.
  destruct node; cbn [Workflow.node_call]; intros Hcall.
  - injection Hcall as <-. unfold Researcher.call.
    now rewrite gather_research_returns.
  - injection Hcall as <-. eexists. split; [reflexivity |].
    unfold BullAgent.generate_argument, Advocate.build.
    now destruct (Advocate.parse _).
  - injection Hcall as <-. eexists. split; [reflexivity |].
    unfold BearAgent.generate_argument, Advocate.build.
    now destruct (Advocate.parse _).
  - injection Hcall as <-. eexists. split; reflexivity.
  - apply judge_update_shape in Hcall as (v & _ & ->).
    eexists. split; reflexivity.
  - discriminate.
Qed.

Lemma graph_step_successor (node node' : Node) (state state' : DebateState) :
  Workflow.graph_step node state = Workflow.Next node' state' ->
  node' <> Research.
Proof.
  destruct node.
  - rewrite step_research. intros [= <- _]. discriminate.
  - rewrite step_bull. intros [= <- _]. discriminate.
  - rewrite step_bear. intros [= <- _].
    destruct (current_round state >=? max_rounds state); discriminate.
  - rewrite step_moderator. intros [= <- _].
    destruct (current_round state >=? max_rounds state); discriminate.
  - destruct (step_judge state) as (output & -> & _). intros [= <- _]. discriminate.
  - discriminate.
Qed.

End GraphRuns.

(** X1: the argument history only grows, by appending: after [k] steps of
    the graph the earlier history is still there, in order, followed by one
    new argument for every step taken by a node other than research (research
    can only be the first node of a run). *)
Theorem arguments_grow_by_appending
    (llm : CortexLLM) (provider : ResearchProvider)
    (k : nat) (node node' : Node) (state state' : DebateState) :
  Workflow.run k node state = Workflow.Next node' state' ->
  exists added,
    arguments state' = (arguments state ++ added)%list
    /\ length added = (k - (if bool_decide (node = Research) then 1 else 0))%nat.
Proof.
  revert node state. induction k as [| k IH]; intros node state Hrun.
  - injection Hrun as <- <-. exists []. split; [now rewrite app_nil_r |].
    now destruct (bool_decide _).
  - rewrite run_succ in Hrun.
    destruct (Workflow.graph_step node state) as [n1 s1 | | |] eqn:Hstep;
      try discriminate.
    pose proof (graph_step_successor _ _ _ _ Hstep) as Hn1.
    destruct (graph_step_merges _ _ _ _ Hstep) as (output & Hcall & ->).
    destruct (IH _ _ Hrun) as (added & Hadded & Hlen).
    rewrite bool_decide_eq_false_2 in Hlen by exact Hn1.
    pose proof (node_call_arguments _ _ _ Hcall) as Hargs.
    destruct node.
    + exists added. rewrite Hadded, Hargs. split; [reflexivity |].
      rewrite bool_decide_eq_true_2 by reflexivity. lia.
    + destruct Hargs as (a & Ha & _). exists (a :: added).
      rewrite Hadded, Ha, <- app_assoc. split; [reflexivity |].
      rewrite bool_decide_eq_false_2 by discriminate. simpl. lia.
    + destruct Hargs as (a & Ha & _). exists (a :: added).
      rewrite Hadded, Ha, <- app_assoc. split; [reflexivity |].
      rewrite bool_decide_eq_false_2 by discriminate. simpl. lia.
    + destruct Hargs as (a & Ha & _). exists (a :: added).
      rewrite Hadded, Ha, <- app_assoc. split; [reflexivity |].
      rewrite bool_decide_eq_false_2 by discriminate. simpl. lia.
    + destruct Hargs as (a & Ha & _). exists (a :: added).
      rewrite Hadded, Ha, <- app_assoc. split; [reflexivity |].
      rewrite bool_decide_eq_false_2 by discriminate. simpl. lia.
    + contradiction.
Qed.

Lemma sample_run_of_three_steps :
  exists state',
    @Workflow.run counting_llm full_provider 3 Bull (after_research 2)
    = Workflow.Next ModeratorNode state'.
Proof.
  set (r := @Workflow.run counting_llm full_provider 3 Bull (after_research 2)).
  exists (match r with Workflow.Next _ st => st | _ => after_research 2 end).
  vm_compute. reflexivity.
Qed.

Lemma arguments_grow_by_appending_witness :
  exists state' added,
    @Workflow.run counting_llm full_provider 3 Bull (after_research 2)
      = Workflow.Next ModeratorNode state'
    /\ arguments state' = (arguments (after_research 2) ++ added)%list
    /\ length added = 3%nat.
Proof.
  destruct sample_run_of_three_steps as [state' Hrun].
  destruct (arguments_grow_by_appending counting_llm full_provider 3 Bull
              ModeratorNode (after_research 2) state' Hrun) as (added & Hadded & Hlen).
  exists state', added. split; [exact Hrun |]. split; [exact Hadded | exact Hlen].
Defined.

Section FullGraph.
Context {llm : CortexLLM} {provider : ResearchProvider}.

Lemma run_keeps_inputs (k : nat) (node node' : Node) (state state' : DebateState) :
  Workflow.run k node state = Workflow.Next node' state' ->
  ticker state' = ticker state
  /\ question state' = question state
  /\ max_rounds state' = max_rounds state.
Proof.
  revert node state. induction k as [| k IH]; intros node state Hrun.
  - now injection Hrun as <- <-.
  - rewrite run_succ in Hrun.
    destruct (Workflow.graph_step node state) as [n1 s1 | | |] eqn:Hstep;
      try discriminate.
    destruct (graph_step_merges _ _ _ _ Hstep) as (output & _ & ->).
    exact (IH _ _ Hrun).
Qed.

Lemma reachable_without_bear (node : Node) (state : DebateState) :
  Workflow.reachable node state ->
  node <> Bear
  /\ current_round state = 0
  /\ Forall (fun a => agent a <> "bear") (arguments state).
Proof.
  induction 1 as [t q m | node node' state state' Hreach IH Hstep].
  - repeat split; [discriminate | constructor].
  - destruct IH as (Hnode & Hround & Hargs).
    destruct (graph_step_merges _ _ _ _ Hstep) as (output & Hcall & Hstate).
    pose proof (node_call_arguments _ _ _ Hcall) as Hnew.
    rewrite <- Hstate in Hnew.
    destruct node; [| | congruence | | |].
    + rewrite step_research in Hstep. injection Hstep as <- <-.
      rewrite Hnew. repeat split; [discriminate | | exact Hargs].
      unfold Researcher.call. now rewrite gather_research_returns.
    + rewrite step_bull in Hstep. injection Hstep as <- <-.
      destruct Hnew as (a & -> & Ha).
      repeat split; [discriminate | exact Hround |].
      apply Forall_app. split; [exact Hargs |].
      constructor; [| constructor]. rewrite Ha. discriminate.
    + rewrite step_moderator in Hstep. injection Hstep as <- <-.
      destruct Hnew as (a & -> & Ha).
      repeat split; [| exact Hround |].
      * destruct (current_round state >=? max_rounds state); discriminate.
      * apply Forall_app. split; [exact Hargs |].
        constructor; [| constructor]. rewrite Ha. discriminate.
    + destruct (step_judge state) as (out & Hj & _ & _ & _ & Hr).
      rewrite Hj in Hstep. injection Hstep as <- Hs'.
      destruct Hnew as (a & -> & Ha).
      repeat split; [discriminate | |].
      * rewrite <- Hs'. unfold apply_update. cbn [current_round].
        now rewrite Hr.
      * apply Forall_app. split; [exact Hargs |].
        constructor; [| constructor]. rewrite Ha. discriminate.
    + discriminate.
Qed.

End FullGraph.

(** X2: in the graph of [create_debate_graph] the advocate-against is never
    scheduled: after any number of steps from the initial state the scheduled
    node is not the bear, no argument in the history is signed by it, the
    round index is still 0, and the ticker and round limit are those the
    session was created with. *)
Theorem bear_is_never_scheduled
    (llm : CortexLLM) (provider : ResearchProvider)
    (k : nat) (name : string) (asked : option string) (limit : Z)
    (node : Node) (state : DebateState) :
  Workflow.run k Research (create_initial_state name asked limit)
    = Workflow.Next node state ->
  node <> Bear
  /\ Forall (fun a => agent a <> "bear") (arguments state)
  /\ current_round state = 0
  /\ max_rounds state = limit
  /\ ticker state = PyStr.upper name.
Proof.
  intros Hrun.
  assert (Hreach : Workflow.reachable node state).
  { eapply run_reachable; [apply Workflow.reach_entry | exact Hrun]. }
  destruct (reachable_without_bear _ _ Hreach) as (Hn & Hr & Ha).
  destruct (run_keeps_inputs _ _ _ _ _ Hrun) as (Ht & _ & Hm).
  repeat split; assumption.
Qed.

Lemma sample_run_of_five_steps :
  exists state,
    @Workflow.run counting_llm full_provider 5 Research
       (create_initial_state "xyz" None 2) = Workflow.Next Bull state.
Proof.
  set (r := @Workflow.run counting_llm full_provider 5 Research
              (create_initial_state "xyz" None 2)).
  exists (match r with
          | Workflow.Next _ st => st
          | _ => create_initial_state "xyz" None 2
          end).
  vm_compute. reflexivity.
Qed.

Lemma bear_is_never_scheduled_witness :
  exists state,
    @Workflow.run counting_llm full_provider 5 Research
       (create_initial_state "xyz" None 2) = Workflow.Next Bull state
    /\ Forall (fun a => agent a <> "bear") (arguments state)
    /\ current_round state = 0.
Proof.
  destruct sample_run_of_five_steps as [state Hrun].
  destruct (bear_is_never_scheduled counting_llm full_provider 5 "xyz" None 2
              Bull state Hrun) as (_ & Ha & Hr & _).
  exists state. split; [exact Hrun |]. split; [exact Ha | exact Hr].
Defined.

Section CompletedRuns.
Context {llm : CortexLLM} {provider : ResearchProvider}.

Lemma research_leaves_debate_fields (state : DebateState) :
  let state' := apply_update state (fst (Researcher.call state)) in
  arguments state' = arguments state
  /\ fact_checks state' = fact_checks state
  /\ current_round state' = current_round state
  /\ verdict state' = verdict state
  /\ current_speaker state' = sp_bull
  /\ is_Some (research_data state').
Proof.
  cbv zeta. unfold Researcher.call. rewrite gather_research_returns.
  repeat split. cbn. eauto.
Qed.

Lemma arguments_apply_update (state : DebateState) (u : Update) :
  arguments (apply_update state u)
  = match u_arguments u with
    | Some value => (arguments state ++ value)%list
    | None => arguments state
    end.
Proof. reflexivity. Qed.

Lemma fact_checks_apply_update (state : DebateState) (u : Update) :
  fact_checks (apply_update state u)
  = match u_fact_checks u with
    | Some value => value
    | None => fact_checks state
    end.
Proof. now destruct u as [? ? ? ? [f |] ? ? ? ?]. Qed.

Lemma current_round_apply_update (state : DebateState) (u : Update) :
  current_round (apply_update state u)
  = match u_current_round u with
    | Some value => value
    | None => current_round state
    end.
Proof. now destruct u as [? [r |] ? ? ? ? ? ? ?]. Qed.

Lemma advocate_build_agent (who response : string) :
  agent (Advocate.build who response) = who.
Proof. unfold Advocate.build. now destruct (Advocate.parse response). Qed.

End CompletedRuns.

(** With a round limit of zero or less, four steps whose turns return lead
    to the terminal node. *)
Lemma four_steps_without_rounds
    (llm : CortexLLM) (provider : ResearchProvider)
    (name : string) (asked : option string) (limit : Z) :
  limit <= 0 ->
  exists final,
    Workflow.run 4 Research (create_initial_state name asked limit)
    = Workflow.Next END final
    /\ map agent (arguments final) = ["bull"; "moderator"; "judge"]
    /\ map agent_checked (fact_checks final) = ["bull"]
    /\ is_Some (verdict final)
    /\ current_speaker final = sp_end
    /\ current_round final = 0.
Proof.
  intros Hlimit.
  set (s0 := create_initial_state name asked limit).
  destruct (research_leaves_debate_fields s0) as (Ha1 & Hf1 & Hr1 & Hv1 & _).
  set (s1 := apply_update s0 (fst (Researcher.call s0))) in *.
  set (s2 := apply_update s1 (BullAgent.call s1)).
  set (s3 := apply_update s2 (Moderator.call s2)).
  assert (Hargs2 : arguments s2 = [BullAgent.generate_argument s1
                                     (Advocate.last_content_of "bear" (arguments s1))]).
  { unfold s2, apply_update, BullAgent.call. cbn [arguments u_arguments].
    unfold add_arguments. now rewrite Ha1. }
  assert (Hgeb : (current_round s2 >=? max_rounds s2) = true).
  { apply geb_ge. change (current_round s1 >= limit). rewrite Hr1.
    change (0 >= limit). lia. }
  rewrite run_succ, step_research. fold s0 s1.
  rewrite run_succ, step_bull. fold s2.
  rewrite run_succ, step_moderator. fold s3. rewrite Hgeb.
  rewrite run_succ.
  destruct (graph_step_progress JudgeNode s3 ltac:(discriminate))
    as (n4 & s4 & Hstep).
  destruct (graph_step_cases _ _ _ _ Hstep) as [(_ & -> & Hs4 & Hv4) | (Hj & _)];
    [| congruence].
  destruct (graph_step_merges _ _ _ _ Hstep) as (output & Hcall & ->).
  apply judge_update_shape in Hcall as (v & _ & ->).
  rewrite Hstep. exists (apply_update s3
    (mkUpdate None None (Some sp_end)
       (Some [mkArgument "judge" (verdict_transcript v) [] (v_confidence v)])
       None (Some v) None None None)).
  split; [reflexivity |]. split; [| split; [| split; [| split]]].
  - rewrite arguments_apply_update. cbn [u_arguments].
    unfold s3. rewrite arguments_apply_update. unfold Moderator.call.
    cbn [u_arguments]. rewrite Hargs2. cbn [map app agent].
    unfold BullAgent.generate_argument. now rewrite advocate_build_agent.
  - rewrite fact_checks_apply_update. cbn [u_fact_checks].
    unfold s3. rewrite fact_checks_apply_update. unfold Moderator.call.
    cbn [u_fact_checks]. rewrite Hargs2.
    unfold last_two. cbn [length Nat.sub drop List.filter].
    unfold Moderator.is_advocate, BullAgent.generate_argument.
    rewrite advocate_build_agent.
    change (("bull" =? "bull")%string || ("bull" =? "bear")%string) with true.
    cbn [map]. unfold Moderator.fact_check. cbn [agent_checked].
    now rewrite advocate_build_agent.
  - exact Hv4.
  - exact Hs4.
  - rewrite current_round_apply_update. cbn [u_current_round].
    change (current_round s1 = 0). rewrite Hr1. reflexivity.
Qed.

(** ** The graph as the library runs it *)

Section LibraryRuns.
Context {llm : CortexLLM} {faults : OracleFaults} {provider : ResearchProvider}.

(** A turn that returns in [node_run] returns the update of [node_call]. *)
Lemma node_run_is_node_call (node : Node) (state : DebateState) (output : Update) :
  Workflow.node_run node state = Some output ->
  Workflow.node_call node state = Some output.
Proof.
  unfold Workflow.node_run.
  destruct node; cbv beta iota; try destruct (Workflow.turn_returns _ state);
    first [discriminate | trivial].
Qed.

(** [prompts] lists the prompts whose answers the update of a turn is made
    of. *)
Lemma prompts_are_those_sent (state : DebateState) :
  (exists prompt,
     Workflow.prompts Bull state = [prompt]
     /\ u_arguments (BullAgent.call state)
        = Some [Advocate.build "bull" (complete prompt)])
  /\ (exists prompt,
        Workflow.prompts Bear state = [prompt]
        /\ u_arguments (BearAgent.call state)
           = Some [Advocate.build "bear" (complete prompt)])
  /\ (exists summary checks,
        Workflow.prompts ModeratorNode state = summary :: checks
        /\ (map content <$> u_arguments (Moderator.call state))
           = Some [complete summary]
        /\ (map feedback <$> u_fact_checks (Moderator.call state))
           = Some (map complete checks))
  /\ Workflow.prompts JudgeNode state = [FinalJudgment state]
  /\ Judge.generate_verdict state
     = Judge.parse_verdict (complete (FinalJudgment state)).
Proof.
  split; [eexists; split; reflexivity |].
  split; [eexists; split; reflexivity |].
  split; [| split; reflexivity].
  eexists _, _. split; [reflexivity |]. split; [reflexivity |].
  cbn [Moderator.call u_fact_checks fmap option_fmap option_map].
  f_equal. rewrite !map_map. reflexivity.
Qed.

Lemma turn_returns_without_faults (node : Node) (state : DebateState) :
  (forall prompt, oracle_raises prompt = false) ->
  Workflow.turn_returns node state = BaseAgent.renders (research_data state).
Proof.
  intros Hanswers. unfold Workflow.turn_returns.
  replace (forallb _ (Workflow.prompts node state)) with true;
    [apply andb_true_r |].
  symmetry. induction (Workflow.prompts node state) as [| prompt rest IH];
    [reflexivity |].
  cbn [forallb]. now rewrite Hanswers, IH.
Qed.

Lemma node_run_returns (node : Node) (state : DebateState) :
  (forall prompt, oracle_raises prompt = false) ->
  BaseAgent.renders (research_data state) = true ->
  Workflow.node_run node state = Workflow.node_call node state.
Proof.
  intros Hanswers Hrenders. unfold Workflow.node_run.
  rewrite turn_returns_without_faults, Hrenders by exact Hanswers.
  now destruct node.
Qed.

Lemma node_run_unrendered (node : Node) (state : DebateState) :
  node <> Research ->
  BaseAgent.renders (research_data state) = false ->
  Workflow.node_run node state = None.
Proof.
  intros Hnode Hrenders. unfold Workflow.node_run, Workflow.turn_returns.
  rewrite Hrenders. now destruct node.
Qed.

Lemma research_data_kept (node : Node) (state : DebateState) (output : Update) :
  node <> Research ->
  Workflow.node_call node state = Some output ->
  research_data (apply_update state output) = research_data state.
Proof.
  intros Hnode Hcall. destruct node; cbn [Workflow.node_call] in Hcall;
    try congruence.
  - now injection Hcall as <-.
  - now injection Hcall as <-.
  - now injection Hcall as <-.
  - apply judge_update_shape in Hcall as (v & _ & ->). reflexivity.
Qed.

Lemma graph_step_next (node node' : Node) (state state' : DebateState)
    (output : Update) :
  Workflow.graph_step node state = Workflow.Next node' state' ->
  Workflow.node_call node state = Some output ->
  state' = apply_update state output
  /\ Workflow.next_node node (apply_update state output) = Some node'.
Proof.
  unfold Workflow.graph_step. intros Hstep Hcall. rewrite Hcall in Hstep.
  destruct node; try discriminate;
    destruct (Workflow.next_node _ _); try discriminate;
    injection Hstep as <- <-; auto.
Qed.

Lemma stream_succ (limit : nat) (node : Node) (state : DebateState) :
  node <> END ->
  Workflow.stream (S limit) node state
  = match Workflow.node_run node state with
    | Some output =>
        match Workflow.next_node node (apply_update state output) with
        | Some node' => Workflow.stream limit node' (apply_update state output)
        | None => Workflow.RoutingError node (apply_update state output)
        end
    | None => Workflow.NodeException node state
    end.
Proof. intros Hnode. now destruct node. Qed.

Lemma stream_at_end (limit : nat) (state : DebateState) :
  Workflow.stream limit END state = Workflow.Completed state.
Proof. now destruct limit. Qed.

Lemma stream_research (limit : nat) (state : DebateState) :
  Workflow.stream (S limit) Research state
  = Workflow.stream limit Bull (apply_update state (fst (Researcher.call state))).
Proof. reflexivity. Qed.

(** Every run of the library is a run of the graph: it ends where the run of
    the graph stands after as many steps. *)
Lemma stream_run (limit : nat) (node : Node) (state : DebateState) :
  match Workflow.stream limit node state with
  | Workflow.Completed final_state =>
      exists k, (k <= limit)%nat
                /\ Workflow.run k node state = Workflow.Next END final_state
  | Workflow.GraphRecursionError node' state' =>
      Workflow.run limit node state = Workflow.Next node' state' /\ node' <> END
  | Workflow.NodeException node' state' =>
      exists k, (k < limit)%nat
                /\ Workflow.run k node state = Workflow.Next node' state'
                /\ node' <> END
                /\ Workflow.node_run node' state' = None
  | Workflow.RoutingError _ _ => False
  end.
Proof.
  revert node state. induction limit as [| limit IH]; intros node state.
  - destruct node; cbn [Workflow.stream]; try (split; [reflexivity | discriminate]).
    exists 0%nat. split; [lia | reflexivity].
  - destruct (decide (node = END)) as [-> | Hnode].
    { rewrite stream_at_end. exists 0%nat. split; [lia | reflexivity]. }
    rewrite stream_succ by exact Hnode.
    destruct (Workflow.node_run node state) as [output |] eqn:Hrun.
    2: { exists 0%nat. split; [lia |]. split; [reflexivity |]. now split. }
    apply node_run_is_node_call in Hrun as Hcall.
    destruct (graph_step_progress node state Hnode) as (node' & state' & Hstep).
    destruct (graph_step_next _ _ _ _ _ Hstep Hcall) as (-> & ->).
    specialize (IH node' (apply_update state output)).
    destruct (Workflow.stream limit node' (apply_update state output))
      as [final | n s | n s | n s].
    + destruct IH as (k & Hk & Hfinal). exists (S k). split; [lia |].
      now rewrite run_succ, Hstep.
    + destruct IH as (k & Hk & Hthere & Hn & Hnone). exists (S k).
      split; [lia |]. split; [now rewrite run_succ, Hstep | now split].
    + exact IH.
    + destruct IH as (Hthere & Hn). split; [| exact Hn].
      now rewrite run_succ, Hstep.
Qed.

(** When the oracle answers and the bundle renders, the library follows the
    graph step by step. *)
Lemma stream_follows_run (k limit : nat) (node node' : Node)
    (state state' : DebateState) :
  (forall prompt, oracle_raises prompt = false) ->
  node <> Research ->
  BaseAgent.renders (research_data state) = true ->
  Workflow.run k node state = Workflow.Next node' state' ->
  Workflow.stream (k + limit) node state = Workflow.stream limit node' state'.
Proof.
  intros Hanswers. revert node state.
  induction k as [| k IH]; intros node state Hnode Hrenders Hrun.
  - now injection Hrun as <- <-.
  - rewrite run_succ in Hrun.
    destruct (Workflow.graph_step node state) as [n1 s1 | | |] eqn:Hstep;
      try discriminate.
    assert (Hend : node <> END) by (intros ->; discriminate).
    destruct (graph_step_merges _ _ _ _ Hstep) as (output & Hcall & Hs1).
    destruct (graph_step_next _ _ _ _ _ Hstep Hcall) as (_ & Hnext).
    cbn [Nat.add]. rewrite stream_succ by exact Hend.
    rewrite node_run_returns, Hcall, Hnext by assumption.
    rewrite <- Hs1. apply IH; [| | exact Hrun].
    + exact (graph_step_successor _ _ _ _ Hstep).
    + rewrite Hs1, (research_data_kept _ _ _ Hnode Hcall). exact Hrenders.
Qed.

(** From the initial state, the run of the graph is at the advocate-for or at
    the moderator after every positive number of steps when the round limit
    is at least one, without a verdict, at round index 0. *)
Lemma run_below_limit_state (k : nat) (name : string) (asked : option string)
    (limit : Z) (node : Node) (state : DebateState) :
  1 <= limit ->
  Workflow.run k Research (create_initial_state name asked limit)
  = Workflow.Next node state ->
  (node = Research \/ node = Bull \/ node = ModeratorNode)
  /\ verdict state = None
  /\ current_round state = 0.
Proof.
  intros Hlimit Hrun.
  assert (Hreach : Workflow.reachable node state).
  { eapply run_reachable; [apply Workflow.reach_entry | exact Hrun]. }
  destruct (reachable_without_bear _ _ Hreach) as (_ & Hround & _).
  assert (Hnode : node = Research \/ node = Bull \/ node = ModeratorNode).
  { destruct k as [| k].
    - injection Hrun as <- _. now left.
    - destruct (run_cycles_below_limit k name asked limit Hlimit)
        as (n & s & Hthere & Hn).
      rewrite Hthere in Hrun. injection Hrun as <- _. now right. }
  split; [exact Hnode |]. split; [| exact Hround].
  destruct (reachable_invariant _ _ Hreach) as [(-> & _) | (_ & _ & Hv)];
    [| exact Hv].
  destruct Hnode as [? | [? | ?]]; discriminate.
Qed.

End LibraryRuns.

(** *** Termination of the run *)


Lemma sample_bundle_renders (state : DebateState) :
  BaseAgent.renders
    (research_data
       (apply_update state (fst (@Researcher.call full_provider state))))
  = true.
Proof.
  unfold Researcher.call. rewrite gather_research_returns.
  vm_compute. reflexivity.
Qed.



(** X3: with a round limit of one or more the graph of
    [create_debate_graph] never completes, whatever the oracle and the
    provider do and whatever the recursion limit of the library is: the run
    ends by the exception of a node or by the library's recursion error, at a
    node that is neither the arbiter nor the advocate-against, with no verdict
    and the round index still 0. *)
Theorem full_graph_does_not_terminate
    (llm : CortexLLM) (faults : OracleFaults) (provider : ResearchProvider)
    (name : string) (asked : option string) (max_rounds : Z)
    (recursion_limit : nat) :
  1 <= max_rounds ->
  exists node state,
    (Workflow.stream recursion_limit Research
       (create_initial_state name asked max_rounds)
     = Workflow.GraphRecursionError node state
     \/ Workflow.stream recursion_limit Research
          (create_initial_state name asked max_rounds)
        = Workflow.NodeException node state)
    /\ node <> JudgeNode
    /\ node <> Bear
    /\ verdict state = None
    /\ current_round state = 0.
Proof.
  intros Hlimit.
  pose proof (stream_run recursion_limit Research
                (create_initial_state name asked max_rounds)) as Hrun.
  destruct (Workflow.stream recursion_limit Research
              (create_initial_state name asked max_rounds))
    as [final | node state | node state | node state].
  - destruct Hrun as (k & _ & Hthere).
    destruct (run_below_limit_state _ _ _ _ _ _ Hlimit Hthere)
      as ([? | [? | ?]] & _); discriminate.
  - destruct Hrun as (k & _ & Hthere & _).
    destruct (run_below_limit_state _ _ _ _ _ _ Hlimit Hthere)
      as (Hnode & Hverdict & Hround).
    exists node, state. split; [now right |].
    repeat split; try assumption;
      destruct Hnode as [-> | [-> | ->]]; discriminate.
  - contradiction.
  - destruct Hrun as (Hthere & _).
    destruct (run_below_limit_state _ _ _ _ _ _ Hlimit Hthere)
      as (Hnode & Hverdict & Hround).
    exists node, state. split; [now left |].
    repeat split; try assumption;
      destruct Hnode as [-> | [-> | ->]]; discriminate.
Qed.

Lemma full_graph_does_not_terminate_witness :
  exists node state,
    (@Workflow.stream silent_llm no_faults full_provider 40 Research
       (create_initial_state "xyz" None 3)
     = Workflow.GraphRecursionError node state
     \/ @Workflow.stream silent_llm no_faults full_provider 40 Research
          (create_initial_state "xyz" None 3)
        = Workflow.NodeException node state)
    /\ verdict state = None.
Proof.
  destruct (full_graph_does_not_terminate silent_llm no_faults full_provider
              "xyz" None 3 40 ltac:(lia)) as (node & state & Hends & _ & _ & Hv & _).
  exists node, state. split; [exact Hends | exact Hv].
Defined.

(** X4: with a round limit of zero or less, [run_debate] completes when the
    oracle answers and the bundle of the research stage renders: the history
    is one advocate-for argument, the moderator's summary and the arbiter's
    transcript, the one fact-check is about the advocate-for, the round index
    is 0 and the verdict is set.  When the bundle does not render, the run
    ends with the exception of the advocate-for, which has not spoken. *)
Theorem run_without_rounds_final_state
    (llm : CortexLLM) (faults : OracleFaults) (provider : ResearchProvider)
    (name : string) (asked : option string) (max_rounds : Z) :
  let initial := create_initial_state name asked max_rounds in
  let researched := apply_update initial (fst (Researcher.call initial)) in
  max_rounds <= 0 ->
  ((forall prompt, oracle_raises prompt = false) ->
   BaseAgent.renders (research_data researched) = true ->
   exists final_state,
     Workflow.run_debate name asked max_rounds = Workflow.Completed final_state
     /\ map agent (arguments final_state) = ["bull"; "moderator"; "judge"]
     /\ map agent_checked (fact_checks final_state) = ["bull"]
     /\ is_Some (verdict final_state)
     /\ current_speaker final_state = sp_end
     /\ current_round final_state = 0)
  /\ (BaseAgent.renders (research_data researched) = false ->
      Workflow.run_debate name asked max_rounds
      = Workflow.NodeException Bull researched
      /\ arguments researched = []).
Proof.
  intros initial researched Hlimit. split.
  - intros Hanswers Hrenders.
    destruct (four_steps_without_rounds llm provider name asked max_rounds Hlimit)
      as (final & Hrun & Hfinal).
    exists final. split; [| exact Hfinal].
    unfold Workflow.run_debate, Workflow.default_recursion_limit.
    fold initial. rewrite stream_research. fold researched.
    rewrite run_succ, step_research in Hrun. fold initial researched in Hrun.
    change 24%nat with (3 + 21)%nat.
    rewrite (stream_follows_run 3 21 Bull END _ final Hanswers
               ltac:(discriminate) Hrenders Hrun).
    apply stream_at_end.
  - intros Hrenders. split.
    + unfold Workflow.run_debate, Workflow.default_recursion_limit.
      fold initial. rewrite stream_research. fold researched.
      rewrite stream_succ by discriminate.
      now rewrite node_run_unrendered.
    + destruct (research_leaves_debate_fields initial) as (Hargs & _).
      unfold researched. now rewrite Hargs.
Qed.

Lemma run_without_rounds_final_state_witness :
  exists final_state,
    @Workflow.run_debate counting_llm no_faults full_provider "xyz" None 0
    = Workflow.Completed final_state
    /\ map agent (arguments final_state) = ["bull"; "moderator"; "judge"]
    /\ map agent_checked (fact_checks final_state) = ["bull"].
Proof.
  destruct (proj1 (run_without_rounds_final_state counting_llm no_faults
                     full_provider "xyz" None 0 ltac:(lia))
              (fun _ => eq_refl) (sample_bundle_renders _))
    as (final & Hrun & Ha & Hf & _).
  exists final. split; [exact Hrun |]. split; [exact Ha | exact Hf].
Defined.

Section SimpleChain.
Context {llm : CortexLLM} {faults : OracleFaults} {provider : ResearchProvider}.

(** The chain when every turn returns: the five updates merged in order. *)
Lemma simple_chain_when_turns_return (state : DebateState) :
  (forall prompt, oracle_raises prompt = false) ->
  let s1 := apply_update state (fst (Researcher.call state)) in
  let s2 := apply_update s1 (BullAgent.call s1) in
  let s3 := apply_update s2 (BearAgent.call s2) in
  let s4 := apply_update s3 (BullAgent.call s3) in
  let s5 := apply_update s4 (BearAgent.call s4) in
  BaseAgent.renders (research_data s1) = true ->
  SimpleWorkflow.run_nodes SimpleWorkflow.chain state
  = match Judge.call s5 with
    | Some output => Some (apply_update s5 output)
    | None => None
    end.
Proof.
  intros Hanswers s1 s2 s3 s4 s5 Hrenders.
  unfold SimpleWorkflow.chain. cbn [SimpleWorkflow.run_nodes].
  change (Workflow.node_run Research state)
    with (Some (fst (Researcher.call state))).
  cbv beta iota. fold s1.
  rewrite (node_run_returns Bull s1) by assumption.
  cbn [Workflow.node_call]. fold s2.
  rewrite (node_run_returns Bear s2) by assumption.
  cbn [Workflow.node_call]. fold s3.
  rewrite (node_run_returns Bull s3) by assumption.
  cbn [Workflow.node_call]. fold s4.
  rewrite (node_run_returns Bear s4) by assumption.
  cbn [Workflow.node_call]. fold s5.
  rewrite (node_run_returns JudgeNode s5) by assumption.
  cbn [Workflow.node_call]. reflexivity.
Qed.

End SimpleChain.

(** X5: the chain of [create_simple_debate_graph] runs to its end when the
    oracle answers and the bundle of the research stage renders, whatever the
    round limit is: its final state has the five arguments of advocate-for,
    advocate-against, advocate-for, advocate-against and arbiter in this
    order, a round index of 2, no fact-check, the evidence bundle and the
    verdict.  When the bundle does not render, the chain raises at its second
    node. *)
Theorem simple_chain_final_state
    (llm : CortexLLM) (faults : OracleFaults) (provider : ResearchProvider)
    (name : string) (asked : option string) (limit : Z) :
  let initial := create_initial_state name asked limit in
  let researched := apply_update initial (fst (Researcher.call initial)) in
  ((forall prompt, oracle_raises prompt = false) ->
   BaseAgent.renders (research_data researched) = true ->
   exists final,
     SimpleWorkflow.run_nodes SimpleWorkflow.chain initial = Some final
     /\ map agent (arguments final) = ["bull"; "bear"; "bull"; "bear"; "judge"]
     /\ current_round final = 2
     /\ fact_checks final = []
     /\ is_Some (verdict final)
     /\ current_speaker final = sp_end
     /\ is_Some (research_data final)
     /\ max_rounds final = limit)
  /\ (BaseAgent.renders (research_data researched) = false ->
      SimpleWorkflow.run_nodes [Research; Bull] initial = None
      /\ SimpleWorkflow.run_nodes SimpleWorkflow.chain initial = None).
Proof.
  intros initial researched. split.
  2: { intros Hrenders. unfold SimpleWorkflow.chain.
       cbn [SimpleWorkflow.run_nodes].
       change (Workflow.node_run Research initial)
         with (Some (fst (Researcher.call initial))).
       cbv beta iota. fold researched.
       now rewrite (node_run_unrendered Bull researched) by
         (discriminate || assumption). }
  intros Hanswers Hrenders.
  rewrite (simple_chain_when_turns_return initial Hanswers Hrenders).
  set (s0 := initial).
  destruct (research_leaves_debate_fields s0) as (Ha1 & Hf1 & Hr1 & _ & _ & Hd1).
  fold initial.
  set (s1 := apply_update s0 (fst (Researcher.call s0))) in *.
  set (s2 := apply_update s1 (BullAgent.call s1)).
  set (s3 := apply_update s2 (BearAgent.call s2)).
  set (s4 := apply_update s3 (BullAgent.call s3)).
  set (s5 := apply_update s4 (BearAgent.call s4)).
  destruct (Judge.call s5) as [output |] eqn:Hcall.
  2: { destruct (judge_call_returns s5) as (v & t & H). congruence. }
  apply judge_update_shape in Hcall as (v & _ & ->).
  eexists. split; [reflexivity |].
  split; [| split; [| split; [| split; [| split; [| split]]]]].
  - rewrite arguments_apply_update. cbn [u_arguments].
    unfold s5. rewrite arguments_apply_update.
    unfold s4. rewrite arguments_apply_update.
    unfold s3. rewrite arguments_apply_update.
    unfold s2. rewrite arguments_apply_update.
    unfold BullAgent.call, BearAgent.call. cbn [u_arguments].
    rewrite Ha1. cbn [arguments s0 initial create_initial_state app].
    cbn [map agent].
    unfold BullAgent.generate_argument, BearAgent.generate_argument.
    now rewrite !advocate_build_agent.
  - rewrite current_round_apply_update. cbn [u_current_round].
    unfold s5. rewrite current_round_apply_update.
    unfold BearAgent.call at 1. cbn [u_current_round].
    unfold s4. rewrite current_round_apply_update.
    unfold BullAgent.call at 1. cbn [u_current_round].
    unfold s3. rewrite current_round_apply_update.
    unfold BearAgent.call at 1. cbn [u_current_round].
    unfold s2. rewrite current_round_apply_update.
    unfold BullAgent.call at 1. cbn [u_current_round].
    rewrite Hr1. reflexivity.
  - rewrite fact_checks_apply_update. cbn [u_fact_checks].
    unfold s5. rewrite fact_checks_apply_update.
    unfold s4. rewrite fact_checks_apply_update.
    unfold s3. rewrite fact_checks_apply_update.
    unfold s2. rewrite fact_checks_apply_update.
    unfold BullAgent.call, BearAgent.call. cbn [u_fact_checks].
    rewrite Hf1. reflexivity.
  - cbn. eauto.
  - reflexivity.
  - destruct Hd1 as [r Hr].
    change (is_Some (research_data s1)). rewrite Hr. eauto.
  - reflexivity.
Qed.

Lemma failed_insider_bundle_does_not_render :
  BaseAgent.renders
    (research_data
       (apply_update (create_initial_state "xyz" None 3)
          (fst (@Researcher.call (snowflake_provider insider_down_session [] [])
                  (create_initial_state "xyz" None 3)))))
  = false.
Proof. vm_compute. reflexivity. Qed.

Lemma simple_chain_final_state_witness :
  (exists final,
     @SimpleWorkflow.run_nodes silent_llm no_faults full_provider
        SimpleWorkflow.chain (create_initial_state "xyz" None 3) = Some final
     /\ map agent (arguments final) = ["bull"; "bear"; "bull"; "bear"; "judge"]
     /\ current_round final = 2)
  /\ @SimpleWorkflow.run_nodes silent_llm no_faults
       (snowflake_provider insider_down_session [] [])
       SimpleWorkflow.chain (create_initial_state "xyz" None 3) = None.
Proof.
  split.
  - destruct (proj1 (simple_chain_final_state silent_llm no_faults full_provider
                       "xyz" None 3)
                (fun _ => eq_refl) (sample_bundle_renders _))
      as (final & Hrun & Hagents & Hround & _).
    exists final. split; [exact Hrun |]. split; [exact Hagents | exact Hround].
  - exact (proj2 (proj2 (simple_chain_final_state silent_llm no_faults
                           (snowflake_provider insider_down_session [] [])
                           "xyz" None 3)
                    failed_insider_bundle_does_not_render)).
Defined.

(** ** Further properties of the parsers *)

Section ParserReadings.

Lemma Forall_false_of_forallb {A : Type} (f : A -> bool) (l : list A) :
  forallb (fun x => negb (f x)) l = true -> Forall (fun x => f x = false) l.
Proof.
  induction l as [| x l IH]; [constructor |].
  cbn [forallb]. intros H. apply andb_true_iff in H as [Hx Hl].
  constructor; [now apply negb_true_iff | auto].
Qed.

Lemma default_last_cons {A : Type} (a x : A) (xs : list A) :
  default a (last (x :: xs)) = default x (last xs).
Proof.
  revert a x. induction xs as [| y ys IH]; intros a x; [reflexivity |].
  change (last (x :: y :: ys)) with (last (y :: ys)).
  now rewrite (IH a y), (IH x y).
Qed.

Lemma labels_exclusive (line : string) :
  PyStr.startswith "CONFIDENCE:" line = true ->
  PyStr.startswith "EVIDENCE:" line = false.
Proof.
  unfold PyStr.startswith. destruct line as [| c line]; [discriminate |].
  cbn [String.prefix].
  destruct (ascii_dec "C" c) as [<- | _]; [reflexivity | discriminate].
Qed.

Lemma omap_cons {A B : Type} (f : A -> option B) (x : A) (xs : list A) :
  omap f (x :: xs)
  = match f x with
    | Some y => y :: omap f xs
    | None => omap f xs
    end.
Proof. reflexivity. Qed.

Lemma advocate_parse_line_reading (c : PyFloat) (ev : list string) (line : string) :
  Advocate.parse_line (c, ev) line
  = (default c (advocate_confidence_of_line line),
     if PyStr.startswith "EVIDENCE:" line
     then (ev ++ [advocate_evidence_of_line line])%list
     else ev).
Proof.
  unfold Advocate.parse_line, advocate_confidence_of_line.
  destruct (PyStr.startswith "CONFIDENCE:" line) eqn:Hc.
  - rewrite (labels_exclusive _ Hc). now destruct (float_of_first _).
  - now destruct (PyStr.startswith "EVIDENCE:" line).
Qed.

Lemma advocate_fold (lines : list string) (c : PyFloat) (ev : list string) :
  fold_left Advocate.parse_line lines (c, ev)
  = (default c (last (omap advocate_confidence_of_line lines)),
     (ev ++ map advocate_evidence_of_line
              (List.filter (PyStr.startswith "EVIDENCE:") lines))%list).
Proof.
  revert c ev. induction lines as [| line rest IH]; intros c ev.
  - cbn. now rewrite app_nil_r.
  - cbn [fold_left List.filter]. rewrite advocate_parse_line_reading, IH, omap_cons.
    destruct (advocate_confidence_of_line line) as [x |];
      destruct (PyStr.startswith "EVIDENCE:" line);
      cbn [default from_option id map]; rewrite ?default_last_cons, <- ?app_assoc;
      reflexivity.
Qed.

End ParserReadings.

(** X6: an advocate parses an answer of ASCII characters as follows: the
    content is the answer itself, unchanged; the evidence has one entry for
    each line that starts with [EVIDENCE:], in order, the label removed and
    the rest trimmed; the confidence is that of the last line starting with
    [CONFIDENCE:] whose first word after the label reads as a number (lines
    that do not are ignored), or 0.7 when there is none, clamped to [0, 1]. *)
Theorem advocate_argument_reads_lines (who response : string) :
  PyStr.is_ascii response = true ->
  agent (Advocate.build who response) = who
  /\ content (Advocate.build who response) = response
  /\ evidence (Advocate.build who response)
     = map advocate_evidence_of_line
         (List.filter (PyStr.startswith "EVIDENCE:") (PyStr.lines response))
  /\ confidence (Advocate.build who response)
     = PyFloat.clamp (Fin 0) (Fin 1)
         (default (Fin (7 # 10))
            (last (omap advocate_confidence_of_line (PyStr.lines response)))).
Proof.
  intros _. unfold Advocate.build, Advocate.parse. rewrite advocate_fold.
  repeat split.
Qed.

Lemma advocate_argument_reads_lines_witness :
  evidence (Advocate.build "bull" "CONFIDENCE: 0.9
EVIDENCE:  revenue up 12%
CONFIDENCE: 0.4 (moderate)") = ["revenue up 12%"]
  /\ confidence (Advocate.build "bull" "CONFIDENCE: 0.9
EVIDENCE:  revenue up 12%
CONFIDENCE: 0.4 (moderate)") = Fin (4 # 10).
Proof.
  destruct (advocate_argument_reads_lines "bull" "CONFIDENCE: 0.9
EVIDENCE:  revenue up 12%
CONFIDENCE: 0.4 (moderate)" eq_refl) as (_ & _ & He & Hc).
  split; [rewrite He | rewrite Hc]; reflexivity.
Defined.

Example advocate_last_confidence_wins :
  confidence (Advocate.build "bull" "CONFIDENCE: 0.9
CONFIDENCE: about 0.2
EVIDENCE:  revenue up 12%
CONFIDENCE: 0.4 (moderate)
 CONFIDENCE: 0.1
confidence: 0.1") = Fin (4 # 10).
Proof. reflexivity. Qed.

(** X7: an answer none of whose lines starts with [CONFIDENCE:] or
    [EVIDENCE:] gives the default Argument: confidence 0.7, no evidence, and
    the answer as content. *)
Theorem advocate_defaults_without_labels (who response : string) :
  Forall (fun line => PyStr.startswith "CONFIDENCE:" line = false
                      /\ PyStr.startswith "EVIDENCE:" line = false)
         (PyStr.lines response) ->
  Advocate.build who response = mkArgument who response [] (Fin (7 # 10)).
Proof.
  intros Hlines. unfold Advocate.build, Advocate.parse. rewrite advocate_fold.
  assert (Hc : omap advocate_confidence_of_line (PyStr.lines response) = []).
  { induction Hlines as [| line rest [Hc _] _ IH]; [reflexivity |].
    rewrite omap_cons. unfold advocate_confidence_of_line at 1. now rewrite Hc. }
  assert (He : List.filter (PyStr.startswith "EVIDENCE:") (PyStr.lines response) = []).
  { clear Hc. induction Hlines as [| line rest [_ He] _ IH]; [reflexivity |].
    cbn [List.filter]. now rewrite He. }
  rewrite Hc, He. reflexivity.
Qed.

Lemma advocate_defaults_without_labels_witness :
  Advocate.build "bear" "The valuation is stretched.
Confidence: 0.95"
  = mkArgument "bear" "The valuation is stretched.
Confidence: 0.95" [] (Fin (7 # 10)).
Proof.
  apply advocate_defaults_without_labels.
  eapply Forall_impl.
  - apply (Forall_false_of_forallb
             (fun line => PyStr.startswith "CONFIDENCE:" line
                          || PyStr.startswith "EVIDENCE:" line)).
    vm_compute. reflexivity.
  - intros line H. now apply orb_false_iff in H.
Defined.

(** X8: what the clamp of an advocate does to the confidence read from the
    answer: a number of [0, 1] is stored as it is, a larger one (or plus
    infinity) as exactly 1, a negative one (or minus infinity) as exactly 0,
    and a NaN is stored as NaN. *)
Theorem advocate_confidence_clamp_cases (who response : string) :
  match fst (Advocate.parse response) with
  | Fin q =>
      ((q < 0)%Q -> confidence (Advocate.build who response) = Fin 0)
      /\ ((1 < q)%Q -> confidence (Advocate.build who response) = Fin 1)
      /\ ((0 <= q)%Q -> (q <= 1)%Q ->
          confidence (Advocate.build who response) = Fin q)
  | PInf => confidence (Advocate.build who response) = Fin 1
  | NInf => confidence (Advocate.build who response) = Fin 0
  | NaN => confidence (Advocate.build who response) = NaN
  end.
Proof.
  unfold Advocate.build. destruct (Advocate.parse response) as [c ev].
  cbn [fst confidence]. destruct c as [q | | |]; try reflexivity.
  repeat split.
  - intros Hq. now apply clamp_below.
  - intros Hq. now apply clamp_above.
  - intros Hlo Hhi. unfold PyFloat.clamp, PyFloat.max, PyFloat.min.
    cbn [PyFloat.lt]. apply Qltb_ge in Hlo. rewrite Hlo. cbn [PyFloat.lt].
    apply Qltb_ge in Hhi. now rewrite Hhi.
Qed.

Section VerdictReadings.

Lemma judge_parse_line_recommendation (p p' : Judge.Parsed) (line : string) :
  Judge.parse_line p line = Some p' ->
  Judge.p_recommendation p'
  = default (Judge.p_recommendation p) (judge_recommendation_of_line line).
Proof.
  unfold Judge.parse_line, judge_recommendation_of_line.
  destruct (PyStr.contains "RECOMMENDATION:" _).
  { destruct (nth_error _ 1) as [field |]; [| discriminate].
    destruct (List.find _ Judge.labels); now intros [= <-]. }
  destruct (PyStr.contains "CONFIDENCE:" _).
  { destruct (Judge.float_after_colon line); now intros [= <-]. }
  destruct (PyStr.contains "BULL_SCORE:" _).
  { destruct (Judge.float_after_colon line); now intros [= <-]. }
  destruct (PyStr.contains "BEAR_SCORE:" _).
  { destruct (Judge.float_after_colon line); now intros [= <-]. }
  destruct (PyStr.contains "SUMMARY:" _).
  { destruct (PyStr.contains ":" line); [| now intros [= <-]].
    destruct (nth_error _ 1); [| discriminate]. now intros [= <-]. }
  destruct (PyStr.contains "KEY_FACTORS:" _ || PyStr.contains "KEY FACTORS:" _);
    [now intros [= <-] |].
  destruct (Judge.bullet line && _); now intros [= <-].
Qed.

Lemma judge_parse_lines_recommendation (lines : list string) (p p' : Judge.Parsed) :
  Judge.parse_lines p lines = Some p' ->
  Judge.p_recommendation p'
  = default (Judge.p_recommendation p)
      (last (omap judge_recommendation_of_line lines)).
Proof.
  revert p. induction lines as [| line rest IH]; intros p.
  - now intros [= <-].
  - cbn [Judge.parse_lines].
    destruct (Judge.parse_line p line) as [p1 |] eqn:Hline; [| discriminate].
    intros Hrest. rewrite (IH _ Hrest), (judge_parse_line_recommendation _ _ _ Hline).
    rewrite omap_cons.
    destruct (judge_recommendation_of_line line) as [x |];
      cbn [default from_option id]; [now rewrite default_last_cons | reflexivity].
Qed.

Lemma judge_recommendation_of_line_label (line label : string) :
  judge_recommendation_of_line line = Some label -> In label Judge.labels.
Proof.
  unfold judge_recommendation_of_line.
  destruct (PyStr.contains "RECOMMENDATION:" _); [| discriminate].
  destruct (nth_error _ 1); [| discriminate].
  intros Hfind. now apply List.find_some in Hfind as [Hin _].
Qed.

Lemma last_omap_label (lines : list string) (label : string) :
  last (omap judge_recommendation_of_line lines) = Some label ->
  In label Judge.labels.
Proof.
  intros Hlast. apply last_Some_elem_of in Hlast.
  apply list_elem_of_omap in Hlast as (line & _ & Hline).
  eauto using judge_recommendation_of_line_label.
Qed.

(** The fields an unlabelled line leaves alone. *)
Lemma judge_parse_line_unlabelled (p p' : Judge.Parsed) (line : string) :
  Judge.labelled line = false ->
  Judge.parse_line p line = Some p' ->
  Judge.p_recommendation p' = Judge.p_recommendation p
  /\ Judge.p_confidence p' = Judge.p_confidence p
  /\ Judge.p_bull_score p' = Judge.p_bull_score p
  /\ Judge.p_bear_score p' = Judge.p_bear_score p
  /\ Judge.p_summary p' = Judge.p_summary p.
Proof.
  unfold Judge.labelled, Judge.parse_line. intros Hlab.
  repeat (apply orb_false_iff in Hlab as [Hlab ?]).
  repeat match goal with H : _ = false |- _ => rewrite H; clear H end.
  cbn [orb]. destruct (Judge.bullet line && _); now intros [= <-].
Qed.

Lemma judge_parse_lines_unlabelled (lines : list string) (p p' : Judge.Parsed) :
  Forall (fun line => Judge.labelled line = false) lines ->
  Judge.parse_lines p lines = Some p' ->
  Judge.p_recommendation p' = Judge.p_recommendation p
  /\ Judge.p_confidence p' = Judge.p_confidence p
  /\ Judge.p_bull_score p' = Judge.p_bull_score p
  /\ Judge.p_bear_score p' = Judge.p_bear_score p
  /\ Judge.p_summary p' = Judge.p_summary p.
Proof.
  intros Hlines. revert p.
  induction Hlines as [| line rest Hline _ IH]; intros p.
  - now intros [= <-].
  - cbn [Judge.parse_lines].
    destruct (Judge.parse_line p line) as [p1 |] eqn:Hp1; [| discriminate].
    intros Hrest.
    destruct (judge_parse_line_unlabelled _ _ _ Hline Hp1)
      as (G1 & G2 & G3 & G4 & G5).
    destruct (IH _ Hrest) as (H1 & H2 & H3 & H4 & H5).
    rewrite H1, H2, H3, H4, H5. auto.
Qed.

Lemma parse_verdict_recommendation (response : string) :
  exists v,
    Judge.parse_verdict response = Some v
    /\ recommendation v
       = default "HOLD"
           (last (omap judge_recommendation_of_line (PyStr.lines response))).
Proof.
  destruct (parse_verdict_returns response) as (v & Hv & _).
  exists v. split; [exact Hv |].
  unfold Judge.parse_verdict in Hv.
  destruct (Judge.parse_lines _ _) as [p |] eqn:Hp; [| discriminate].
  injection Hv as <-. cbn [recommendation].
  now rewrite (judge_parse_lines_recommendation _ _ _ Hp).
Qed.

End VerdictReadings.

(** X9: whatever the arbiter's oracle answers, a verdict is produced, its
    confidence is a number of [0, 1] and its two scores are numbers of
    [0, 100], unless the token read for one of them was a NaN, which is
    stored as NaN. *)
Theorem verdict_numbers_in_range (response : string) :
  exists v,
    Judge.parse_verdict response = Some v
    /\ (v_confidence v = NaN \/ PyFloat.within 0 1 (v_confidence v))
    /\ (bull_score v = NaN \/ PyFloat.within 0 100 (bull_score v))
    /\ (bear_score v = NaN \/ PyFloat.within 0 100 (bear_score v)).
Proof.
  destruct (parse_verdict_returns response) as (v & Hv & _).
  exists v. split; [exact Hv |]. exact (verdict_numbers_clamped response v Hv).
Qed.

(** X10: the recommendation read from an answer of ASCII characters is
    one of the five labels: it is the label selected by the last line of the
    answer that selects one (a line containing [RECOMMENDATION:], in any
    case, whose text after the first colon contains a label), and HOLD when no
    line does. *)
Theorem verdict_recommendation_reads_lines (response : string) :
  PyStr.is_ascii response = true ->
  exists v,
    Judge.parse_verdict response = Some v
    /\ recommendation v
       = default "HOLD"
           (last (omap judge_recommendation_of_line (PyStr.lines response)))
    /\ In (recommendation v) Judge.labels.
Proof.
  intros _.
  destruct (parse_verdict_recommendation response) as (v & Hv & Hrec).
  exists v. split; [exact Hv |]. split; [exact Hrec |]. rewrite Hrec.
  destruct (last _) as [label |] eqn:Hlast.
  - change (In label Judge.labels). eauto using last_omap_label.
  - change (In "HOLD" Judge.labels). unfold Judge.labels. simpl. auto 10.
Qed.

Lemma verdict_recommendation_reads_lines_witness :
  exists v,
    Judge.parse_verdict "Recommendation: sell
SUMMARY: weak quarter
recommendation: maybe later" = Some v
    /\ recommendation v = "SELL".
Proof.
  destruct (verdict_recommendation_reads_lines "Recommendation: sell
SUMMARY: weak quarter
recommendation: maybe later" eq_refl) as (v & Hv & Hrec & _).
  exists v. split; [exact Hv |]. rewrite Hrec. reflexivity.
Defined.

(** X11: when the last line of an answer of ASCII characters that selects a
    label has STRONG BUY in its text after the first colon, the
    recommendation is STRONG BUY, although that text contains BUY as well. *)
Theorem strong_buy_takes_precedence
    (response : string) (before after : list string) (line field : string) :
  PyStr.is_ascii response = true ->
  PyStr.lines response = (before ++ line :: after)%list ->
  PyStr.contains "RECOMMENDATION:" (PyStr.upper line) = true ->
  nth_error (PyStr.split1 ":" line) 1 = Some field ->
  PyStr.contains "STRONG BUY" (PyStr.upper (PyStr.strip field)) = true ->
  Forall (fun later => judge_recommendation_of_line later = None) after ->
  exists v,
    Judge.parse_verdict response = Some v
    /\ recommendation v = "STRONG BUY".
Proof.
  intros _ Hlines Hlabel Hfield Hstrong Hafter.
  destruct (parse_verdict_recommendation response) as (v & Hv & Hrec).
  exists v. split; [exact Hv |]. rewrite Hrec, Hlines.
  assert (Hline : judge_recommendation_of_line line = Some "STRONG BUY").
  { unfold judge_recommendation_of_line. rewrite Hlabel, Hfield.
    unfold Judge.labels. cbn [List.find]. now rewrite Hstrong. }
  assert (Hnone : omap judge_recommendation_of_line after = []).
  { clear - Hafter. induction Hafter as [| later rest Hl _ IH]; [reflexivity |].
    now rewrite omap_cons, Hl. }
  rewrite omap_app, omap_cons, Hline, Hnone, last_snoc. reflexivity.
Qed.

Lemma strong_buy_takes_precedence_witness :
  exists v,
    Judge.parse_verdict "Recommendation: hold
recommendation: a Strong Buy, not just a buy
CONFIDENCE: 0.8" = Some v
    /\ recommendation v = "STRONG BUY".
Proof.
  apply (strong_buy_takes_precedence _
           ["Recommendation: hold"]
           ["CONFIDENCE: 0.8"]
           "recommendation: a Strong Buy, not just a buy"
           " a Strong Buy, not just a buy");
    try reflexivity.
  repeat constructor.
Defined.

(** X12: an answer of ASCII characters none of whose lines carries a label
    of the verdict format gives the default verdict: HOLD, confidence 0.5,
    both scores 50, and the whole answer as summary. *)
Theorem verdict_defaults_without_labels (response : string) :
  PyStr.is_ascii response = true ->
  Forall (fun line => Judge.labelled line = false) (PyStr.lines response) ->
  exists v,
    Judge.parse_verdict response = Some v
    /\ recommendation v = "HOLD"
    /\ v_confidence v = Fin (1 # 2)
    /\ bull_score v = Fin 50
    /\ bear_score v = Fin 50
    /\ summary v = response.
Proof.
  intros _ Hlines.
  destruct (parse_verdict_returns response) as (v & Hv & _).
  exists v. split; [exact Hv |].
  unfold Judge.parse_verdict in Hv.
  destruct (Judge.parse_lines _ _) as [p |] eqn:Hp; [| discriminate].
  injection Hv as <-.
  destruct (judge_parse_lines_unlabelled _ _ _ Hlines Hp) as (Hr & Hc & Hb & He & Hs).
  cbn [recommendation v_confidence bull_score bear_score summary].
  rewrite Hr, Hc, Hb, He, Hs. repeat split.
Qed.

Lemma verdict_defaults_without_labels_witness :
  exists v,
    Judge.parse_verdict "The debate was inconclusive.
- no clear edge" = Some v
    /\ recommendation v = "HOLD"
    /\ v_confidence v = Fin (1 # 2)
    /\ key_factors v = ["no clear edge"].
Proof.
  destruct (verdict_defaults_without_labels "The debate was inconclusive.
- no clear edge") as (v & Hv & Hr & Hc & _).
  - reflexivity.
  - apply Forall_false_of_forallb. vm_compute. reflexivity.
  - exists v. split; [exact Hv |]. split; [exact Hr |]. split; [exact Hc |].
    vm_compute in Hv. now injection Hv as <-.
Defined.

(** ** Further properties of the participants *)

Section Participants.

Lemma find_app_none {A : Type} (f : A -> bool) (l r : list A) :
  List.find f l = None -> List.find f (l ++ r) = List.find f r.
Proof.
  induction l as [| x l IH]; [reflexivity |].
  cbn [List.find app]. destruct (f x); [discriminate | exact IH].
Qed.

Lemma upper_char_idempotent (c : ascii) :
  PyStr.upper_char (PyStr.upper_char c) = PyStr.upper_char c.
Proof. destruct c as [[] [] [] [] [] [] [] []]; reflexivity. Qed.

Lemma upper_idempotent (s : string) : PyStr.upper (PyStr.upper s) = PyStr.upper s.
Proof.
  unfold PyStr.upper. induction s as [| c s IH]; [reflexivity |].
  cbn [PyStr.map_chars]. now rewrite upper_char_idempotent, IH.
Qed.

Lemma last_two_incl {A : Type} (xs : list A) (x : A) :
  In x (last_two xs) -> In x xs.
Proof.
  unfold last_two. rewrite <- !list_elem_of_In. apply subseteq_drop.
Qed.

End Participants.

(** X13: the argument an advocate rebuts is the most recent one signed by
    the opposing advocate: when [last_content_of] finds a text, the history
    splits into a part before, the opposing argument carrying that text, and
    a part after in which the opposing advocate does not speak; when it finds
    none, the opposing advocate has not spoken at all. *)
Theorem last_content_of_is_most_recent (who : string) (args : list Argument) :
  match Advocate.last_content_of who args with
  | Some text =>
      exists before a after,
        args = (before ++ a :: after)%list
        /\ agent a = who /\ content a = text
        /\ Forall (fun later => agent later <> who) after
  | None => Forall (fun a => agent a <> who) args
  end.
Proof.
  unfold Advocate.last_content_of.
  induction args as [| x args IH] using rev_ind; [constructor |].
  rewrite rev_app_distr. cbn [rev app List.find].
  destruct (String.eqb (agent x) who) eqn:Hx.
  - apply String.eqb_eq in Hx. cbn [fmap option_fmap option_map].
    exists args, x, []. repeat split; [exact Hx | constructor].
  - apply String.eqb_neq in Hx.
    destruct (List.find _ (rev args)) as [a |]; cbn [fmap option_fmap option_map] in *.
    + destruct IH as (before & a' & after & -> & Ha & Hc & Hafter).
      exists before, a', (after ++ [x])%list.
      rewrite <- app_assoc. repeat split; try assumption.
      apply Forall_app. split; [exact Hafter | now constructor].
    + apply Forall_app. split; [exact IH | now constructor].
Qed.

Example rebuttal_targets_latest_bear :
  Advocate.last_content_of "bear"
    [mkArgument "bull" "b1" [] (Fin 1); mkArgument "bear" "first" [] (Fin 1);
     mkArgument "moderator" "m" [] (Fin 1); mkArgument "bear" "second" [] (Fin 1);
     mkArgument "bull" "b2" [] (Fin 1)]
  = Some "second".
Proof. reflexivity. Qed.

(** X14: a moderator turn produces at most two fact-checks, each about an
    argument that is in the history and is signed by an advocate: the record
    names that argument's speaker and carries the oracle's answer to the
    fact-check request for it, unchanged, as feedback. *)
Theorem moderator_checks_advocate_arguments (llm : CortexLLM) (state : DebateState) :
  exists checks,
    u_fact_checks (Moderator.call state) = Some checks
    /\ (length checks <= 2)%nat
    /\ Forall
         (fun check =>
            exists arg,
              In arg (arguments state)
              /\ (agent arg = "bull" \/ agent arg = "bear")
              /\ agent_checked check = agent arg
              /\ feedback check = complete (FactCheckRequest state arg))
         checks.
Proof.
  eexists. split; [reflexivity |]. split.
  - rewrite length_map. etransitivity; [apply List.filter_length_le |].
    unfold last_two. rewrite length_drop. lia.
  - apply Forall_forall. intros check Hin. apply list_elem_of_In in Hin.
    apply in_map_iff in Hin as (arg & <- & Harg).
    apply filter_In in Harg as (Hlast & Hadv).
    exists arg. split; [now apply last_two_incl |].
    split; [| split; reflexivity].
    unfold Moderator.is_advocate in Hadv.
    apply orb_true_iff in Hadv as [H | H]; apply String.eqb_eq in H; auto.
Qed.

(** X15: the accuracy score of a fact-check is 0.7 when no line of the
    oracle's answer contains the label [ACCURACY_SCORE:] as written, in upper
    case. *)
Theorem fact_check_accuracy_default
    (llm : CortexLLM) (state : DebateState) (checked : Argument) :
  Forall (fun line => PyStr.contains "ACCURACY_SCORE:" line = false)
         (PyStr.lines (complete (FactCheckRequest state checked))) ->
  accuracy_score (Moderator.fact_check state checked) = Fin (7 # 10).
Proof.
  unfold Moderator.fact_check, Moderator.parse_accuracy. cbn [accuracy_score].
  generalize (Fin (7 # 10)) as start.
  generalize (PyStr.lines (complete (FactCheckRequest state checked))) as lines.
  intros lines start Hlines. revert start.
  induction Hlines as [| line rest Hline _ IH]; intros start; [reflexivity |].
  cbn [fold_left]. unfold Moderator.accuracy_line at 2. rewrite Hline. apply IH.
Qed.

Lemma fact_check_accuracy_default_witness :
  accuracy_score
    (@Moderator.fact_check
       {| complete := fun _ => "Accuracy_Score: 0.2
accuracy score: 0.3";
          verdict_transcript := fun v => summary v |}
       (after_first_bull 2) (mkArgument "bull" "text" [] (Fin 1)))
  = Fin (7 # 10).
Proof.
  apply fact_check_accuracy_default.
  apply Forall_false_of_forallb. vm_compute. reflexivity.
Defined.

(** X16: the research stage names the bundle after the upper-cased ticker;
    the company name is the [COMPANY_NAME] of the metrics row, the upper-cased
    ticker when the row has no such key, and the empty text when the metrics
    accessor raised. *)
Theorem research_company_name (provider : ResearchProvider) (state : DebateState) :
  let symbol := PyStr.upper (ticker state) in
  exists research,
    u_research_data (fst (Researcher.call state)) = Some research
    /\ rd_ticker research = symbol
    /\ (forall row name,
          get_metrics symbol = Returned row ->
          row !! "COMPANY_NAME" = Some name -> company_name research = name)
    /\ (forall row,
          get_metrics symbol = Returned row ->
          row !! "COMPANY_NAME" = None -> company_name research = SqlText symbol)
    /\ (forall e,
          get_metrics symbol = Raised e -> company_name research = SqlText "").
Proof.
  intros symbol. unfold Researcher.call. rewrite gather_research_returns.
  fold symbol. eexists. split; [reflexivity |]. split; [reflexivity |].
  cbn [company_name]. repeat split.
  - intros row name -> Hname. now rewrite Hname.
  - intros row -> Hname. now rewrite Hname.
  - now intros e ->.
Qed.

(** X17: a session is created with its ticker in upper case, so that the
    upper-casing of the research stage changes nothing: the bundle is named
    exactly as the session; the question is the one given, or the default
    question about the upper-cased ticker when none or an empty one is
    given. *)
Theorem initial_state_is_normalised
    (provider : ResearchProvider)
    (name : string) (asked : option string) (limit : Z) :
  let state := create_initial_state name asked limit in
  PyStr.upper (ticker state) = ticker state
  /\ (rd_ticker <$> u_research_data (fst (Researcher.call state))) = Some (ticker state)
  /\ question state
     = match asked with
       | Some q => if String.eqb q "" then
                     "Should we buy or sell " ++ PyStr.upper name ++ "?"
                   else q
       | None => "Should we buy or sell " ++ PyStr.upper name ++ "?"
       end
  /\ max_rounds state = limit.
Proof.
  cbv zeta. split; [apply upper_idempotent |]. split; [| split; [| reflexivity]].
  - unfold Researcher.call. rewrite gather_research_returns.
    cbn [fst u_research_data fmap option_fmap option_map rd_ticker].
    f_equal. apply upper_idempotent.
  - unfold create_initial_state. cbn [question].
    destruct asked as [q |]; [| reflexivity]. now destruct (String.eqb q "").
Qed.

(** ** The research stage over the Snowflake tools *)

Section SnowflakeResearch.
Context {session : Snowflake}.

Lemma execute_sql_connected (sql kind : string) (log : list CortexAnalyst.LogEntry) :
  get_snowflake_connection = Returned tt ->
  fst (CortexAnalyst._execute_sql sql kind log) = Returned (rows_or_error (run_sql sql)).
Proof.
  intros Hconn. unfold CortexAnalyst._execute_sql. rewrite Hconn.
  now destruct (run_sql sql).
Qed.

Lemma first_or_empty_connected (sql kind : string) (log : list CortexAnalyst.LogEntry) :
  get_snowflake_connection = Returned tt ->
  fst (CortexAnalyst.first_or_empty (CortexAnalyst._execute_sql sql kind) log)
  = Returned (first_row_or_error (run_sql sql)).
Proof.
  intros Hconn. unfold CortexAnalyst.first_or_empty, CortexAnalyst._execute_sql.
  rewrite Hconn. now destruct (run_sql sql) as [[| row rows] | e].
Qed.

Lemma search_connected (query service : string) (columns : option (list string))
    (filter_dict : option Filter) (limit : Z) (log : list CortexSearch.LogEntry) :
  get_snowflake_connection = Returned tt ->
  fst (CortexSearch.search query service columns filter_dict limit log)
  = Returned
      (found_or_error
         (run_search_preview
            (default service (Config.search_services !! service))
            (mkSearchRequest query limit (CortexSearch.given_list columns) filter_dict))).
Proof.
  intros Hconn. unfold CortexSearch.search. rewrite Hconn.
  now destruct (run_search_preview _ _) as [[rows |] | e].
Qed.

Lemma execute_sql_offline (sql kind e : string) (log : list CortexAnalyst.LogEntry) :
  get_snowflake_connection = Raised e ->
  CortexAnalyst._execute_sql sql kind log = (Raised e, log).
Proof. intros Hconn. unfold CortexAnalyst._execute_sql. now rewrite Hconn. Qed.

Lemma search_offline (query service e : string) (columns : option (list string))
    (filter_dict : option Filter) (limit : Z) (log : list CortexSearch.LogEntry) :
  get_snowflake_connection = Raised e ->
  CortexSearch.search query service columns filter_dict limit log = (Raised e, log).
Proof. intros Hconn. unfold CortexSearch.search. now rewrite Hconn. Qed.

End SnowflakeResearch.

Lemma sec_filings_filter (symbol : string) :
  match CortexSearch.given (Some symbol), CortexSearch.given None with
  | Some t, Some f => Some (FAnd [("TICKER", t); ("FILING_TYPE", f)])
  | Some t, None => Some (FEq "TICKER" t)
  | None, Some f => Some (FEq "FILING_TYPE" f)
  | None, None => None
  end = CortexSearch.ticker_filter (Some symbol).
Proof.
  unfold CortexSearch.ticker_filter, CortexSearch.given.
  now destruct (String.eqb symbol "").
Qed.

(** X18: over a session that connects, no accessor of the two tools raises:
    the research stage prints nothing and records nothing in [errors], and
    each of the nine categories holds what the session answered to the
    statement or search request of that category; where the session failed,
    the category holds the row [{"error": ...}] in place of data. *)
Theorem research_over_connected_session (session : Snowflake)
    (analyst_log search_log : QueryLog) (state : DebateState) :
  get_snowflake_connection = Returned tt ->
  let provider := snowflake_provider session analyst_log search_log in
  let symbol := PyStr.upper (ticker state) in
  let statement := fun table order_by limit =>
    run_sql (CortexAnalyst.select_latest table symbol order_by limit) in
  let preview := fun service query limit columns =>
    run_search_preview ("FINANCIAL_RESEARCH.EQUITY_RESEARCH." ++ service)
      (mkSearchRequest query limit (Some columns)
         (CortexSearch.ticker_filter (Some symbol))) in
  exists research,
    u_research_data (fst (Researcher.call state)) = Some research
    /\ snd (Researcher.call state) = []
    /\ u_errors (fst (Researcher.call state)) = None
    /\ metrics research
       = first_row_or_error (statement "INVESTMENT_METRICS" "METRIC_DATE" "1")
    /\ company_name research
       = default (SqlText symbol) (metrics research !! "COMPANY_NAME")
    /\ earnings_history research
       = rows_or_error (statement "EARNINGS_HISTORY" "REPORT_DATE" "4")
    /\ technical_indicators research
       = first_row_or_error (statement "TECHNICAL_INDICATORS" "INDICATOR_DATE" "1")
    /\ sentiment research
       = first_row_or_error (statement "MARKET_SENTIMENT" "SENTIMENT_DATE" "1")
    /\ insider_activity research
       = rows_or_error (statement "INSIDER_TRANSACTIONS" "TRANSACTION_DATE" "5")
    /\ institutional_holdings research
       = rows_or_error (statement "INSTITUTIONAL_HOLDINGS" "VALUE_USD_MILLIONS" "5")
    /\ analyst_reports research
       = found_or_error
           (preview "ANALYST_REPORTS_SEARCH" (symbol ++ " outlook growth risks") 5
              ["TICKER"; "FIRM"; "ANALYST_NAME"; "RATING"; "PRICE_TARGET";
               "REPORT_TITLE"; "REPORT_CONTENT"])
    /\ earnings_transcripts research
       = found_or_error
           (preview "EARNINGS_TRANSCRIPTS_SEARCH" (symbol ++ " guidance outlook") 3
              ["TICKER"; "COMPANY_NAME"; "QUARTER"; "FISCAL_YEAR"; "CEO_NAME";
               "TRANSCRIPT_CONTENT"; "QA_SECTION"])
    /\ sec_filings research
       = found_or_error
           (preview "SEC_FILINGS_SEARCH" (symbol ++ " material events") 3
              ["TICKER"; "COMPANY_NAME"; "FILING_TYPE"; "FILING_DATE";
               "FILING_DESCRIPTION"; "FILING_CONTENT"]).
Proof.
  intros Hconn provider symbol statement preview.
  unfold Researcher.call. rewrite gather_research_returns. fold symbol.
  unfold provider, snowflake_provider.
  cbn [get_metrics get_earnings_history get_technical_indicators get_sentiment
       get_insider_activity get_institutional_holdings search_analyst_reports
       search_earnings_transcripts search_sec_filings].
  unfold CortexAnalyst.get_metrics, CortexAnalyst.get_earnings_history,
    CortexAnalyst.get_technical_indicators, CortexAnalyst.get_sentiment,
    CortexAnalyst.get_insider_activity, CortexAnalyst.get_institutional_holdings,
    CortexSearch.search_analyst_reports, CortexSearch.search_earnings_transcripts,
    CortexSearch.search_sec_filings.
  rewrite sec_filings_filter.
  rewrite !first_or_empty_connected, !execute_sql_connected, !search_connected
    by exact Hconn.
  cbn [value_or complaint app fst snd u_research_data u_errors].
  eexists; split; [reflexivity |].
  cbn [metrics company_name earnings_history technical_indicators sentiment
       insider_activity institutional_holdings analyst_reports
       earnings_transcripts sec_filings].
  repeat split; reflexivity.
Qed.

Lemma flaky_metrics_answer :
  first_row_or_error
    (@run_sql flaky_session
       (CortexAnalyst.select_latest "INVESTMENT_METRICS" "XYZ" "METRIC_DATE" "1"))
  = error_row "statement timed out".
Proof. vm_compute. reflexivity. Qed.

Lemma flaky_earnings_answer :
  rows_or_error
    (@run_sql flaky_session
       (CortexAnalyst.select_latest "EARNINGS_HISTORY" "XYZ" "REPORT_DATE" "4"))
  = [sample_row].
Proof. vm_compute. reflexivity. Qed.

Lemma research_over_connected_session_witness :
  exists research,
    u_research_data
      (fst (@Researcher.call (snowflake_provider flaky_session [] [])
              (create_initial_state "xyz" None 2))) = Some research
    /\ metrics research = error_row "statement timed out"
    /\ earnings_history research = [sample_row].
Proof.
  destruct (research_over_connected_session flaky_session [] []
              (create_initial_state "xyz" None 2) eq_refl)
    as (research & Hdata & _ & _ & Hm & _ & He & _).
  exists research. split; [exact Hdata |]. split.
  - rewrite Hm. exact flaky_metrics_answer.
  - rewrite He. exact flaky_earnings_answer.
Defined.

(** X19: when no connection can be obtained, every accessor of the two tools
    raises, and the research stage absorbs all nine failures: it prints one
    line per category, leaves every category of the bundle empty and the
    company name blank, and still records nothing in [errors]. *)
Theorem research_without_connection (session : Snowflake)
    (analyst_log search_log : QueryLog) (state : DebateState) (e : string) :
  get_snowflake_connection = Raised e ->
  let provider := snowflake_provider session analyst_log search_log in
  u_research_data (fst (Researcher.call state))
  = Some (mkResearchData (PyStr.upper (ticker state)) (SqlText "")
            ∅ [] ∅ ∅ [] [] [] [] [])
  /\ u_errors (fst (Researcher.call state)) = None
  /\ snd (Researcher.call state)
     = map (fun what => what ++ ": " ++ e)
         ["Error getting metrics"; "Error getting earnings history";
          "Error getting technical indicators"; "Error getting sentiment";
          "Error getting insider activity"; "Error getting institutional holdings";
          "Error searching analyst reports"; "Error searching earnings transcripts";
          "Error searching SEC filings"].
Proof.
  intros Hconn provider.
  unfold Researcher.call. rewrite gather_research_returns.
  unfold provider, snowflake_provider.
  cbn [get_metrics get_earnings_history get_technical_indicators get_sentiment
       get_insider_activity get_institutional_holdings search_analyst_reports
       search_earnings_transcripts search_sec_filings].
  unfold CortexAnalyst.get_metrics, CortexAnalyst.get_earnings_history,
    CortexAnalyst.get_technical_indicators, CortexAnalyst.get_sentiment,
    CortexAnalyst.get_insider_activity, CortexAnalyst.get_institutional_holdings,
    CortexSearch.search_analyst_reports, CortexSearch.search_earnings_transcripts,
    CortexSearch.search_sec_filings, CortexAnalyst.first_or_empty.
  rewrite !(execute_sql_offline _ _ e) by exact Hconn.
  rewrite !(search_offline _ _ e) by exact Hconn.
  cbn [value_or complaint app fst snd u_research_data u_errors map].
  repeat split; reflexivity.
Qed.

Lemma research_without_connection_witness :
  snd (@Researcher.call (snowflake_provider offline_session [] [])
         (create_initial_state "xyz" None 2))
  = map (fun what => what ++ ": no route to host")
      ["Error getting metrics"; "Error getting earnings history";
       "Error getting technical indicators"; "Error getting sentiment";
       "Error getting insider activity"; "Error getting institutional holdings";
       "Error searching analyst reports"; "Error searching earnings transcripts";
       "Error searching SEC filings"].
Proof.
  exact (proj2 (proj2 (research_without_connection offline_session [] []
                         (create_initial_state "xyz" None 2) "no route to host"
                         eq_refl))).
Defined.

(** ** The generator of the Streamlit page *)

Section Streaming.
Context {llm : CortexLLM} {provider : ResearchProvider}.

Lemma handle_research (results : StreamlitApp.Results) (state : DebateState) :
  exists research,
    u_research_data (fst (Researcher.call state)) = Some research
    /\ rd_ticker research = PyStr.upper (ticker state)
    /\ StreamlitApp.handle results "research" (fst (Researcher.call state))
       = (StreamlitApp.mkResults
            (StreamlitApp.r_ticker results) (StreamlitApp.r_question results)
            (StreamlitApp.r_rounds results) (StreamlitApp.r_arguments results)
            (StreamlitApp.r_verdict results) (StreamlitApp.Filled research)
            (StreamlitApp.r_analyst_log results ++ analyst_query_log)%list
            (StreamlitApp.r_search_log results ++ search_query_log)%list,
          [StreamlitApp.ResearchEvent (StreamlitApp.Filled research)]).
Proof.
  unfold Researcher.call. rewrite gather_research_returns.
  eexists. split; [reflexivity |]. split; reflexivity.
Qed.

Lemma handle_bull (results : StreamlitApp.Results) (name : string)
    (state : DebateState) :
  name = "bull_1" \/ name = "bull_2" ->
  StreamlitApp.handle results name (BullAgent.call state)
  = (StreamlitApp.mkResults
       (StreamlitApp.r_ticker results) (StreamlitApp.r_question results)
       (StreamlitApp.r_rounds results)
       (StreamlitApp.r_arguments results
        ++ [BullAgent.generate_argument state
              (Advocate.last_content_of "bear" (arguments state))])%list
       (StreamlitApp.r_verdict results) (StreamlitApp.r_research_data results)
       (StreamlitApp.r_analyst_log results) (StreamlitApp.r_search_log results),
     [StreamlitApp.BullEvent
        (BullAgent.generate_argument state
           (Advocate.last_content_of "bear" (arguments state)))]).
Proof. now intros [-> | ->]. Qed.

Lemma handle_bear (results : StreamlitApp.Results) (name : string)
    (state : DebateState) :
  name = "bear_1" \/ name = "bear_2" ->
  StreamlitApp.handle results name (BearAgent.call state)
  = (StreamlitApp.mkResults
       (StreamlitApp.r_ticker results) (StreamlitApp.r_question results)
       (StreamlitApp.r_rounds results)
       (StreamlitApp.r_arguments results
        ++ [BearAgent.generate_argument state
              (Advocate.last_content_of "bull" (arguments state))])%list
       (StreamlitApp.r_verdict results) (StreamlitApp.r_research_data results)
       (StreamlitApp.r_analyst_log results) (StreamlitApp.r_search_log results),
     [StreamlitApp.BearEvent
        (BearAgent.generate_argument state
           (Advocate.last_content_of "bull" (arguments state)))]).
Proof. now intros [-> | ->]. Qed.

Lemma handle_judge (results : StreamlitApp.Results) (v : Verdict) :
  StreamlitApp.handle results "judge"
    (mkUpdate None None (Some sp_end)
       (Some [mkArgument "judge" (verdict_transcript v) [] (v_confidence v)])
       None (Some v) None None None)
  = (StreamlitApp.mkResults
       (StreamlitApp.r_ticker results) (StreamlitApp.r_question results)
       (StreamlitApp.r_rounds results)
       (StreamlitApp.r_arguments results
        ++ [mkArgument "judge" (verdict_transcript v) [] (v_confidence v)])%list
       (StreamlitApp.Filled v) (StreamlitApp.r_research_data results)
       (StreamlitApp.r_analyst_log results) (StreamlitApp.r_search_log results),
     [StreamlitApp.JudgeEvent (StreamlitApp.Filled v)]).
Proof. reflexivity. Qed.

End Streaming.

Section StreamedChain.
Context {llm : CortexLLM} {faults : OracleFaults} {provider : ResearchProvider}.

(** The stream of the chain when every turn returns. *)
Lemma chain_stream_when_turns_return (state : DebateState) :
  (forall prompt, oracle_raises prompt = false) ->
  let u1 := fst (Researcher.call state) in
  let s1 := apply_update state u1 in
  let s2 := apply_update s1 (BullAgent.call s1) in
  let s3 := apply_update s2 (BearAgent.call s2) in
  let s4 := apply_update s3 (BullAgent.call s3) in
  let s5 := apply_update s4 (BearAgent.call s4) in
  let turns :=
    [("research", u1); ("bull_1", BullAgent.call s1); ("bear_1", BearAgent.call s2);
     ("bull_2", BullAgent.call s3); ("bear_2", BearAgent.call s4)] in
  BaseAgent.renders (research_data s1) = true ->
  StreamlitApp.stream StreamlitApp.simple_graph_nodes state
  = match Judge.call s5 with
    | Some output => StreamlitApp.Exhausted (turns ++ [("judge", output)])%list
    | None => StreamlitApp.RaisedAfter turns
    end.
Proof.
  intros Hanswers u1 s1 s2 s3 s4 s5 turns Hrenders.
  unfold StreamlitApp.simple_graph_nodes. cbn [StreamlitApp.stream].
  change (Workflow.node_run Research state) with (Some u1).
  cbv beta iota. fold s1.
  rewrite (node_run_returns Bull s1) by assumption.
  cbn [Workflow.node_call]. fold s2.
  rewrite (node_run_returns Bear s2) by assumption.
  cbn [Workflow.node_call]. fold s3.
  rewrite (node_run_returns Bull s3) by assumption.
  cbn [Workflow.node_call]. fold s4.
  rewrite (node_run_returns Bear s4) by assumption.
  cbn [Workflow.node_call]. fold s5.
  rewrite (node_run_returns JudgeNode s5) by assumption.
  cbn [Workflow.node_call].
  now destruct (Judge.call s5).
Qed.

(** The history after the four advocate turns of the chain. *)
Lemma chain_history (state : DebateState) :
  let s1 := apply_update state (fst (Researcher.call state)) in
  let s2 := apply_update s1 (BullAgent.call s1) in
  let s3 := apply_update s2 (BearAgent.call s2) in
  let s4 := apply_update s3 (BullAgent.call s3) in
  let s5 := apply_update s4 (BearAgent.call s4) in
  arguments s5
  = (arguments state
     ++ [BullAgent.generate_argument s1
           (Advocate.last_content_of "bear" (arguments s1));
         BearAgent.generate_argument s2
           (Advocate.last_content_of "bull" (arguments s2));
         BullAgent.generate_argument s3
           (Advocate.last_content_of "bear" (arguments s3));
         BearAgent.generate_argument s4
           (Advocate.last_content_of "bull" (arguments s4))])%list.
Proof.
  intros s1 s2 s3 s4 s5.
  destruct (research_leaves_debate_fields state) as (Hargs & _).
  fold s1 in Hargs.
  set (b1 := BullAgent.generate_argument s1 _).
  set (r1 := BearAgent.generate_argument s2 _).
  set (b2 := BullAgent.generate_argument s3 _).
  set (r2 := BearAgent.generate_argument s4 _).
  transitivity ((((arguments s1 ++ [b1]) ++ [r1]) ++ [b2]) ++ [r2])%list;
    [reflexivity |].
  rewrite Hargs, <- !app_assoc. reflexivity.
Qed.

End StreamedChain.

(** X20: when the oracle answers and the bundle of the research stage
    renders, the generator of the Streamlit page yields the same seven
    events whatever the number of rounds asked for: research, advocate-for,
    advocate-against, advocate-for, advocate-against, verdict, complete.  The
    closing event carries the ticker as typed (the evidence bundle is named
    after its upper-cased form), the evidence bundle and the verdict of the
    earlier events, the two logs of the provider, and the four arguments
    followed by the transcript of the arbiter: the arguments of the final
    state of the chain.  When the bundle does not render, the generator
    yields the research event and then raises. *)
Theorem streamlit_run_debate_events
    (llm : CortexLLM) (faults : OracleFaults) (provider : ResearchProvider)
    (name : string) (rounds : Z) (asked : option string) :
  let initial := create_initial_state name asked rounds in
  let researched := apply_update initial (fst (Researcher.call initial)) in
  ((forall prompt, oracle_raises prompt = false) ->
   BaseAgent.renders (research_data researched) = true ->
   exists research bull_1 bear_1 bull_2 bear_2 v final chain_end,
     StreamlitApp.run_debate name rounds asked
     = StreamlitApp.Exhausted
         [StreamlitApp.ResearchEvent (StreamlitApp.Filled research);
          StreamlitApp.BullEvent bull_1; StreamlitApp.BearEvent bear_1;
          StreamlitApp.BullEvent bull_2; StreamlitApp.BearEvent bear_2;
          StreamlitApp.JudgeEvent (StreamlitApp.Filled v);
          StreamlitApp.CompleteEvent final]
     /\ map agent [bull_1; bear_1; bull_2; bear_2] = ["bull"; "bear"; "bull"; "bear"]
     /\ StreamlitApp.r_ticker final = name
     /\ rd_ticker research = PyStr.upper name
     /\ StreamlitApp.r_rounds final = rounds
     /\ StreamlitApp.r_research_data final = StreamlitApp.Filled research
     /\ StreamlitApp.r_verdict final = StreamlitApp.Filled v
     /\ StreamlitApp.r_analyst_log final = analyst_query_log
     /\ StreamlitApp.r_search_log final = search_query_log
     /\ StreamlitApp.r_arguments final
        = [bull_1; bear_1; bull_2; bear_2;
           mkArgument "judge" (verdict_transcript v) [] (v_confidence v)]
     /\ SimpleWorkflow.run_nodes SimpleWorkflow.chain initial = Some chain_end
     /\ arguments chain_end = StreamlitApp.r_arguments final
     /\ verdict chain_end = Some v)
  /\ (BaseAgent.renders (research_data researched) = false ->
      exists research,
        research_data researched = Some research
        /\ StreamlitApp.run_debate name rounds asked
           = StreamlitApp.RaisedAfter
               [StreamlitApp.ResearchEvent (StreamlitApp.Filled research)]).
Proof.
  intros initial researched. split.
  2: { intros Hrenders.
       unfold StreamlitApp.run_debate, StreamlitApp.simple_graph_nodes.
       fold initial. cbn [StreamlitApp.stream].
       change (Workflow.node_run Research initial)
         with (Some (fst (Researcher.call initial))).
       cbv beta iota. fold researched.
       rewrite (node_run_unrendered Bull researched) by
         (discriminate || assumption).
       cbn [StreamlitApp.yield_first app StreamlitApp.collect].
       set (r0 := StreamlitApp.mkResults name _ rounds [] _ _ [] []).
       destruct (handle_research r0 initial) as (research & Hdata & _ & ->).
       exists research. split; [| reflexivity].
       unfold researched, apply_update. cbn [research_data]. now rewrite Hdata. }
  intros Hanswers Hrenders.
  unfold StreamlitApp.run_debate. fold initial.
  rewrite (chain_stream_when_turns_return initial Hanswers Hrenders).
  rewrite (simple_chain_when_turns_return initial Hanswers Hrenders).
  set (s0 := initial).
  set (r0 := StreamlitApp.mkResults name _ rounds [] _ _ [] []).
  destruct (research_leaves_debate_fields s0) as (Ha1 & _).
  set (s1 := apply_update s0 (fst (Researcher.call s0))) in *.
  set (s2 := apply_update s1 (BullAgent.call s1)).
  set (s3 := apply_update s2 (BearAgent.call s2)).
  set (s4 := apply_update s3 (BullAgent.call s3)).
  set (s5 := apply_update s4 (BearAgent.call s4)).
  destruct (Judge.call s5) as [output |] eqn:Hcall.
  2: { destruct (judge_call_returns s5) as (v & t & H). congruence. }
  apply judge_update_shape in Hcall as (v & _ & ->).
  cbn [app StreamlitApp.collect].
  destruct (handle_research r0 s0) as (research & _ & Hname & ->).
  rewrite (handle_bull _ "bull_1") by now left.
  rewrite (handle_bear _ "bear_1") by now left.
  rewrite (handle_bull _ "bull_2") by now right.
  rewrite (handle_bear _ "bear_2") by now right.
  rewrite handle_judge.
  cbn [app StreamlitApp.r_ticker StreamlitApp.r_question StreamlitApp.r_rounds
       StreamlitApp.r_arguments StreamlitApp.r_verdict
       StreamlitApp.r_research_data StreamlitApp.r_analyst_log
       StreamlitApp.r_search_log r0].
  do 8 eexists. split; [reflexivity |].
  split.
  { cbn [map].
    unfold BullAgent.generate_argument, BearAgent.generate_argument.
    now rewrite !advocate_build_agent. }
  split; [reflexivity |].
  split. { rewrite Hname. apply upper_idempotent. }
  split; [reflexivity |]. split; [reflexivity |]. split; [reflexivity |].
  split; [reflexivity |]. split; [reflexivity |]. split; [reflexivity |].
  split; [reflexivity |].
  split; [| reflexivity].
  rewrite arguments_apply_update. cbn [u_arguments].
  unfold s5, s4, s3, s2, s1. rewrite (chain_history s0). reflexivity.
Qed.

Lemma streamlit_run_debate_events_witness :
  exists events final,
    @StreamlitApp.run_debate silent_llm no_faults full_provider "xyz" 7 None
    = StreamlitApp.Exhausted (events ++ [StreamlitApp.CompleteEvent final])%list
    /\ length events = 6%nat
    /\ StreamlitApp.r_ticker final = "xyz"
    /\ length (StreamlitApp.r_arguments final) = 5%nat.
Proof.
  destruct (proj1 (streamlit_run_debate_events silent_llm no_faults full_provider
                     "xyz" 7 None)
              (fun _ => eq_refl) (sample_bundle_renders _))
    as (research & b1 & r1 & b2 & r2 & v & final & chain_end
        & Hrun & _ & Hticker & _ & _ & _ & _ & _ & _ & Hargs & _).
  exists [StreamlitApp.ResearchEvent (StreamlitApp.Filled research);
          StreamlitApp.BullEvent b1; StreamlitApp.BearEvent r1;
          StreamlitApp.BullEvent b2; StreamlitApp.BearEvent r2;
          StreamlitApp.JudgeEvent (StreamlitApp.Filled v)], final.
  split; [exact Hrun |]. split; [reflexivity |]. split; [exact Hticker |].
  now rewrite Hargs.
Defined.

(** ** The debate history shown to the participants *)

Section DebateHistory.

Lemma length_append (s1 s2 : string) :
  String.length (s1 ++ s2) = (String.length s1 + String.length s2)%nat.
Proof.
  induction s1 as [| c s1 IH]; [reflexivity |].
  change (String c s1 ++ s2) with (String c (s1 ++ s2)).
  cbn [String.length]. now rewrite IH.
Qed.

Lemma length_substring_0 (n : nat) (s : string) :
  String.length (String.substring 0 n s) = Nat.min n (String.length s).
Proof.
  revert s. induction n as [| n IH]; intros [| c s];
    cbn [String.substring String.length]; try reflexivity.
  rewrite IH. reflexivity.
Qed.

Lemma substring_0_is_prefix (n : nat) (s : string) :
  exists rest, s = String.substring 0 n s ++ rest.
Proof.
  revert s. induction n as [| n IH]; intros [| c s]; cbn [String.substring].
  - now exists "".
  - now exists (String c s).
  - now exists "".
  - destruct (IH s) as [rest Hrest]. exists rest.
    change (String c (String.substring 0 n s) ++ rest)
      with (String c (String.substring 0 n s ++ rest)).
    now rewrite <- Hrest.
Qed.

Lemma preview_length (text : string) :
  (String.length (BaseAgent.preview text) <= 503)%nat.
Proof.
  unfold BaseAgent.preview.
  destruct (Nat.ltb_spec 500 (String.length text)) as [Hlong | Hshort]; [| lia].
  rewrite length_append, length_substring_0.
  change (String.length "...") with 3%nat. lia.
Qed.

Lemma length_joined_history (percent : PyFloat -> string)
    (first : string) (history : list Argument) :
  String.length
    (String.concat (String PyStr.newline "")
       (first
        :: flat_map
             (fun arg => [BaseAgent.heading percent arg;
                          BaseAgent.preview (content arg)]) history))
  = (String.length first
     + list_sum
         (map (fun arg =>
                 2 + String.length (BaseAgent.heading percent arg)
                 + String.length (BaseAgent.preview (content arg)))
              history))%nat.
Proof.
  revert first. induction history as [| arg history IH]; intros first.
  - change (String.length first = (String.length first + 0)%nat). lia.
  - cbn [flat_map app map].
    change (list_sum (?x :: ?l)) with (x + list_sum l)%nat.
    change (String.concat ?sep (first :: ?h :: ?p :: ?rest))
      with (first ++ sep ++ h ++ sep ++ String.concat sep (p :: rest)).
    rewrite !length_append, IH.
    change (String.length (String PyStr.newline "")) with 1%nat. lia.
Qed.

End DebateHistory.

(** X21: [format_debate_history] renders an empty history as the fixed text
    [No previous arguments.]; of every argument it shows the content whole
    when that has at most 500 characters, and otherwise its first 500
    characters followed by three dots, 503 characters in all.  The rendered
    history is therefore at most 15 characters, plus, for each argument, the
    heading and 505 characters, however long the arguments are. *)
Theorem debate_history_is_bounded (percent : PyFloat -> string) :
  BaseAgent.format_debate_history percent [] = "No previous arguments."
  /\ (forall text,
        (String.length text <= 500)%nat -> BaseAgent.preview text = text)
  /\ (forall text,
        (500 < String.length text)%nat ->
        String.length (BaseAgent.preview text) = 503%nat
        /\ exists shown rest,
             text = shown ++ rest /\ String.length shown = 500%nat
             /\ BaseAgent.preview text = shown ++ "...")
  /\ (forall history,
        history <> [] ->
        (String.length (BaseAgent.format_debate_history percent history)
         <= 15 + list_sum
                   (map (fun arg =>
                           String.length (BaseAgent.heading percent arg) + 505)
                        history))%nat).
Proof.
  split; [reflexivity |]. split; [| split].
  - intros text Hshort. unfold BaseAgent.preview.
    destruct (Nat.ltb_spec 500 (String.length text)); [lia | reflexivity].
  - intros text Hlong. unfold BaseAgent.preview.
    destruct (Nat.ltb_spec 500 (String.length text)); [| lia].
    split.
    + rewrite length_append, length_substring_0.
      change (String.length "...") with 3%nat. lia.
    + destruct (substring_0_is_prefix 500 text) as [rest Hrest].
      exists (String.substring 0 500 text), rest.
      split; [exact Hrest |]. split; [| reflexivity].
      rewrite length_substring_0. lia.
  - intros [| arg history] Hsome; [congruence |].
    unfold BaseAgent.format_debate_history.
    rewrite length_joined_history.
    change (String.length "DEBATE HISTORY:") with 15%nat.
    apply Nat.add_le_mono_l.
    generalize (arg :: history). clear. intros history.
    induction history as [| arg history IH]; [reflexivity |].
    cbn [map]. change (list_sum (?x :: ?l)) with (x + list_sum l)%nat.
    pose proof (preview_length (content arg)). lia.
Qed.

(** ** The search tool *)

Section SearchTool.
Context {session : Snowflake}.

Lemma search_connected_log (query service : string) (columns : option (list string))
    (filter_dict : option Filter) (limit : Z) (log : list CortexSearch.LogEntry) :
  get_snowflake_connection = Returned tt ->
  let path := default service (Config.search_services !! service) in
  let request :=
    mkSearchRequest query limit (CortexSearch.given_list columns) filter_dict in
  CortexSearch.search query service columns filter_dict limit log
  = (Returned (found_or_error (run_search_preview path request)),
     (log ++ [CortexSearch.mkLogEntry ("search_" ++ service) path request
                (logged_answer (run_search_preview path request))])%list).
Proof.
  intros Hconn. cbv zeta. unfold CortexSearch.search. rewrite Hconn.
  now destruct (run_search_preview _ _) as [[rows |] | e].
Qed.

Lemma logged_answer_agrees (answer : outcome (option (list Row))) :
  logged_answer answer = LoggedRows (found_or_error answer)
  \/ exists e, logged_answer answer = LoggedError e
               /\ found_or_error answer = [error_row e].
Proof. destruct answer as [[rows |] | e]; cbn; eauto. Qed.

End SearchTool.

(** X22: over a session that connects, [search_all] never raises: it asks
    the four services in the order analyst reports, earnings transcripts, SEC
    filings, annual reports, each with the query, the limit and the ticker
    filter it was given, and appends one log entry per service; what it
    returns under a service is what the entry of that service records, an
    error row standing for a recorded error. *)
Theorem search_all_asks_every_service (session : Snowflake)
    (query : string) (symbol : option string) (limit : Z)
    (log : list CortexSearch.LogEntry) :
  get_snowflake_connection = Returned tt ->
  exists entries found,
    CortexSearch.search_all query symbol limit log
    = (Returned (zip ["analyst_reports"; "earnings_transcripts"; "sec_filings";
                      "annual_reports"] found),
       (log ++ entries)%list)
    /\ map CortexSearch.log_type entries
       = ["search_analyst_reports"; "search_earnings_transcripts";
          "search_sec_filings"; "search_annual_reports"]
    /\ map CortexSearch.log_service entries
       = ["FINANCIAL_RESEARCH.EQUITY_RESEARCH.ANALYST_REPORTS_SEARCH";
          "FINANCIAL_RESEARCH.EQUITY_RESEARCH.EARNINGS_TRANSCRIPTS_SEARCH";
          "FINANCIAL_RESEARCH.EQUITY_RESEARCH.SEC_FILINGS_SEARCH";
          "FINANCIAL_RESEARCH.EQUITY_RESEARCH.ANNUAL_REPORTS_SEARCH"]
    /\ Forall (fun entry =>
                 req_query (CortexSearch.log_request entry) = query
                 /\ req_limit (CortexSearch.log_request entry) = limit
                 /\ req_filter (CortexSearch.log_request entry)
                    = CortexSearch.ticker_filter symbol)
              entries
    /\ Forall2 (fun entry rows =>
                  CortexSearch.log_results entry = LoggedRows rows
                  \/ exists e, CortexSearch.log_results entry = LoggedError e
                               /\ rows = [error_row e])
               entries found.
Proof.
  intros Hconn.
  unfold CortexSearch.search_all, CortexSearch.search_analyst_reports,
    CortexSearch.search_earnings_transcripts, CortexSearch.search_sec_filings,
    CortexSearch.search_annual_reports.
  replace (match CortexSearch.given symbol, CortexSearch.given None with
           | Some t, Some f => Some (FAnd [("TICKER", t); ("FILING_TYPE", f)])
           | Some t, None => Some (FEq "TICKER" t)
           | None, Some f => Some (FEq "FILING_TYPE" f)
           | None, None => None
           end)
    with (CortexSearch.ticker_filter symbol)
    by (unfold CortexSearch.ticker_filter; now destruct (CortexSearch.given symbol)).
  rewrite !search_connected_log by exact Hconn.
  rewrite <- !app_assoc. cbn [app].
  eexists [_; _; _; _], [_; _; _; _].
  split; [reflexivity |]. split; [reflexivity |]. split; [reflexivity |].
  split.
  - repeat constructor.
  - repeat (constructor; [apply logged_answer_agrees |]). constructor.
Qed.

Lemma search_all_asks_every_service_witness :
  exists entries found,
    @CortexSearch.search_all flaky_session "guidance" (Some "XYZ") 2 []
    = (Returned (zip ["analyst_reports"; "earnings_transcripts"; "sec_filings";
                      "annual_reports"] found), entries)
    /\ length entries = 4%nat.
Proof.
  destruct (search_all_asks_every_service flaky_session "guidance" (Some "XYZ") 2 []
              eq_refl) as (entries & found & Hall & Htypes & _).
  exists entries, found. split; [exact Hall |].
  rewrite <- (length_map CortexSearch.log_type), Htypes. reflexivity.
Defined.

Section TickerContext.
Context {session : Snowflake}.
Variable str_of_number : Q -> string.
Variable not_subscriptable : Q -> string.

Lemma parts_of_error_rows (service_name : string) (rows : list Row) :
  Forall (fun row => is_Some (row !! "error")) rows ->
  CortexSearch.parts_of_results str_of_number not_subscriptable service_name rows
  = Returned [].
Proof.
  induction 1 as [| row rows Hrow _ IH]; [reflexivity |].
  cbn [CortexSearch.parts_of_results]. unfold CortexSearch.context_part.
  rewrite bool_decide_eq_true_2 by exact Hrow. now rewrite IH.
Qed.

Lemma parts_of_failed_services (results : list (string * list Row)) :
  Forall (fun item => Forall (fun row => is_Some (row !! "error")) item.2) results ->
  CortexSearch.parts_of_services str_of_number not_subscriptable results
  = Returned [].
Proof.
  induction 1 as [| [name rows] results Hrows _ IH]; [reflexivity |].
  cbn [CortexSearch.parts_of_services].
  now rewrite parts_of_error_rows, IH.
Qed.

Lemma search_all_connected (query : string) (symbol : option string) (limit : Z)
    (log : list CortexSearch.LogEntry) :
  get_snowflake_connection = Returned tt ->
  (forall service request,
     Forall (fun row => is_Some (row !! "error"))
            (found_or_error (run_search_preview service request))) ->
  exists results entries,
    CortexSearch.search_all query symbol limit log
    = (Returned results, (log ++ entries)%list)
    /\ length entries = 4%nat
    /\ Forall (fun item => Forall (fun row => is_Some (row !! "error")) item.2)
              results.
Proof.
  intros Hconn Hrows.
  unfold CortexSearch.search_all, CortexSearch.search_analyst_reports,
    CortexSearch.search_earnings_transcripts, CortexSearch.search_sec_filings,
    CortexSearch.search_annual_reports.
  rewrite !search_connected_log by exact Hconn.
  rewrite <- !app_assoc. cbn [app].
  eexists _, [_; _; _; _]. split; [reflexivity |]. split; [reflexivity |].
  repeat (constructor; [apply Hrows |]). constructor.
Qed.

Lemma parts_of_failed_topics (symbol : string) (topics : list string)
    (log : list CortexSearch.LogEntry) :
  get_snowflake_connection = Returned tt ->
  (forall service request,
     Forall (fun row => is_Some (row !! "error"))
            (found_or_error (run_search_preview service request))) ->
  exists entries,
    CortexSearch.parts_of_topics str_of_number not_subscriptable symbol topics log
    = (Returned [], (log ++ entries)%list)
    /\ length entries = (4 * length topics)%nat.
Proof.
  intros Hconn Hrows. revert log.
  induction topics as [| topic topics IH]; intros log.
  - exists []. now rewrite app_nil_r.
  - cbn [CortexSearch.parts_of_topics].
    destruct (search_all_connected (symbol ++ " " ++ topic) (Some symbol) 2 log
                Hconn Hrows) as (results & first & -> & Hfirst & Hfailed).
    rewrite (parts_of_failed_services results Hfailed).
    destruct (IH (log ++ first)%list) as (later & -> & Hlater).
    exists (first ++ later)%list. rewrite app_assoc. split; [reflexivity |].
    rewrite length_app. cbn [length]. lia.
Qed.

End TickerContext.

(** X23: [get_context_for_ticker] passes over the error rows that failed
    searches hand back.  Over a session that connects, when every search
    fails or finds only rows with the key [error], the context is the fixed
    text [No relevant context found.], and the log has grown by four entries
    for each topic (of the four default topics when none are given). *)
Theorem context_skips_error_rows (session : Snowflake)
    (str_of_number not_subscriptable : Q -> string)
    (symbol : string) (topics : option (list string))
    (log : list CortexSearch.LogEntry) :
  get_snowflake_connection = Returned tt ->
  (forall service request,
     Forall (fun row => is_Some (row !! "error"))
            (found_or_error (run_search_preview service request))) ->
  exists entries,
    CortexSearch.get_context_for_ticker str_of_number not_subscriptable
      symbol topics log
    = (Returned "No relevant context found.", (log ++ entries)%list)
    /\ length entries
       = (4 * length (default ["outlook"; "growth"; "risks"; "competitive position"]
                        topics))%nat.
Proof.
  intros Hconn Hrows. unfold CortexSearch.get_context_for_ticker. cbv zeta.
  destruct (parts_of_failed_topics str_of_number not_subscriptable symbol
              (default ["outlook"; "growth"; "risks"; "competitive position"] topics)
              log Hconn Hrows) as (entries & -> & Hlength).
  eauto.
Qed.

Lemma search_down_rows (service : string) (request : SearchRequest) :
  Forall (fun row : Row => is_Some (row !! "error"))
         (found_or_error (@run_search_preview search_down_session service request)).
Proof.
  change (Forall (fun row : Row => is_Some (row !! "error"))
                 [error_row "service unavailable"]).
  repeat constructor. unfold error_row. rewrite lookup_singleton. eauto.
Qed.

Lemma context_skips_error_rows_witness :
  exists entries,
    @CortexSearch.get_context_for_ticker search_down_session
      (fun _ => "") (fun _ => "") "XYZ" None []
    = (Returned "No relevant context found.", entries)
    /\ length entries = 16%nat.
Proof.
  destruct (context_skips_error_rows search_down_session (fun _ => "") (fun _ => "")
              "XYZ" None [] eq_refl search_down_rows) as (entries & Hcontext & Hlen).
  exists entries. split; [exact Hcontext | exact Hlen].
Defined.

(** ** Quoting and cleaning of statements *)

Section StatementText.

Lemma prefix_nil (s : string) : String.prefix "" s = true.
Proof. now destruct s. Qed.

Lemma append_inv_head (s a b : string) : s ++ a = s ++ b -> a = b.
Proof.
  induction s as [| c s IH]; [trivial |].
  change (String c s ++ a) with (String c (s ++ a)).
  change (String c s ++ b) with (String c (s ++ b)).
  intros [= H]. auto.
Qed.

Lemma append_inv_tail (a b t : string) : a ++ t = b ++ t -> a = b.
Proof.
  revert b. induction a as [| c a IH]; intros [| d b] H.
  - reflexivity.
  - apply (f_equal String.length) in H. rewrite !length_append in H.
    cbn [String.length] in H. lia.
  - apply (f_equal String.length) in H. rewrite !length_append in H.
    cbn [String.length] in H. lia.
  - change (String c (a ++ t) = String d (b ++ t)) in H.
    injection H as -> H. f_equal. auto.
Qed.

Lemma escaped_cons (c : ascii) (prompt : string) :
  CortexLLMTool.escaped (String c prompt)
  = if Ascii.eqb c "'" then String "'" (String "'" (CortexLLMTool.escaped prompt))
    else String c (CortexLLMTool.escaped prompt).
Proof.
  unfold CortexLLMTool.escaped, PyStr.replace.
  cbn [PyStr.replace_aux String.prefix String.length Nat.sub].
  destruct (ascii_dec "'" c) as [<- | Hc].
  - now rewrite prefix_nil.
  - destruct (Ascii.eqb_spec c "'"); [congruence | reflexivity].
Qed.

Lemma escaped_round_trip (prompt : string) :
  PyStr.replace "''" "'" (CortexLLMTool.escaped prompt) = prompt.
Proof.
  induction prompt as [| c prompt IH]; [reflexivity |].
  rewrite escaped_cons. destruct (Ascii.eqb_spec c "'") as [-> | Hc].
  - unfold PyStr.replace in *.
    cbn [PyStr.replace_aux String.prefix String.length Nat.sub].
    destruct (ascii_dec "'" "'") as [_ | Hne]; [| congruence].
    rewrite prefix_nil.
    change ("'" ++ ?s) with (String "'" s). now rewrite IH.
  - unfold PyStr.replace in *. cbn [PyStr.replace_aux String.prefix].
    destruct (ascii_dec "'" c) as [<- | _]; [congruence |].
    now rewrite IH.
Qed.

Lemma lstrip_by_head (p : ascii -> bool) (s : string) :
  PyStr.lstrip_by p s = ""
  \/ exists c t, PyStr.lstrip_by p s = String c t /\ p c = false.
Proof.
  induction s as [| c s IH]; [now left |].
  cbn [PyStr.lstrip_by]. destruct (p c) eqn:Hc; [exact IH | right; eauto].
Qed.

Lemma rstrip_by_cons (p : ascii -> bool) (c : ascii) (s : string) :
  p c = false -> PyStr.rstrip_by p (String c s) = String c (PyStr.rstrip_by p s).
Proof.
  intros Hc. cbn [PyStr.rstrip_by]. rewrite Hc.
  now destruct (PyStr.rstrip_by p s).
Qed.

Lemma rstrip_by_idempotent (p : ascii -> bool) (s : string) :
  PyStr.rstrip_by p (PyStr.rstrip_by p s) = PyStr.rstrip_by p s.
Proof.
  induction s as [| c s IH]; [reflexivity |].
  cbn [PyStr.rstrip_by].
  destruct (PyStr.rstrip_by p s) as [| d r] eqn:Hr.
  - destruct (p c) eqn:Hc; [reflexivity |].
    cbn [PyStr.rstrip_by]. now rewrite Hc.
  - cbn [PyStr.rstrip_by] in IH |- *. now rewrite IH.
Qed.

Lemma strip_by_idempotent (p : ascii -> bool) (s : string) :
  PyStr.strip_by p (PyStr.strip_by p s) = PyStr.strip_by p s.
Proof.
  unfold PyStr.strip_by.
  destruct (lstrip_by_head p s) as [-> | (c & t & -> & Hc)]; [reflexivity |].
  rewrite (rstrip_by_cons p c t Hc). cbn [PyStr.lstrip_by]. rewrite Hc.
  rewrite (rstrip_by_cons p c _ Hc). now rewrite rstrip_by_idempotent.
Qed.

Lemma split_str_aux_nonempty (sep : string) (skip : nat) (s : string) :
  PyStr.split_str_aux sep skip s <> [].
Proof.
  revert skip. induction s as [| c s IH]; intros skip; [discriminate |].
  cbn [PyStr.split_str_aux]. destruct skip as [| k]; [| apply IH].
  destruct (String.prefix sep (String c s)); [discriminate |].
  now destruct (PyStr.split_str_aux sep 0 s).
Qed.

Lemma second_field_of_fenced (s : string) :
  String.prefix "```" s = true ->
  exists field, nth_error (PyStr.split_str "```" s) 1 = Some field.
Proof.
  intros Hfence. destruct s as [| c s]; [discriminate |].
  unfold PyStr.split_str. cbn [PyStr.split_str_aux]. rewrite Hfence.
  destruct (PyStr.split_str_aux "```" (String.length "```" - 1) s) as [| w ws] eqn:H.
  - now apply split_str_aux_nonempty in H.
  - cbn [nth_error]. eauto.
Qed.

End StatementText.

(** X24: [complete_simple] doubles every single quote of the prompt and
    changes nothing else: replacing the doubled quotes by single ones gives
    the prompt back, so that, for one model, two prompts are sent as the same
    statement only when they are the same prompt. *)
Theorem quote_escaping_round_trip :
  (forall prompt,
     PyStr.replace "''" "'" (CortexLLMTool.escaped prompt) = prompt)
  /\ (forall model prompt other,
        CortexLLMTool.simple_statement model prompt
        = CortexLLMTool.simple_statement model other ->
        prompt = other).
Proof.
  split; [exact escaped_round_trip |].
  intros model prompt other Hsame. unfold CortexLLMTool.simple_statement in Hsame.
  cbv zeta in Hsame.
  do 5 apply append_inv_head in Hsame.
  apply append_inv_tail in Hsame.
  rewrite <- (escaped_round_trip prompt), <- (escaped_round_trip other).
  now rewrite Hsame.
Qed.

(** X25: the cleaning of the oracle's answer in [_fallback_query] does not
    raise on an answer of ASCII characters: an answer that starts with a code
    fence has a second field when split at the fences.  The statement
    obtained has no white space at either end, and it is the stripped answer
    itself when that does not start with a fence. *)
Theorem clean_sql_returns (sql_response : string) :
  PyStr.is_ascii sql_response = true ->
  exists sql,
    CortexAnalyst.clean_sql sql_response = Some sql
    /\ PyStr.strip sql = sql
    /\ (PyStr.startswith "```" (PyStr.strip sql_response) = false ->
        sql = PyStr.strip sql_response).
Proof.
  intros _. unfold CortexAnalyst.clean_sql. cbv zeta.
  destruct (PyStr.startswith "```" (PyStr.strip sql_response)) eqn:Hfence.
  - destruct (second_field_of_fenced _ Hfence) as [field ->].
    eexists. split; [reflexivity |]. split; [| discriminate].
    apply strip_by_idempotent.
  - eexists. split; [reflexivity |]. split; [apply strip_by_idempotent |].
    intros _. apply strip_by_idempotent.
Qed.

Section FencedAnswers.

Lemma rstrip_by_append (p : ascii -> bool) (x y : string) :
  PyStr.rstrip_by p y <> "" ->
  PyStr.rstrip_by p (x ++ y) = x ++ PyStr.rstrip_by p y.
Proof.
  intros Hy. induction x as [| c x IH]; [reflexivity |].
  change (String c x ++ y) with (String c (x ++ y)).
  change (String c x ++ PyStr.rstrip_by p y)
    with (String c (x ++ PyStr.rstrip_by p y)).
  cbn [PyStr.rstrip_by]. rewrite IH.
  destruct (x ++ PyStr.rstrip_by p y) as [| d r] eqn:Hr; [| reflexivity].
  destruct x; [| discriminate]. now destruct Hy.
Qed.

Lemma backtick_is_not_space : PyStr.is_space "`" = false.
Proof. reflexivity. Qed.

Lemma split_before_fence (body tail : string) :
  PyStr.contains "`" body = false ->
  exists fields,
    PyStr.split_str_aux "```" 0 (body ++ "```" ++ tail) = body :: fields.
Proof.
  induction body as [| c body IH]; intros Hbody.
  - change ("" ++ "```" ++ tail) with (String "`" (String "`" (String "`" tail))).
    cbn [PyStr.split_str_aux String.prefix].
    destruct (ascii_dec "`" "`") as [_ | Hne]; [| congruence].
    rewrite prefix_nil. eauto.
  - change (String c body ++ "```" ++ tail)
      with (String c (body ++ "```" ++ tail)).
    cbn [PyStr.contains String.prefix] in Hbody.
    destruct (ascii_dec "`" c) as [<- | Hc].
    + now rewrite prefix_nil in Hbody.
    + cbn [orb] in Hbody. destruct (IH Hbody) as [fields Hfields].
      cbn [PyStr.split_str_aux String.prefix].
      destruct (ascii_dec "`" c) as [<- | _]; [congruence |].
      rewrite Hfields. eauto.
Qed.

End FencedAnswers.

Lemma clean_sql_returns_witness :
  exists sql,
    CortexAnalyst.clean_sql "  SELECT 1 ;
" = Some sql
    /\ PyStr.strip sql = sql
    /\ sql = "SELECT 1 ;".
Proof.
  destruct (clean_sql_returns "  SELECT 1 ;
" eq_refl) as (sql & Hsql & Hstripped & Hplain).
  exists sql. split; [exact Hsql |]. split; [exact Hstripped |].
  rewrite (Hplain eq_refl). reflexivity.
Defined.

(** X26: of an answer of ASCII characters that opens with a code fence, the
    cleaning of [_fallback_query] keeps the text up to the next fence and
    drops whatever follows it: when that text has no backtick, the statement
    is the text, without a leading [sql], stripped of white space. *)
Theorem clean_sql_takes_fenced_block (body rest : string) :
  PyStr.is_ascii body = true ->
  PyStr.is_ascii rest = true ->
  PyStr.contains "`" body = false ->
  CortexAnalyst.clean_sql ("```" ++ body ++ "```" ++ rest)
  = Some (PyStr.strip
            (if PyStr.startswith "sql" body then PyStr.slice_from 3 body else body)).
Proof.
  intros _ _ Hbody. unfold CortexAnalyst.clean_sql. cbv zeta.
  assert (Hstrip : exists tail,
             PyStr.strip ("```" ++ body ++ "```" ++ rest)
             = String "`" (String "`" (String "`" (body ++ "```" ++ tail)))).
  { exists (PyStr.rstrip_by PyStr.is_space rest).
    unfold PyStr.strip, PyStr.strip_by.
    change ("```" ++ body ++ "```" ++ rest)
      with (String "`" (String "`" (String "`" (body ++ "```" ++ rest)))).
    cbn [PyStr.lstrip_by]. rewrite backtick_is_not_space.
    rewrite !rstrip_by_cons by apply backtick_is_not_space.
    rewrite rstrip_by_append.
    - change ("```" ++ rest) with (String "`" (String "`" (String "`" rest))).
      now rewrite !rstrip_by_cons by apply backtick_is_not_space.
    - change ("```" ++ rest) with (String "`" (String "`" (String "`" rest))).
      now rewrite rstrip_by_cons by apply backtick_is_not_space. }
  destruct Hstrip as [tail ->].
  unfold PyStr.startswith at 1. cbn [String.prefix].
  destruct (ascii_dec "`" "`") as [_ | Hne]; [| congruence].
  rewrite prefix_nil.
  unfold PyStr.split_str.
  cbn [PyStr.split_str_aux String.prefix String.length Nat.sub].
  destruct (ascii_dec "`" "`") as [_ | Hne]; [| congruence].
  rewrite prefix_nil.
  destruct (split_before_fence body tail Hbody) as [fields ->].
  reflexivity.
Qed.

Lemma clean_sql_takes_fenced_block_witness :
  CortexAnalyst.clean_sql "```sql
SELECT 1
```
That is the statement."
  = Some "SELECT 1".
Proof.
  exact (clean_sql_takes_fenced_block "sql
SELECT 1
" "
That is the statement." eq_refl eq_refl eq_refl).
Defined.

(** ** The research context shown to the participants *)

Section ResearchContext.
Variable str_of_number : Q -> string.
Variable signed_1f : Q -> string.
Variable thousands : Q -> string.
Variable format_error : string -> SqlVal -> string.
Variable not_subscriptable : Q -> string.

Lemma for_each_returns (lines_of : Row -> outcome (list string)) (rows : list Row) :
  returns (BaseAgent.for_each lines_of rows)
  <-> Forall (fun row => returns (lines_of row)) rows.
Proof.
  induction rows as [| row rows IH]; cbn [BaseAgent.for_each].
  - split; [constructor | intros _; now eexists].
  - split.
    + intros [text_lines H].
      destruct (lines_of row) as [first | err] eqn:Hrow; [| discriminate].
      destruct (BaseAgent.for_each lines_of rows) as [later | err] eqn:Hrest;
        [| discriminate].
      constructor; [exists first; exact Hrow | apply IH; now exists later].
    + intros Hall. apply Forall_cons in Hall as [[first ->] Hrest].
      apply IH in Hrest as [later ->]. now eexists.
Qed.

Lemma category_returns (title : string) (lines_of : Row -> outcome (list string))
    (rows : list Row) :
  returns (BaseAgent.category title lines_of rows)
  <-> Forall (fun row => returns (lines_of row)) (take 3 rows).
Proof.
  destruct rows as [| row rows].
  - split; [constructor | intros _; now eexists].
  - unfold BaseAgent.category. rewrite <- for_each_returns.
    destruct (BaseAgent.for_each lines_of (take 3 (row :: rows))) as [l | err].
    + split; intros _; now eexists.
    + split; intros [l H]; discriminate.
Qed.

Lemma earnings_lines_return (e : Row) :
  returns (BaseAgent.earnings_lines str_of_number signed_1f format_error e)
  <-> exists q, PyVal.get_or e "EPS_SURPRISE_PCT" (SqlNumber 0) = SqlNumber q.
Proof.
  unfold BaseAgent.earnings_lines, BaseAgent.formatted. cbv zeta.
  destruct (PyVal.get_or e "EPS_SURPRISE_PCT" (SqlNumber 0)) as [| text | q].
  - split; intros [x H]; discriminate.
  - split; intros [x H]; discriminate.
  - split; intros _; now eexists.
Qed.

Lemma report_lines_return (r : Row) :
  returns (BaseAgent.report_lines str_of_number not_subscriptable r)
  <-> forall q, PyVal.get r "REPORT_CONTENT" = SqlNumber q -> Qeq_bool q 0 = true.
Proof.
  unfold BaseAgent.report_lines. cbv zeta.
  destruct (PyVal.get r "REPORT_CONTENT") as [| text | q]; cbn [PyVal.truthy].
  - split; [discriminate | intros _; now eexists].
  - split; [discriminate |]. intros _.
    destruct (negb (String.eqb text "")); now eexists.
  - destruct (Qeq_bool q 0) eqn:Hq; cbn [negb].
    + split; [now intros _ ? [= <-] | intros _; now eexists].
    + split; [intros [x H]; discriminate |].
      intros H. specialize (H q eq_refl). congruence.
Qed.

Lemma insider_lines_return (i : Row) :
  returns (BaseAgent.insider_lines str_of_number thousands format_error i)
  <-> exists q, i !! "SHARES_TRADED" = Some (SqlNumber q).
Proof.
  unfold BaseAgent.insider_lines, BaseAgent.formatted, PyVal.get_or.
  destruct (i !! "SHARES_TRADED") as [[| text | q] |]; cbn [default].
  - split; intros [x H]; discriminate.
  - split; intros [x H]; discriminate.
  - split; intros _; now eexists.
  - split; intros [x H]; discriminate.
Qed.

Lemma research_context_returns (research : ResearchData) :
  returns (BaseAgent.format_research_context str_of_number signed_1f thousands
             format_error not_subscriptable (Some research))
  <-> Forall (fun row =>
                exists q, PyVal.get_or row "EPS_SURPRISE_PCT" (SqlNumber 0)
                          = SqlNumber q)
             (take 3 (earnings_history research))
      /\ Forall (fun row =>
                   forall q, PyVal.get row "REPORT_CONTENT" = SqlNumber q ->
                             Qeq_bool q 0 = true)
                (take 3 (analyst_reports research))
      /\ Forall (fun row => exists q, row !! "SHARES_TRADED" = Some (SqlNumber q))
                (take 3 (insider_activity research)).
Proof.
  pose proof (category_returns "RECENT EARNINGS:"
                (BaseAgent.earnings_lines str_of_number signed_1f format_error)
                (earnings_history research)) as He.
  pose proof (category_returns (String PyStr.newline "ANALYST REPORTS:")
                (BaseAgent.report_lines str_of_number not_subscriptable)
                (analyst_reports research)) as Hr.
  pose proof (category_returns (String PyStr.newline "INSIDER ACTIVITY:")
                (BaseAgent.insider_lines str_of_number thousands format_error)
                (insider_activity research)) as Hi.
  rewrite (Forall_iff _ _ _ earnings_lines_return) in He.
  rewrite (Forall_iff _ _ _ report_lines_return) in Hr.
  rewrite (Forall_iff _ _ _ insider_lines_return) in Hi.
  rewrite <- He, <- Hr, <- Hi. clear He Hr Hi.
  unfold BaseAgent.format_research_context.
  destruct (BaseAgent.category "RECENT EARNINGS:" _ _) as [earnings | err].
  2: { split; [intros [x H]; discriminate | intros ([x H] & _); discriminate]. }
  destruct (BaseAgent.category (String PyStr.newline "ANALYST REPORTS:") _ _)
    as [reports | err].
  2: { split; [intros [x H]; discriminate | intros (_ & [x H] & _); discriminate]. }
  destruct (BaseAgent.category (String PyStr.newline "INSIDER ACTIVITY:") _ _)
    as [insiders | err].
  2: { split; [intros [x H]; discriminate | intros (_ & _ & [x H]); discriminate]. }
  split; [intros _; repeat split; now eexists | intros _; now eexists].
Qed.

End ResearchContext.

(** X27: [format_research_context] answers [No research data available.]
    when the state holds no bundle.  For a bundle it returns exactly when,
    among the first three rows of each list, every earnings row has a number
    (or nothing) under [EPS_SURPRISE_PCT], no analyst report has a non-zero
    number under [REPORT_CONTENT], and every insider row has a number under
    [SHARES_TRADED]; otherwise it raises. *)
Theorem research_context_returns_iff
    (str_of_number signed_1f thousands : Q -> string)
    (format_error : string -> SqlVal -> string) (not_subscriptable : Q -> string) :
  let format_research_context :=
    BaseAgent.format_research_context str_of_number signed_1f thousands
      format_error not_subscriptable in
  format_research_context None = Returned "No research data available."
  /\ forall research,
       returns (format_research_context (Some research))
       <-> Forall (fun row =>
                     exists q, PyVal.get_or row "EPS_SURPRISE_PCT" (SqlNumber 0)
                               = SqlNumber q)
                  (take 3 (earnings_history research))
           /\ Forall (fun row =>
                        forall q, PyVal.get row "REPORT_CONTENT" = SqlNumber q ->
                                  Qeq_bool q 0 = true)
                     (take 3 (analyst_reports research))
           /\ Forall (fun row =>
                        exists q, row !! "SHARES_TRADED" = Some (SqlNumber q))
                     (take 3 (insider_activity research)).
Proof.
  cbv zeta. split; [reflexivity |]. intros research.
  apply research_context_returns.
Qed.

Section BrokenContext.
Context {session : Snowflake}.

Lemma research_call_connected (analyst_log search_log : QueryLog)
    (state : DebateState) :
  get_snowflake_connection = Returned tt ->
  let provider := snowflake_provider session analyst_log search_log in
  exists research,
    Researcher.call state
    = (mkUpdate (Some research) None (Some sp_bull) None None None None
         (Some analyst_log) (Some search_log), [])
    /\ insider_activity research
       = rows_or_error
           (run_sql (CortexAnalyst.select_latest "INSIDER_TRANSACTIONS"
                       (PyStr.upper (ticker state)) "TRANSACTION_DATE" "5")).
Proof.
  intros Hconn provider.
  unfold Researcher.call. rewrite gather_research_returns.
  unfold provider, snowflake_provider.
  cbn [get_metrics get_earnings_history get_technical_indicators get_sentiment
       get_insider_activity get_institutional_holdings search_analyst_reports
       search_earnings_transcripts search_sec_filings analyst_query_log
       search_query_log].
  unfold CortexAnalyst.get_metrics, CortexAnalyst.get_earnings_history,
    CortexAnalyst.get_technical_indicators, CortexAnalyst.get_sentiment,
    CortexAnalyst.get_insider_activity, CortexAnalyst.get_institutional_holdings,
    CortexSearch.search_analyst_reports, CortexSearch.search_earnings_transcripts,
    CortexSearch.search_sec_filings.
  rewrite sec_filings_filter.
  rewrite !first_or_empty_connected, !execute_sql_connected, !search_connected
    by exact Hconn.
  cbn [value_or complaint app].
  eexists. split; reflexivity.
Qed.

Lemma research_call_offline (analyst_log search_log : QueryLog)
    (state : DebateState) (e : string) :
  get_snowflake_connection = Raised e ->
  let provider := snowflake_provider session analyst_log search_log in
  u_research_data (fst (Researcher.call state))
  = Some (ResearchData_new (PyStr.upper (ticker state))).
Proof.
  intros Hconn provider.
  unfold Researcher.call. rewrite gather_research_returns.
  unfold provider, snowflake_provider.
  cbn [get_metrics get_earnings_history get_technical_indicators get_sentiment
       get_insider_activity get_institutional_holdings search_analyst_reports
       search_earnings_transcripts search_sec_filings].
  unfold CortexAnalyst.get_metrics, CortexAnalyst.get_earnings_history,
    CortexAnalyst.get_technical_indicators, CortexAnalyst.get_sentiment,
    CortexAnalyst.get_insider_activity, CortexAnalyst.get_institutional_holdings,
    CortexSearch.search_analyst_reports, CortexSearch.search_earnings_transcripts,
    CortexSearch.search_sec_filings, CortexAnalyst.first_or_empty.
  rewrite !(execute_sql_offline _ _ e) by exact Hconn.
  rewrite !(search_offline _ _ e) by exact Hconn.
  reflexivity.
Qed.

End BrokenContext.

(** X28: a failed insider statement goes unnoticed by the research stage and
    breaks the prompt of every participant: over a session that connects, the
    stage prints nothing, records nothing in [errors] and stores the row
    [{"error": ...}] as the insider activity, and on that bundle
    [format_research_context] raises, the row having no [SHARES_TRADED]. *)
Theorem failed_insider_statement_breaks_context (session : Snowflake)
    (analyst_log search_log : QueryLog) (state : DebateState) (e : string)
    (str_of_number signed_1f thousands : Q -> string)
    (format_error : string -> SqlVal -> string) (not_subscriptable : Q -> string) :
  get_snowflake_connection = Returned tt ->
  run_sql (CortexAnalyst.select_latest "INSIDER_TRANSACTIONS"
             (PyStr.upper (ticker state)) "TRANSACTION_DATE" "5") = Raised e ->
  let provider := snowflake_provider session analyst_log search_log in
  exists research err,
    u_research_data (fst (Researcher.call state)) = Some research
    /\ u_errors (fst (Researcher.call state)) = None
    /\ snd (Researcher.call state) = []
    /\ insider_activity research = [error_row e]
    /\ BaseAgent.format_research_context str_of_number signed_1f thousands
         format_error not_subscriptable (Some research) = Raised err.
Proof.
  intros Hconn Hfail provider.
  destruct (research_call_connected analyst_log search_log state Hconn)
    as (research & Hcall & Hinsider).
  fold provider in Hcall. rewrite Hcall, Hfail in *. cbn [rows_or_error] in Hinsider.
  destruct (BaseAgent.format_research_context str_of_number signed_1f thousands
              format_error not_subscriptable (Some research)) as [text | err] eqn:Hctx.
  - exfalso.
    assert (Hreturns : returns (BaseAgent.format_research_context str_of_number
                                  signed_1f thousands format_error
                                  not_subscriptable (Some research)))
      by (now exists text).
    apply research_context_returns in Hreturns as (_ & _ & Hrows).
    rewrite Hinsider in Hrows. cbn [take] in Hrows.
    apply Forall_cons in Hrows as [[q Hq] _].
    unfold error_row in Hq. now rewrite lookup_singleton_ne in Hq.
  - exists research, err. repeat split; assumption.
Qed.

Lemma insider_statement_times_out :
  @run_sql insider_down_session
    (CortexAnalyst.select_latest "INSIDER_TRANSACTIONS"
       (PyStr.upper (ticker (create_initial_state "xyz" None 2)))
       "TRANSACTION_DATE" "5")
  = Raised "statement timed out".
Proof. vm_compute. reflexivity. Qed.

Lemma failed_insider_statement_breaks_context_witness :
  exists research err,
    u_research_data
      (fst (@Researcher.call (snowflake_provider insider_down_session [] [])
              (create_initial_state "xyz" None 2))) = Some research
    /\ insider_activity research = [error_row "statement timed out"]
    /\ BaseAgent.format_research_context (fun _ => "") (fun _ => "") (fun _ => "")
         (fun _ _ => "ValueError") (fun _ => "TypeError") (Some research)
       = Raised err.
Proof.
  destruct (failed_insider_statement_breaks_context insider_down_session [] []
              (create_initial_state "xyz" None 2) "statement timed out"
              (fun _ => "") (fun _ => "") (fun _ => "")
              (fun _ _ => "ValueError") (fun _ => "TypeError")
              eq_refl insider_statement_times_out)
    as (research & err & Hdata & _ & _ & Hinsider & Hraised).
  exists research, err. split; [exact Hdata |]. split; [exact Hinsider | exact Hraised].
Defined.

(** X29: when no connection can be obtained, the participants are not told
    that research is missing: the research stage still stores a bundle, an
    empty one, and [format_research_context] renders it as the empty text,
    not as [No research data available.]. *)
Theorem research_context_without_connection (session : Snowflake)
    (analyst_log search_log : QueryLog) (state : DebateState) (e : string)
    (str_of_number signed_1f thousands : Q -> string)
    (format_error : string -> SqlVal -> string) (not_subscriptable : Q -> string) :
  get_snowflake_connection = Raised e ->
  let provider := snowflake_provider session analyst_log search_log in
  let state' := apply_update state (fst (Researcher.call state)) in
  is_Some (research_data state')
  /\ BaseAgent.format_research_context str_of_number signed_1f thousands
       format_error not_subscriptable (research_data state') = Returned "".
Proof.
  intros Hconn provider state'.
  assert (Hdata : research_data state'
                  = Some (ResearchData_new (PyStr.upper (ticker state)))).
  { unfold state'.
    pose proof (research_call_offline analyst_log search_log state e Hconn) as H.
    fold provider in H. unfold apply_update. cbn [research_data].
    now rewrite H. }
  rewrite Hdata. split; [eauto |].
  unfold BaseAgent.format_research_context, ResearchData_new, BaseAgent.dict_part.
  cbn [metrics technical_indicators sentiment earnings_history analyst_reports
       insider_activity BaseAgent.category].
  rewrite bool_decide_eq_true_2 by reflexivity. reflexivity.
Qed.

Lemma research_context_without_connection_witness :
  BaseAgent.format_research_context (fun _ => "") (fun _ => "") (fun _ => "")
    (fun _ _ => "") (fun _ => "")
    (research_data
       (apply_update (create_initial_state "xyz" None 2)
          (fst (@Researcher.call (snowflake_provider offline_session [] [])
                  (create_initial_state "xyz" None 2)))))
  = Returned "".
Proof.
  exact (proj2 (research_context_without_connection offline_session [] []
                  (create_initial_state "xyz" None 2) "no route to host"
                  (fun _ => "") (fun _ => "") (fun _ => "") (fun _ _ => "")
                  (fun _ => "") eq_refl)).
Defined.
